(** * Lazy CSV Viewer: a shallow embedding of [main.py]

    The viewer ([LazyCSVViewerGUI]) keeps a handful of fields (file path,
    page size, current page, delimiter, hidden columns, ...) and re-reads
    the file from its start on every page load.  This development embeds

    - the Python builtins the callbacks rely on: [int] on the text of the
      page-size entry, iteration over a text file opened with an empty
      [newline], and [csv.reader] with the dialect the viewer selects
      ([csv.reader(f, delimiter=self.delimiter)]: the excel dialect with
      the delimiter replaced);
    - the viewer's state and its callbacks ([_load_page], [next_page],
      [prev_page], [_on_page_size_changed], [_on_delimiter_changed],
      [_apply_column_visibility], [open_file], [_toggle_expand_columns]);

    and then states and proves the properties of the paging engine.

    The text of a file is a [string] whose characters are the code points
    of the decoded text (the code points up to U+00FF); the reader compares
    a character only with the delimiter, the quote and the line breaks, and
    counts characters for its field size limit.  Decoding failures of the
    UTF-8 text layer of [open] are outside the model: a file is its decoded
    text.  The text of the page-size entry is a [Py.str], a list of code
    points of any size, because [int] tells the blanks and the decimal
    digits of all of Unicode from other characters. *)

From Stdlib Require Import ZArith Ascii String List Lia Bool.
From stdpp Require Import base tactics option list gmap strings.

Local Open Scope string_scope.
Local Open Scope Z_scope.

(** ** Characters *)

Definition LF : ascii := "010"%char.
Definition CR : ascii := "013"%char.
Definition TAB : ascii := "009"%char.
Definition DQUOTE : ascii := "034"%char.

Definition is_newline (c : ascii) : bool :=
  Ascii.eqb c LF || Ascii.eqb c CR.

(** [s] followed by the single character [c]. *)
Definition snoc (s : string) (c : ascii) : string := s +:+ String c "".

(** ** Python builtins *)

Module Py.

(** *** [str]

    A [str] is a sequence of Unicode code points.  The text of the
    page-size entry is kept as one: [int] reads the blanks and the decimal
    digits of every script, so it is defined on all code points. *)

Definition str : Type := list Z.

(** The [str] that holds the characters of [s]. *)
Definition str_of (s : string) : str :=
  (fun c => Z.of_nat (nat_of_ascii c)) <$> list_ascii_of_string s.

(** *** [int(text)] in base 10

    [int] of a [str] is CPython's [PyLong_FromUnicodeObject].  The text is
    first turned into ASCII ([_PyUnicode_TransformDecimalAndSpaceToASCII]):
    a blank becomes a space and a decimal digit of any script one of the
    digits 0 to 9.  [PyLong_FromString] then skips blanks on both sides,
    takes an optional sign and then decimal digits, where single
    underscores may separate digits; a number of more than
    [max_str_digits] digits is refused.  [None] stands for
    [ValueError]. *)

(** [Py_ISSPACE] *)
Definition isspace (c : ascii) : bool :=
  let n := nat_of_ascii c in
  ((9 <=? n)%nat && (n <=? 13)%nat) || (n =? 32)%nat.

(** [Py_UNICODE_ISSPACE]: the table [_Py_ascii_whitespace] below 128,
    [_PyUnicode_IsWhitespace] from there on. *)
Definition Py_UNICODE_ISSPACE (ch : Z) : bool :=
  if ch <? 128 then
    ((0x09 <=? ch) && (ch <=? 0x0D)) || ((0x1C <=? ch) && (ch <=? 0x20))
  else
    (ch =? 0x85) || (ch =? 0xA0) || (ch =? 0x1680)
    || ((0x2000 <=? ch) && (ch <=? 0x200A))
    || (ch =? 0x2028) || (ch =? 0x2029) || (ch =? 0x202F)
    || (ch =? 0x205F) || (ch =? 0x3000).

(** The code points with decimal digit value 0 (Unicode 14, the database
    of CPython 3.11); each is followed by the digits 1 to 9 of its
    script. *)
Definition decimal_zeros : list Z :=
  [0x0030; 0x0660; 0x06F0; 0x07C0; 0x0966; 0x09E6; 0x0A66; 0x0AE6;
   0x0B66; 0x0BE6; 0x0C66; 0x0CE6; 0x0D66; 0x0DE6; 0x0E50; 0x0ED0;
   0x0F20; 0x1040; 0x1090; 0x17E0; 0x1810; 0x1946; 0x19D0; 0x1A80;
   0x1A90; 0x1B50; 0x1BB0; 0x1C40; 0x1C50; 0xA620; 0xA8D0; 0xA900;
   0xA9D0; 0xA9F0; 0xAA50; 0xABF0; 0xFF10; 0x104A0; 0x10D30;
   0x11066; 0x110F0; 0x11136; 0x111D0; 0x112F0; 0x11450; 0x114D0;
   0x11650; 0x116C0; 0x11730; 0x118E0; 0x11950; 0x11C50; 0x11D50;
   0x11DA0; 0x16A60; 0x16AC0; 0x16B50; 0x1D7CE; 0x1D7D8; 0x1D7E2;
   0x1D7EC; 0x1D7F6; 0x1E140; 0x1E2F0; 0x1E950; 0x1FBF0].

(** [Py_UNICODE_TODECIMAL]: [None] is its result -1. *)
Definition Py_UNICODE_TODECIMAL (ch : Z) : option Z :=
  (fun zero => ch - zero)
  <$> find (fun zero => (zero <=? ch) && (ch <? zero + 10)) decimal_zeros.

Definition ascii_of (ch : Z) : ascii := ascii_of_nat (Z.to_nat ch).

(** The loop of [_PyUnicode_TransformDecimalAndSpaceToASCII]: the text
    is cut after the question mark that stands for the first character
    which is neither ASCII, nor a blank, nor a decimal digit. *)
Fixpoint transform (unicode : str) : string :=
  match unicode with
  | [] => ""
  | ch :: rest =>
      if ch <? 127 then String (ascii_of ch) (transform rest)
      else if Py_UNICODE_ISSPACE ch then String " " (transform rest)
      else
        match Py_UNICODE_TODECIMAL ch with
        | Some decimal => String (ascii_of (48 + decimal)) (transform rest)
        | None => "?"
        end
  end.

(** An ASCII text is handed on as it is. *)
Definition _PyUnicode_TransformDecimalAndSpaceToASCII (unicode : str)
  : string :=
  if forallb (fun ch => ch <? 128) unicode
  then string_of_list_ascii (ascii_of <$> unicode)
  else transform unicode.

Definition digit_of (c : ascii) : option Z :=
  let n := Z.of_nat (nat_of_ascii c) in
  if (48 <=? n) && (n <=? 57) then Some (n - 48) else None.

Fixpoint lstrip (s : string) : string :=
  match s with
  | String c rest => if isspace c then lstrip rest else s
  | EmptyString => s
  end.

Fixpoint all_space (s : string) : bool :=
  match s with
  | String c rest => isspace c && all_space rest
  | EmptyString => true
  end.

(** [sys.get_int_max_str_digits()], which the viewer leaves at its
    default. *)
Definition max_str_digits : Z := 4300.

(** Digits of the number; [count] is the number of digits read so far,
    and [after_digit] says that the character just read was a digit,
    which is when an underscore, trailing blanks or the end of the text
    are allowed. *)
Fixpoint digits (acc count : Z) (after_digit : bool) (s : string)
  : option Z :=
  match s with
  | EmptyString =>
      if after_digit && (count <=? max_str_digits) then Some acc else None
  | String c rest =>
      match digit_of c with
      | Some d => digits (10 * acc + d) (count + 1) true rest
      | None =>
          if negb after_digit then None
          else if Ascii.eqb c "_" then digits acc count false rest
          else if all_space s && (count <=? max_str_digits) then Some acc
          else None
      end
  end.

Definition PyLong_FromString (s : string) : option Z :=
  match lstrip s with
  | String "-" rest => Z.opp <$> digits 0 0 false rest
  | String "+" rest => digits 0 0 false rest
  | s => digits 0 0 false s
  end.

Definition int (text : str) : option Z :=
  PyLong_FromString (_PyUnicode_TransformDecimalAndSpaceToASCII text).

(** *** Iterating over a text file opened with an empty [newline]

    Lines end at LF, CR or CR LF and keep their line ending. *)

Fixpoint readlines (line : string) (text : string) : list string :=
  match text with
  | EmptyString =>
      match line with EmptyString => [] | _ => [line] end
  | String c rest =>
      if Ascii.eqb c LF then snoc line c :: readlines "" rest
      else if Ascii.eqb c CR then
        match rest with
        | String c' rest' =>
            if Ascii.eqb c' LF
            then snoc (snoc line c) c' :: readlines "" rest'
            else snoc line c :: readlines "" rest
        | EmptyString => snoc line c :: readlines "" rest
        end
      else readlines (snoc line c) rest
  end.

(** [[x] * n]: a non-positive count gives the empty list. *)
Definition list_repeat {A} (x : A) (n : Z) : list A :=
  replicate (Z.to_nat n) x.

(** [bool(n % 2)] *)
Definition is_odd (n : Z) : bool := negb (n mod 2 =? 0).

End Py.

(** ** [csv.reader]

    The reader of CPython's [_csv] module, for the dialect the viewer
    uses: the double quote as quote character, [doublequote] on, no
    escape character, no [skipinitialspace], not [strict],
    [QUOTE_MINIMAL].  The states that only an escape character reaches
    are left out. *)

Module Csv.

Inductive ParserState :=
| START_RECORD
| START_FIELD
| IN_FIELD
| IN_QUOTED_FIELD
| QUOTE_IN_QUOTED_FIELD
| EAT_CRNL.

Definition state_eqb (a b : ParserState) : bool :=
  match a, b with
  | START_RECORD, START_RECORD | START_FIELD, START_FIELD
  | IN_FIELD, IN_FIELD | IN_QUOTED_FIELD, IN_QUOTED_FIELD
  | QUOTE_IN_QUOTED_FIELD, QUOTE_IN_QUOTED_FIELD
  | EAT_CRNL, EAT_CRNL => true
  | _, _ => false
  end.

(** The parsing part of a reader object: the finished fields of the
    record being read and the characters of the field being read. *)
Record ReaderObj := mkReader {
  state : ParserState;
  fields : list string;
  field : string
}.

(** What the reader is fed: a character of a line, or the end-of-line
    mark the reader adds after the last character of each line. *)
Inductive input := Char (c : ascii) | EOL.

(** [csv.field_size_limit()] *)
Definition field_limit : Z := 131072.

Definition set_state (s : ParserState) (self : ReaderObj) : ReaderObj :=
  {| state := s; fields := fields self; field := field self |}.

Definition parse_reset : ReaderObj :=
  {| state := START_RECORD; fields := []; field := "" |}.

Definition parse_save_field (self : ReaderObj) : ReaderObj :=
  {| state := state self;
     fields := fields self ++ [field self];
     field := "" |}.

(** [None] is [csv.Error]: the field is at the size limit. *)
Definition parse_add_char (self : ReaderObj) (c : ascii) : option ReaderObj :=
  if field_limit <=? Z.of_nat (String.length (field self)) then None
  else Some {| state := state self;
               fields := fields self;
               field := snoc (field self) c |}.

(** The case [START_FIELD], which [START_RECORD] falls through to. *)
Definition start_field (delimiter : ascii) (self : ReaderObj) (c : input)
  : option ReaderObj :=
  match c with
  | EOL => Some (set_state START_RECORD (parse_save_field self))
  | Char ch =>
      if is_newline ch then
        Some (set_state EAT_CRNL (parse_save_field self))
      else if Ascii.eqb ch DQUOTE then
        Some (set_state IN_QUOTED_FIELD self)
      else if Ascii.eqb ch delimiter then
        Some (parse_save_field self)
      else
        set_state IN_FIELD <$> parse_add_char self ch
  end.

(** [None] is [csv.Error]. *)
Definition parse_process_char (delimiter : ascii) (self : ReaderObj)
    (c : input) : option ReaderObj :=
  match state self with
  | START_RECORD =>
      match c with
      | EOL => Some self
      | Char ch =>
          if is_newline ch then Some (set_state EAT_CRNL self)
          else start_field delimiter (set_state START_FIELD self) c
      end
  | START_FIELD => start_field delimiter self c
  | IN_FIELD =>
      match c with
      | EOL => Some (set_state START_RECORD (parse_save_field self))
      | Char ch =>
          if is_newline ch then
            Some (set_state EAT_CRNL (parse_save_field self))
          else if Ascii.eqb ch delimiter then
            Some (set_state START_FIELD (parse_save_field self))
          else parse_add_char self ch
      end
  | IN_QUOTED_FIELD =>
      match c with
      | EOL => Some self
      | Char ch =>
          if Ascii.eqb ch DQUOTE then
            Some (set_state QUOTE_IN_QUOTED_FIELD self)
          else parse_add_char self ch
      end
  | QUOTE_IN_QUOTED_FIELD =>
      match c with
      | EOL => Some (set_state START_RECORD (parse_save_field self))
      | Char ch =>
          if Ascii.eqb ch DQUOTE then
            set_state IN_QUOTED_FIELD <$> parse_add_char self ch
          else if Ascii.eqb ch delimiter then
            Some (set_state START_FIELD (parse_save_field self))
          else if is_newline ch then
            Some (set_state EAT_CRNL (parse_save_field self))
          else
            set_state IN_FIELD <$> parse_add_char self ch
      end
  | EAT_CRNL =>
      match c with
      | EOL => Some (set_state START_RECORD self)
      | Char ch => if is_newline ch then Some self else None
      end
  end.

Fixpoint process_chars (delimiter : ascii) (self : ReaderObj) (s : string)
  : option ReaderObj :=
  match s with
  | EmptyString => Some self
  | String c rest =>
      match parse_process_char delimiter self (Char c) with
      | Some self' => process_chars delimiter self' rest
      | None => None
      end
  end.

(** One turn of the loop of [Reader_iternext]: the characters of the
    line, then the end-of-line mark. *)
Definition process_line (delimiter : ascii) (self : ReaderObj)
    (line : string) : option ReaderObj :=
  match process_chars delimiter self line with
  | Some self' => parse_process_char delimiter self' EOL
  | None => None
  end.

(** What iterating a reader gives, lazily: a record and the rest, the
    end of the input ([StopIteration] from then on), or [csv.Error]. *)
Inductive records :=
| RCons (row : list string) (rest : records)
| RStop
| RError.

(** [Reader_iternext], called again and again.  [self] is the parser
    state within the record being read ([parse_reset] at the start of
    each call), [lines] the lines the file has left. *)
Fixpoint Reader_iter (delimiter : ascii) (self : ReaderObj)
    (lines : list string) : records :=
  match lines with
  | [] =>
      if negb (String.eqb (field self) "")
         || state_eqb (state self) IN_QUOTED_FIELD
      then RCons (fields (parse_save_field self)) RStop
      else RStop
  | line :: rest =>
      match process_line delimiter self line with
      | None => RError
      | Some self' =>
          if state_eqb (state self') START_RECORD
          then RCons (fields self') (Reader_iter delimiter parse_reset rest)
          else Reader_iter delimiter self' rest
      end
  end.

(** [csv.reader(f, delimiter=delimiter)] over the text of [f]. *)
Definition reader (delimiter : ascii) (text : string) : records :=
  Reader_iter delimiter parse_reset (Py.readlines "" text).

(** A reader that yields exactly the given records and then stops. *)
Fixpoint of_rows (rows : list (list string)) : records :=
  match rows with
  | [] => RStop
  | row :: rest => RCons row (of_rows rest)
  end.


(** [next(reader)]: the record and the advanced reader, or the
    exception. *)
Inductive next_result :=
| Yield (row : list string) (rest : records)
| Stop
| Error.

Definition next (r : records) : next_result :=
  match r with
  | RCons row rest => Yield row rest
  | RStop => Stop
  | RError => Error
  end.

End Csv.

(** ** The viewer *)

Inductive exn :=
| StopIteration
| OSError
| CsvError
| IndexError.

(** How a call ends. *)
Inductive outcome :=
| Returned
| Raised (e : exn).

(** A modal dialog of [tkinter.messagebox]. *)
Inductive dialog :=
| showerror (title message : string)
| showinfo (title message : string).

(** The part of the [ttk.Treeview] the page load writes: the column
    identifiers, the heading text of each, and the inserted items (values
    and stripe tag), first to last. *)
Record Treeview := mkTree {
  columns : list Z;
  headings : list (Z * string);
  children : list (list string * string)
}.

Record LazyCSVViewerGUI := mkViewer {
  file_path : option string;
  page_size : Z;
  current_page : Z;
  has_next_page : bool;
  delimiter : ascii;
  expand_columns : bool;
  hidden_columns : gset Z;
  column_headers : list string;
  tree : Treeview;
  (** the page number the label shows *)
  page_label : Z;
  (** whether the Show/Hide Columns button is enabled *)
  column_visibility_button : bool;
  (** the dialogs shown so far, oldest first *)
  messagebox : list dialog
}.

Definition delimiter_options : list (ascii * string) :=
  [ (","%char, "Comma (,)");
    (TAB, "Tab (\t)");
    (";"%char, "Semicolon (;)");
    ("|"%char, "Pipe (|)");
    (" "%char, "Space ( )") ].

(** [__init__], before any file is chosen. *)
Definition __init__ : LazyCSVViewerGUI :=
  {| file_path := None;
     page_size := 200;
     current_page := 0;
     has_next_page := false;
     delimiter := TAB;
     expand_columns := false;
     hidden_columns := ∅;
     column_headers := [];
     tree := {| columns := []; headings := []; children := [] |};
     page_label := 1;
     column_visibility_button := false;
     messagebox := [] |}.

(** *** Assignments to the fields *)

Definition set_file_path (v : option string) (self : LazyCSVViewerGUI) :=
  {| file_path := v; page_size := page_size self;
     current_page := current_page self; has_next_page := has_next_page self;
     delimiter := delimiter self; expand_columns := expand_columns self;
     hidden_columns := hidden_columns self;
     column_headers := column_headers self; tree := tree self;
     page_label := page_label self;
     column_visibility_button := column_visibility_button self;
     messagebox := messagebox self |}.

Definition set_page_size (v : Z) (self : LazyCSVViewerGUI) :=
  {| file_path := file_path self; page_size := v;
     current_page := current_page self; has_next_page := has_next_page self;
     delimiter := delimiter self; expand_columns := expand_columns self;
     hidden_columns := hidden_columns self;
     column_headers := column_headers self; tree := tree self;
     page_label := page_label self;
     column_visibility_button := column_visibility_button self;
     messagebox := messagebox self |}.

Definition set_current_page (v : Z) (self : LazyCSVViewerGUI) :=
  {| file_path := file_path self; page_size := page_size self;
     current_page := v; has_next_page := has_next_page self;
     delimiter := delimiter self; expand_columns := expand_columns self;
     hidden_columns := hidden_columns self;
     column_headers := column_headers self; tree := tree self;
     page_label := page_label self;
     column_visibility_button := column_visibility_button self;
     messagebox := messagebox self |}.

Definition set_has_next_page (v : bool) (self : LazyCSVViewerGUI) :=
  {| file_path := file_path self; page_size := page_size self;
     current_page := current_page self; has_next_page := v;
     delimiter := delimiter self; expand_columns := expand_columns self;
     hidden_columns := hidden_columns self;
     column_headers := column_headers self; tree := tree self;
     page_label := page_label self;
     column_visibility_button := column_visibility_button self;
     messagebox := messagebox self |}.

Definition set_delimiter (v : ascii) (self : LazyCSVViewerGUI) :=
  {| file_path := file_path self; page_size := page_size self;
     current_page := current_page self; has_next_page := has_next_page self;
     delimiter := v; expand_columns := expand_columns self;
     hidden_columns := hidden_columns self;
     column_headers := column_headers self; tree := tree self;
     page_label := page_label self;
     column_visibility_button := column_visibility_button self;
     messagebox := messagebox self |}.

Definition set_expand_columns (v : bool) (self : LazyCSVViewerGUI) :=
  {| file_path := file_path self; page_size := page_size self;
     current_page := current_page self; has_next_page := has_next_page self;
     delimiter := delimiter self; expand_columns := v;
     hidden_columns := hidden_columns self;
     column_headers := column_headers self; tree := tree self;
     page_label := page_label self;
     column_visibility_button := column_visibility_button self;
     messagebox := messagebox self |}.

Definition set_hidden_columns (v : gset Z) (self : LazyCSVViewerGUI) :=
  {| file_path := file_path self; page_size := page_size self;
     current_page := current_page self; has_next_page := has_next_page self;
     delimiter := delimiter self; expand_columns := expand_columns self;
     hidden_columns := v;
     column_headers := column_headers self; tree := tree self;
     page_label := page_label self;
     column_visibility_button := column_visibility_button self;
     messagebox := messagebox self |}.

Definition set_column_headers (v : list string) (self : LazyCSVViewerGUI) :=
  {| file_path := file_path self; page_size := page_size self;
     current_page := current_page self; has_next_page := has_next_page self;
     delimiter := delimiter self; expand_columns := expand_columns self;
     hidden_columns := hidden_columns self;
     column_headers := v; tree := tree self;
     page_label := page_label self;
     column_visibility_button := column_visibility_button self;
     messagebox := messagebox self |}.

Definition set_tree (v : Treeview) (self : LazyCSVViewerGUI) :=
  {| file_path := file_path self; page_size := page_size self;
     current_page := current_page self; has_next_page := has_next_page self;
     delimiter := delimiter self; expand_columns := expand_columns self;
     hidden_columns := hidden_columns self;
     column_headers := column_headers self; tree := v;
     page_label := page_label self;
     column_visibility_button := column_visibility_button self;
     messagebox := messagebox self |}.

Definition set_page_label (v : Z) (self : LazyCSVViewerGUI) :=
  {| file_path := file_path self; page_size := page_size self;
     current_page := current_page self; has_next_page := has_next_page self;
     delimiter := delimiter self; expand_columns := expand_columns self;
     hidden_columns := hidden_columns self;
     column_headers := column_headers self; tree := tree self;
     page_label := v;
     column_visibility_button := column_visibility_button self;
     messagebox := messagebox self |}.

Definition set_column_visibility_button (v : bool) (self : LazyCSVViewerGUI) :=
  {| file_path := file_path self; page_size := page_size self;
     current_page := current_page self; has_next_page := has_next_page self;
     delimiter := delimiter self; expand_columns := expand_columns self;
     hidden_columns := hidden_columns self;
     column_headers := column_headers self; tree := tree self;
     page_label := page_label self;
     column_visibility_button := v;
     messagebox := messagebox self |}.

(** [messagebox.showerror] / [messagebox.showinfo] *)
Definition show (d : dialog) (self : LazyCSVViewerGUI) :=
  {| file_path := file_path self; page_size := page_size self;
     current_page := current_page self; has_next_page := has_next_page self;
     delimiter := delimiter self; expand_columns := expand_columns self;
     hidden_columns := hidden_columns self;
     column_headers := column_headers self; tree := tree self;
     page_label := page_label self;
     column_visibility_button := column_visibility_button self;
     messagebox := messagebox self ++ [d] |}.

(** *** Statements

    A method body takes the viewer and gives the viewer it leaves behind
    together with how it ended.  Tk reports an exception that escapes a
    callback and keeps running, so the fields written before a [raise]
    stay written. *)

Definition stmt := LazyCSVViewerGUI -> LazyCSVViewerGUI * outcome.

Definition assign (f : LazyCSVViewerGUI -> LazyCSVViewerGUI) : stmt :=
  fun self => (f self, Returned).

Definition seq_stmt (a b : stmt) : stmt :=
  fun self =>
    match a self with
    | (self', Returned) => b self'
    | (self', Raised e) => (self', Raised e)
    end.

Notation "a >>> b" := (seq_stmt a b) (at level 62, right associativity).

(** The files on disk when a callback runs: the decoded text of each path
    that [open] can read; [None] where [open] raises [OSError]. *)
Definition disk := string -> option string.

(** *** List operations of the page load *)

Definition len {A} (l : list A) : Z := Z.of_nat (length l).

(** [l[i]] with Python's indexing: a negative index counts from the end,
    [None] is [IndexError]. *)
Definition getitem {A} (l : list A) (i : Z) : option A :=
  if (0 <=? i) && (i <? len l) then l !! Z.to_nat i
  else if (- len l <=? i) && (i <? 0) then l !! Z.to_nat (len l + i)
  else None.

(** [[i for i in range(len(header)) if i not in hidden]] *)
Definition visible_columns_of (header : list string) (hidden : gset Z)
  : list Z :=
  filter (fun i => i ∉ hidden) (seqZ 0 (len header)).

(** [row + [emptystring] * (len(header) - len(row))] *)
Definition padded_row_of (header row : list string) : list string :=
  row ++ Py.list_repeat "" (len header - len row).

(** [[padded_row[i] for i in visible_columns]] *)
Definition visible_row_of (padded_row : list string) (visible_columns : list Z)
  : option (list string) :=
  mapM (getitem padded_row) visible_columns.

(** [self.tree.delete( *self.tree.get_children())] *)
Definition tree_delete_children (t : Treeview) : Treeview :=
  {| columns := columns t; headings := headings t; children := [] |}.

(** Assigning the columns of the tree: Tk makes the columns anew, with no
    heading text yet. *)
Definition tree_set_columns (cols : list Z) (t : Treeview) : Treeview :=
  {| columns := cols; headings := []; children := children t |}.

(** [self.tree.heading(i, text=text)] *)
Definition tree_heading (i : Z) (text : string) (t : Treeview) : Treeview :=
  {| columns := columns t; headings := headings t ++ [(i, text)];
     children := children t |}.

(** [self.tree.insert(root, END, values=values, tags=(tag,))] *)
Definition tree_insert (values : list string) (tag : string) (t : Treeview)
  : Treeview :=
  {| columns := columns t; headings := headings t;
     children := children t ++ [(values, tag)] |}.

(** A path, or anything else, as a condition: [None] and the empty string
    are false. *)
Definition truthy (p : option string) : bool :=
  match p with
  | Some (String _ _) => true
  | _ => false
  end.

(** *** [_load_page] *)

(** [for i in visible_columns: self.tree.heading(i, text=header[i])] *)
Fixpoint setup_columns (header : list string) (visible_columns : list Z)
  : stmt :=
  fun self =>
    match visible_columns with
    | [] => (self, Returned)
    | i :: rest =>
        match getitem header i with
        | None => (self, Raised IndexError)
        | Some text =>
            setup_columns header rest
              (set_tree (tree_heading i text (tree self)) self)
        end
    end.

(** The loop that skips to the page: [next(reader)] for each of the
    [todo] values [range(start)] has left, where [StopIteration] leaves
    the loop.  [None] is [csv.Error], which is not caught. *)
Fixpoint skip_rows (todo : Z) (reader : Csv.records) : option Csv.records :=
  if todo <=? 0 then Some reader
  else
    match reader with
    | Csv.RCons _ rest => skip_rows (todo - 1) rest
    | Csv.RStop => Some Csv.RStop
    | Csv.RError => None
    end.

(** The loop [for row in reader] with its [else] branch.  (The two
    [tag_configure] calls after it only colour the stripes.) *)
Fixpoint load_rows (header : list string) (visible_columns : list Z)
    (row_count : Z) (reader : Csv.records) : stmt :=
  fun self =>
    match reader with
    | Csv.RCons row rest =>
        if row_count <? page_size self then
          let padded_row := padded_row_of header row in
          match visible_row_of padded_row visible_columns with
          | None => (self, Raised IndexError)
          | Some visible_row =>
              let tag := if Py.is_odd row_count then "odd" else "even" in
              load_rows header visible_columns (row_count + 1) rest
                (set_tree (tree_insert visible_row tag (tree self)) self)
          end
        else (set_has_next_page true self, Returned)
    | Csv.RStop => (set_has_next_page false self, Returned)
    | Csv.RError => (self, Raised CsvError)
    end.

Definition _load_page (files : disk) : stmt :=
  fun self =>
    match file_path self with
    | Some (String c p) =>
        let start := current_page self * page_size self in
        match files (String c p) with
        | None => (self, Raised OSError)
        | Some text =>
            match Csv.next (Csv.reader (delimiter self) text) with
            | Csv.Stop => (self, Raised StopIteration)
            | Csv.Error => (self, Raised CsvError)
            | Csv.Yield header reader =>
                let visible_columns :=
                  visible_columns_of header (hidden_columns self) in
                ( assign (set_column_headers header)
                  >>> assign (set_column_visibility_button true)
                  >>> assign (fun self =>
                        set_tree (tree_delete_children (tree self)) self)
                  >>> assign (fun self =>
                        set_tree (tree_set_columns visible_columns (tree self))
                          self)
                  >>> setup_columns header visible_columns
                  >>> (fun self =>
                        match skip_rows start reader with
                        | None => (self, Raised CsvError)
                        | Some reader =>
                            load_rows header visible_columns 0 reader self
                        end) ) self
            end
        end
    | _ => (self, Returned)
    end.

(** *** The callbacks *)

Definition when_file_loaded (body : stmt) : stmt :=
  fun self => if truthy (file_path self) then body self else (self, Returned).

(** The loop over [delimiter_options] that stops at the first entry whose
    display text is the selected one. *)
Fixpoint find_delimiter (selected_display : string)
    (options : list (ascii * string)) : option ascii :=
  match options with
  | [] => None
  | (delim, display) :: rest =>
      if String.eqb display selected_display then Some delim
      else find_delimiter selected_display rest
  end.

(** [selected_display] is what the dropdown holds. *)
Definition _on_delimiter_changed (files : disk) (selected_display : string)
  : stmt :=
  assign (fun self =>
            match find_delimiter selected_display delimiter_options with
            | Some delim => set_delimiter delim self
            | None => self
            end)
  >>> when_file_loaded (_load_page files).

(** [page_size_var] is the text of the page-size entry.  No exception of
    the model is a [ValueError], so the handler only sees the one [int]
    raises. *)
Definition _on_page_size_changed (files : disk) (page_size_var : Py.str)
  : stmt :=
  match Py.int page_size_var with
  | Some new_page_size =>
      if 0 <? new_page_size then
        assign (set_page_size new_page_size)
        >>> assign (set_current_page 0)
        >>> when_file_loaded (_load_page files)
      else
        assign (show (showerror "Error"
                        "Page size must be a positive integer."))
  | None =>
      assign (show (showerror "Error"
                      "Invalid page size. Please enter a number."))
  end.

Definition _toggle_expand_columns (files : disk) : stmt :=
  (fun self =>
     if expand_columns self then _load_page files self
     else (self, Returned))
  >>> assign (fun self => set_expand_columns (negb (expand_columns self)) self).

(** [column_vars] holds, for each column index of the selector, whether
    its box is checked. *)
Definition _apply_column_visibility (files : disk)
    (column_vars : list (Z * bool)) : stmt :=
  assign (set_hidden_columns ∅)
  >>> assign (fun self =>
        set_hidden_columns
          (foldl (fun hidden '(col_idx, var) =>
                    if negb var then hidden ∪ {[col_idx]} else hidden)
                 (hidden_columns self) column_vars) self)
  >>> _load_page files.

(** [path] is what the file dialog returned (empty when cancelled). *)
Definition open_file (files : disk) (path : string) : stmt :=
  match path with
  | String _ _ =>
      assign (set_file_path (Some path))
      >>> assign (set_current_page 0)
      >>> assign (set_hidden_columns ∅)
      >>> _load_page files
      >>> assign (set_column_visibility_button true)
  | EmptyString => assign id
  end.

Definition next_page (files : disk) : stmt :=
  fun self =>
    if has_next_page self then
      ( assign (fun self => set_current_page (current_page self + 1) self)
        >>> _load_page files
        >>> assign (fun self => set_page_label (current_page self + 1) self) )
        self
    else
      (show (showinfo "End" "You are at the end of the file.") self, Returned).

Definition prev_page (files : disk) : stmt :=
  fun self =>
    if 0 <? current_page self then
      ( assign (fun self => set_current_page (current_page self - 1) self)
        >>> _load_page files
        >>> assign (fun self => set_page_label (current_page self + 1) self) )
        self
    else
      (show (showinfo "Start" "You are at the start of the file.") self,
       Returned).

(** *** The event loop *)

(** What the user can do, with what the widgets hold at that moment. *)
Inductive event :=
| OpenFile (path : string)
| DelimiterChanged (selected_display : string)
| PageSizeChanged (page_size_var : Py.str)
| ToggleExpandColumns
| ApplyColumnVisibility (column_vars : list (Z * bool))
| NextPage
| PrevPage.

Definition callback (files : disk) (ev : event) : stmt :=
  match ev with
  | OpenFile path => open_file files path
  | DelimiterChanged d => _on_delimiter_changed files d
  | PageSizeChanged text => _on_page_size_changed files text
  | ToggleExpandColumns => _toggle_expand_columns files
  | ApplyColumnVisibility vars => _apply_column_visibility files vars
  | NextPage => next_page files
  | PrevPage => prev_page files
  end.

(** The viewer after the callback of [ev] ran against the files on disk
    at that moment. *)
Definition handle (files : disk) (ev : event) (self : LazyCSVViewerGUI)
  : LazyCSVViewerGUI :=
  fst (callback files ev self).

(** The viewers the user can reach: the files may change between any two
    events. *)
Inductive reachable : LazyCSVViewerGUI -> Prop :=
| reachable_init : reachable __init__
| reachable_handle files ev self :
    reachable self -> reachable (handle files ev self).

Definition one_file (path text : string) : disk :=
  fun p => if String.eqb p path then Some text else None.

(** *** A small file

    The header [a,b,c] and the records [1,2,3], [4,5] and [6,7,8,9], one
    per line, shown two rows to the page with the comma as delimiter. *)

Definition example_text : string :=
  "a,b,c" +:+ String LF ("1,2,3" +:+ String LF ("4,5" +:+ String LF
    ("6,7,8,9" +:+ String LF ""))).

Definition example_files : disk := one_file "data.csv" example_text.

Definition example_viewer (page_index : Z) : LazyCSVViewerGUI :=
  set_current_page page_index
    (set_page_size 2
       (set_delimiter ","%char
          (set_file_path (Some "data.csv") __init__))).

(** *** Vocabulary of the statements *)

(** The fields a page load has no business with. *)
Definition settings_kept (before after : LazyCSVViewerGUI) : Prop :=
  file_path after = file_path before
  /\ page_size after = page_size before
  /\ current_page after = current_page before
  /\ delimiter after = delimiter before
  /\ expand_columns after = expand_columns before
  /\ hidden_columns after = hidden_columns before
  /\ page_label after = page_label before
  /\ messagebox after = messagebox before.

(** The item the tree shows for the record [row]: its values are the
    padded record read at the visible columns. *)
Definition shows (header : list string) (visible_columns : list Z)
    (row : list string) (item : list string * string) : Prop :=
  visible_row_of (padded_row_of header row) visible_columns = Some (fst item).

(** The rows of the page the tree displays. *)
Definition page_rows (self : LazyCSVViewerGUI) : list (list string) :=
  fst <$> children (tree self).

(** The hidden indices that name a column of [header]. *)
Definition in_range_only (header : list string) (hidden : gset Z) : gset Z :=
  filter (fun i => 0 <= i < len header) hidden.

(** The text of a quoted field with value [body]: every quote of the value
    is written twice, and the whole stands between two quotes. *)
Fixpoint doubled (body : string) : string :=
  match body with
  | EmptyString => EmptyString
  | String c rest =>
      if Ascii.eqb c DQUOTE then String c (String c (doubled rest))
      else String c (doubled rest)
  end.

Definition quoted_field (body : string) : string :=
  String DQUOTE (doubled body +:+ String DQUOTE "").

(** No character of [s] is a line break: [s] lies within one line. *)
Fixpoint no_line_break (s : string) : bool :=
  match s with
  | EmptyString => true
  | String c rest => negb (is_newline c) && no_line_break rest
  end.

(** *** The column selector

    [_show_column_selector] opens a window with one check box per column
    header; the window's buttons change the boxes, and Apply hands them to
    [_apply_column_visibility]. *)

(** The boxes as the window first shows them: column [i] is checked when
    [i] is not hidden. *)
Definition column_vars_of (self : LazyCSVViewerGUI) : list (Z * bool) :=
  (fun i => (i, bool_decide (i ∉ hidden_columns self)))
    <$> seqZ 0 (len (column_headers self)).

(** The callback up to the moment the window waits for the user: [None]
    when there is no header to choose from (only a dialog is shown), else
    the boxes. *)
Definition _show_column_selector (self : LazyCSVViewerGUI)
  : LazyCSVViewerGUI * option (list (Z * bool)) :=
  match column_headers self with
  | [] => (show (showinfo "No Data" "Please load a CSV file first.") self,
           None)
  | _ :: _ => (self, Some (column_vars_of self))
  end.

(** The Select All and Deselect All buttons. *)
Definition select_all (column_vars : list (Z * bool)) : list (Z * bool) :=
  (fun '(i, _) => (i, true)) <$> column_vars.

Definition deselect_all (column_vars : list (Z * bool)) : list (Z * bool) :=
  (fun '(i, _) => (i, false)) <$> column_vars.

(** *** More vocabulary *)

(** The body of [_load_page] from the point where the header is read. *)
Definition show_page (header : list string) (reader : Csv.records) : stmt :=
  fun self =>
    let start := current_page self * page_size self in
    let visible_columns := visible_columns_of header (hidden_columns self) in
    ( assign (set_column_headers header)
      >>> assign (set_column_visibility_button true)
      >>> assign (fun self =>
            set_tree (tree_delete_children (tree self)) self)
      >>> assign (fun self =>
            set_tree (tree_set_columns visible_columns (tree self)) self)
      >>> setup_columns header visible_columns
      >>> (fun self =>
            match skip_rows start reader with
            | None => (self, Raised CsvError)
            | Some reader => load_rows header visible_columns 0 reader self
            end) ) self.

(** Every item of the tree has one value per column of the tree. *)
Definition rows_fit (t : Treeview) : Prop :=
  Forall (fun item : list string * string =>
            length (fst item) = length (columns t)) (children t).

(** The stripe tag of the item at position [k] of the page. *)
Definition stripe (k : nat) : string :=
  if Nat.even k then "even" else "odd".

(** The items of the tree carry the tags [even], [odd], [even], ... *)
Definition striped (t : Treeview) : Prop :=
  forall k item, children t !! k = Some item -> snd item = stripe k.

(** The value the page shows for column [i] of the record [row]: the field
    when the record has one there, the empty string when it is short. *)
Definition cell (row : list string) (i : Z) : string :=
  default "" (row !! Z.to_nat i).

(** **** Plain delimited text

    A field is plain when it holds no delimiter, quote or line break; a
    record is written as its fields with the delimiter between them, and a
    file as its records, each followed by the line ending. *)

Definition plain_char (d c : ascii) : bool :=
  negb (Ascii.eqb c d) && negb (Ascii.eqb c DQUOTE) && negb (is_newline c).

Fixpoint plain (d : ascii) (s : string) : bool :=
  match s with
  | EmptyString => true
  | String c rest => plain_char d c && plain d rest
  end.

Fixpoint join (d : ascii) (fields : list string) : string :=
  match fields with
  | [] => ""
  | [f] => f
  | f :: rest => f +:+ String d (join d rest)
  end.

Fixpoint write_lines (d : ascii) (eol : string) (rows : list (list string))
  : string :=
  match rows with
  | [] => ""
  | row :: rest => join d row +:+ eol +:+ write_lines d eol rest
  end.

(** A record the reader gives back as it was written: plain fields within
    the size limit, and not the single empty field (which writes as a
    blank line, as the record without fields does). *)
Definition plain_row (d : ascii) (row : list string) : Prop :=
  row <> [""]
  /\ Forall (fun f => plain d f = true
                      /\ Z.of_nat (String.length f) <= Csv.field_limit) row.

(** A plain record that writes as a line with something on it. *)
Definition writable (d : ascii) (row : list string) : Prop :=
  row <> [] /\ plain_row d row.

(** A reader that yields the given records and then goes on as [tail]
    says (more records, the end, or [csv.Error]). *)
Fixpoint rows_then (rows : list (list string)) (tail : Csv.records)
  : Csv.records :=
  match rows with
  | [] => tail
  | row :: rest => Csv.RCons row (rows_then rest tail)
  end.

(** A text on which the reader raises [csv.Error]: a one-field header
    line, then a field of one character more than the size limit. *)
Fixpoint repeat_char (n : nat) (c : ascii) : string :=
  match n with
  | O => ""
  | S n' => String c (repeat_char n' c)
  end.

Definition oversized_text : string :=
  String "h" (String LF (repeat_char (S (Z.to_nat Csv.field_limit)) "a")).

(** * Properties *)

(** ** Indexing stays in range *)

Lemma len_nonneg {A} (l : list A) : 0 <= len l.
Proof. unfold len. lia. Qed.

Lemma getitem_in_range {A} (l : list A) (i : Z) :
  0 <= i < len l -> is_Some (getitem l i).
Proof.
  intros Hi. unfold getitem.
  replace ((0 <=? i) && (i <? len l)) with true
    by (symmetry; apply andb_true_iff; split; [apply Z.leb_le|apply Z.ltb_lt]; lia).
  apply lookup_lt_is_Some. unfold len in Hi. lia.
Qed.

Lemma visible_columns_in_range header hidden :
  Forall (fun i => 0 <= i < len header) (visible_columns_of header hidden).
Proof.
  apply Forall_forall. intros i Hi.
  apply list_elem_of_filter in Hi as [_ Hi].
  apply elem_of_seqZ in Hi. lia.
Qed.

Lemma len_padded_row header row : len header <= len (padded_row_of header row).
Proof.
  unfold padded_row_of, len, Py.list_repeat.
  rewrite length_app, length_replicate. lia.
Qed.

Lemma visible_row_in_range header row visible_columns :
  Forall (fun i => 0 <= i < len header) visible_columns ->
  is_Some (visible_row_of (padded_row_of header row) visible_columns).
Proof.
  intros Hall. unfold visible_row_of. apply mapM_is_Some.
  eapply Forall_impl; [exact Hall|]. intros i Hi.
  unfold compose. cbv beta in Hi.
  apply getitem_in_range. pose proof (len_padded_row header row). lia.
Qed.

(** ** What a page load leaves alone *)

Lemma settings_kept_refl self : settings_kept self self.
Proof. repeat split. Qed.

Lemma settings_kept_trans a b c :
  settings_kept a b -> settings_kept b c -> settings_kept a c.
Proof. unfold settings_kept. intros; intuition congruence. Qed.

Lemma setup_columns_frame header visible_columns self :
  let r := setup_columns header visible_columns self in
  settings_kept self (fst r)
  /\ children (tree (fst r)) = children (tree self)
  /\ columns (tree (fst r)) = columns (tree self)
  /\ has_next_page (fst r) = has_next_page self
  /\ column_headers (fst r) = column_headers self
  /\ column_visibility_button (fst r) = column_visibility_button self.
Proof.
  revert self. induction visible_columns as [|i rest IH]; intros self; simpl.
  - repeat split.
  - destruct (getitem header i) as [text|]; [|repeat split].
    specialize (IH (set_tree (tree_heading i text (tree self)) self)).
    simpl in IH. exact IH.
Qed.

Lemma setup_columns_returns header visible_columns self :
  Forall (fun i => 0 <= i < len header) visible_columns ->
  snd (setup_columns header visible_columns self) = Returned.
Proof.
  revert self. induction visible_columns as [|i rest IH]; intros self Hall.
  - reflexivity.
  - inversion Hall as [|? ? Hi Hrest]; subst. simpl.
    destruct (getitem_in_range header i Hi) as [text ->].
    apply IH, Hrest.
Qed.

Lemma load_rows_frame header visible_columns row_count reader self :
  let r := load_rows header visible_columns row_count reader self in
  settings_kept self (fst r)
  /\ columns (tree (fst r)) = columns (tree self)
  /\ column_headers (fst r) = column_headers self
  /\ column_visibility_button (fst r) = column_visibility_button self.
Proof.
  revert row_count self.
  induction reader as [row rest IH| |]; intros row_count self; simpl;
    [|repeat split..].
  destruct (row_count <? page_size self); [|repeat split].
  destruct (visible_row_of _ _) as [visible_row|]; [|repeat split].
  specialize (IH (row_count + 1)
    (set_tree (tree_insert visible_row
       (if Py.is_odd row_count then "odd" else "even") (tree self)) self)).
  simpl in IH. exact IH.
Qed.

Lemma _load_page_frame files self :
  settings_kept self (fst (_load_page files self)).
Proof.
  unfold _load_page.
  destruct (file_path self) as [[|c p]|] eqn:Hpath;
    try apply settings_kept_refl.
  destruct (files (String c p)) as [text|]; [|apply settings_kept_refl].
  destruct (Csv.next _) as [header reader| |];
    try apply settings_kept_refl.
  unfold seq_stmt, assign.
  match goal with
  | |- context [setup_columns ?h ?v ?s] =>
      pose proof (setup_columns_frame h v s) as Hs;
      destruct (setup_columns h v s) as [s1 [|e]]
  end; simpl in Hs; destruct Hs as (Hs & _).
  - destruct (skip_rows _ _) as [reader'|].
    + match goal with
      | |- context [load_rows ?h ?v ?k ?r ?s] =>
          pose proof (load_rows_frame h v k r s) as Hl
      end.
      simpl in Hl. destruct Hl as (Hl & _).
      eapply settings_kept_trans; [|exact Hl].
      eapply settings_kept_trans; [|exact Hs]. repeat split.
    + simpl. eapply settings_kept_trans; [|exact Hs]. repeat split.
  - simpl. eapply settings_kept_trans; [|exact Hs]. repeat split.
Qed.

(** ** The reader *)

(** The reader is out of records at its first [next] exactly when the
    file has no character at all. *)
Lemma readlines_nonempty text : forall line,
  line <> "" \/ text <> "" -> Py.readlines line text <> [].
Proof.
  induction text as [|c rest IH]; intros line Hsome; simpl.
  - destruct line; [|discriminate]. destruct Hsome; congruence.
  - destruct (Ascii.eqb c LF); [discriminate|].
    destruct (Ascii.eqb c CR).
    + destruct rest as [|c' rest']; [discriminate|].
      destruct (Ascii.eqb c' LF); discriminate.
    + apply IH. left. unfold snoc. destruct line; discriminate.
Qed.

Lemma state_after_EOL delimiter self self' :
  Csv.parse_process_char delimiter self Csv.EOL = Some self' ->
  Csv.state self' = Csv.START_RECORD
  \/ Csv.state self' = Csv.IN_QUOTED_FIELD.
Proof.
  destruct self as [st fs f]. unfold Csv.parse_process_char.
  destruct st; simpl; intros [= <-]; simpl; auto.
Qed.

Lemma Reader_iter_yields delimiter lines : forall self,
  Csv.state self = Csv.IN_QUOTED_FIELD \/ lines <> [] ->
  Csv.Reader_iter delimiter self lines <> Csv.RStop.
Proof.
  induction lines as [|line rest IH]; intros self Hsome; simpl.
  - destruct Hsome as [-> | ?]; [|congruence].
    rewrite orb_true_r. discriminate.
  - unfold Csv.process_line.
    destruct (Csv.process_chars delimiter self line) as [self1|];
      [|discriminate].
    destruct (Csv.parse_process_char delimiter self1 Csv.EOL)
      as [self2|] eqn:Hend; [|discriminate].
    destruct (state_after_EOL _ _ _ Hend) as [-> | Hquoted].
    + discriminate.
    + rewrite Hquoted. simpl. apply IH. left. exact Hquoted.
Qed.

Lemma reader_stops_iff_empty delimiter text :
  Csv.reader delimiter text = Csv.RStop <-> text = "".
Proof.
  split.
  - intros Hstop. destruct text as [|c rest]; [reflexivity|].
    exfalso. revert Hstop. apply Reader_iter_yields. right.
    apply readlines_nonempty. right. discriminate.
  - intros ->. reflexivity.
Qed.

(** ** The page a load displays *)

Lemma skip_rows_of_rows rows todo :
  skip_rows todo (Csv.of_rows rows)
  = Some (Csv.of_rows (drop (Z.to_nat todo) rows)).
Proof.
  revert todo. induction rows as [|row rest IH]; intros todo; simpl.
  - rewrite drop_nil. destruct (todo <=? 0); reflexivity.
  - destruct (todo <=? 0) eqn:Htodo.
    + apply Z.leb_le in Htodo.
      replace (Z.to_nat todo) with 0%nat by lia. reflexivity.
    + apply Z.leb_gt in Htodo. rewrite IH.
      replace (Z.to_nat todo) with (S (Z.to_nat (todo - 1))) by lia.
      reflexivity.
Qed.

Lemma load_rows_of_rows header visible_columns rows row_count self :
  Forall (fun i => 0 <= i < len header) visible_columns ->
  exists self' items,
    load_rows header visible_columns row_count (Csv.of_rows rows) self
    = (self', Returned)
    /\ children (tree self') = (children (tree self) ++ items)%list
    /\ Forall2 (shows header visible_columns)
         (take (Z.to_nat (page_size self - row_count)) rows) items
    /\ has_next_page self'
       = bool_decide (Z.max 0 (page_size self - row_count) < len rows).
Proof.
  intros Hvis. revert row_count self.
  induction rows as [|row rest IH]; intros row_count self; simpl.
  - exists (set_has_next_page false self), []. simpl.
    rewrite app_nil_r, take_nil. repeat split; [constructor|].
    symmetry. apply bool_decide_eq_false. unfold len. simpl. lia.
  - destruct (row_count <? page_size self) eqn:Hroom.
    + apply Z.ltb_lt in Hroom.
      destruct (visible_row_in_range header row visible_columns Hvis)
        as [visible_row Hrow].
      rewrite Hrow.
      set (tag := if Py.is_odd row_count then "odd" else "even").
      destruct (IH (row_count + 1)
                  (set_tree (tree_insert visible_row tag (tree self)) self))
        as (self' & items & Hrun & Hchildren & Hitems & Hnext).
      simpl in Hchildren, Hitems, Hnext.
      exists self', ((visible_row, tag) :: items).
      split; [exact Hrun|]. split; [|split].
      * rewrite Hchildren, <- app_assoc. reflexivity.
      * replace (Z.to_nat (page_size self - row_count))
          with (S (Z.to_nat (page_size self - (row_count + 1)))) by lia.
        simpl. constructor; [exact Hrow|exact Hitems].
      * rewrite Hnext. apply bool_decide_ext.
        unfold len. simpl length. lia.
    + apply Z.ltb_ge in Hroom.
      exists (set_has_next_page true self), []. simpl.
      rewrite app_nil_r.
      replace (Z.to_nat (page_size self - row_count)) with 0%nat by lia.
      repeat split; [constructor|].
      symmetry. apply bool_decide_eq_true. unfold len. simpl length. lia.
Qed.

Lemma _load_page_of_rows files self path text header rows :
  file_path self = Some path -> path <> "" ->
  files path = Some text ->
  Csv.reader (delimiter self) text = Csv.of_rows (header :: rows) ->
  let visible_columns := visible_columns_of header (hidden_columns self) in
  let start := current_page self * page_size self in
  exists self',
    _load_page files self = (self', Returned)
    /\ settings_kept self self'
    /\ column_headers self' = header
    /\ columns (tree self') = visible_columns
    /\ Forall2 (shows header visible_columns)
         (take (Z.to_nat (page_size self)) (drop (Z.to_nat start) rows))
         (children (tree self'))
    /\ has_next_page self'
       = bool_decide (Z.max 0 (page_size self)
                      < len (drop (Z.to_nat start) rows)).
Proof.
  intros Hpath Hne Hfile Hreader visible_columns start.
  pose proof (visible_columns_in_range header (hidden_columns self)) as Hvis.
  fold visible_columns in Hvis.
  unfold _load_page. rewrite Hpath.
  destruct path as [|c p]; [congruence|].
  rewrite Hfile, Hreader. simpl Csv.next. cbv iota beta.
  unfold seq_stmt, assign.
  fold visible_columns.
  match goal with
  | |- context [setup_columns header visible_columns ?s] =>
      pose proof (setup_columns_frame header visible_columns s) as Hframe;
      pose proof (setup_columns_returns header visible_columns s Hvis)
        as Hret;
      destruct (setup_columns header visible_columns s) as [s1 o1]
  end.
  simpl in Hframe, Hret. subst o1.
  destruct Hframe as (Hkept & Hchildren & Hcolumns & _ & Hheaders & _).
  simpl in Hchildren, Hcolumns, Hheaders.
  assert (Hsame : page_size s1 = page_size self
                  /\ current_page s1 = current_page self).
  { destruct Hkept as (_ & ? & ? & _). simpl in *. auto. }
  destruct Hsame as [Hsize Hpage].
  fold start. rewrite skip_rows_of_rows.
  destruct (load_rows_of_rows header visible_columns
              (drop (Z.to_nat start) rows) 0 s1 Hvis)
    as (self' & items & Hrun & Hitems_eq & Hitems & Hnext).
  exists self'. rewrite Hrun.
  pose proof (load_rows_frame header visible_columns 0
                (Csv.of_rows (drop (Z.to_nat start) rows)) s1) as Hl.
  rewrite Hrun in Hl. simpl in Hl.
  destruct Hl as (Hkept' & Hcolumns' & Hheaders' & _).
  rewrite Hchildren in Hitems_eq. simpl in Hitems_eq.
  rewrite Hsize, Z.sub_0_r in Hitems, Hnext.
  split; [reflexivity|]. split; [|split; [|split; [|split]]].
  - unfold settings_kept in *. simpl in *. intuition congruence.
  - congruence.
  - congruence.
  - rewrite Hitems_eq. exact Hitems.
  - exact Hnext.
Qed.

Lemma len_page_rows self : len (page_rows self) = len (children (tree self)).
Proof. unfold page_rows, len. rewrite length_fmap. reflexivity. Qed.

(** Whatever the reader has in store, the loop of the page load ends
    normally or with the reader's [csv.Error], and when it ends normally
    it has added at most the rows [page_size] leaves room for, and has met
    a further row whenever [has_next_page] is set. *)
Lemma load_rows_bounded header visible_columns reader :
  Forall (fun i => 0 <= i < len header) visible_columns ->
  forall row_count self,
    let r := load_rows header visible_columns row_count reader self in
    (snd r = Returned \/ snd r = Raised CsvError)
    /\ (snd r = Returned ->
        len (children (tree (fst r)))
        <= len (children (tree self))
           + Z.max 0 (page_size self - row_count)
        /\ (len (children (tree (fst r)))
            < len (children (tree self)) + (page_size self - row_count) ->
            has_next_page (fst r) = false)).
Proof.
  intros Hvis.
  induction reader as [row rest IH| |]; intros row_count self r; subst r;
    simpl.
  - destruct (row_count <? page_size self) eqn:Hroom.
    + apply Z.ltb_lt in Hroom.
      destruct (visible_row_in_range header row visible_columns Hvis)
        as [visible_row ->].
      set (tag := if Py.is_odd row_count then "odd" else "even").
      specialize (IH (row_count + 1)
        (set_tree (tree_insert visible_row tag (tree self)) self)).
      simpl in IH. destruct IH as [Hout Hbound]. split; [exact Hout|].
      intros Hret. specialize (Hbound Hret).
      unfold len in *. rewrite length_app in Hbound. simpl length in Hbound.
      split; [lia|]. intros Hfew. apply Hbound. lia.
    + apply Z.ltb_ge in Hroom. split; [left; reflexivity|].
      intros _. simpl. split; [lia|]. intros Hfew. lia.
  - split; [left; reflexivity|]. intros _. simpl. split; [lia|reflexivity].
  - split; [right; reflexivity|]. discriminate.
Qed.

(** C1. For a file that [open] can read and that is not empty, a page
    size above zero and a page index of at least zero: the page load ends
    normally unless the reader raises [csv.Error], and it does end
    normally when the reader yields a header and then the data rows; when
    it ends normally the tree holds at most [page_size] rows, and when it
    holds fewer than [page_size] rows [has_next_page] is false. *)
Theorem load_page_rows_bounded files self path text :
  file_path self = Some path -> path <> "" ->
  files path = Some text -> text <> "" ->
  0 < page_size self -> 0 <= current_page self ->
  let page := _load_page files self in
  (snd page = Returned \/ snd page = Raised CsvError)
  /\ (forall header rows,
        Csv.reader (delimiter self) text = Csv.of_rows (header :: rows) ->
        snd page = Returned)
  /\ (snd page = Returned ->
      len (page_rows (fst page)) <= page_size self
      /\ (len (page_rows (fst page)) < page_size self ->
          has_next_page (fst page) = false)).
Proof.
  intros Hpath Hne Hfile Htext Hsize Hpage page.
  assert (Hrows : forall header rows,
             Csv.reader (delimiter self) text = Csv.of_rows (header :: rows) ->
             snd page = Returned).
  { intros header rows Hreader.
    destruct (_load_page_of_rows files self path text header rows
                Hpath Hne Hfile Hreader) as (self' & Hrun & _).
    subst page. rewrite Hrun. reflexivity. }
  cut ((snd page = Returned \/ snd page = Raised CsvError)
       /\ (snd page = Returned ->
           len (page_rows (fst page)) <= page_size self
           /\ (len (page_rows (fst page)) < page_size self ->
               has_next_page (fst page) = false))).
  { intros [Hout Hbound]. auto. }
  clear Hrows. subst page. unfold _load_page. rewrite Hpath.
  destruct path as [|c p]; [congruence|]. rewrite Hfile.
  destruct (Csv.reader (delimiter self) text) as [header reader| |] eqn:Hreader;
    simpl Csv.next; cbv iota beta zeta.
  - pose proof (visible_columns_in_range header (hidden_columns self)) as Hvis.
    set (visible_columns := visible_columns_of header (hidden_columns self))
      in *.
    unfold seq_stmt, assign.
    match goal with
    | |- context [setup_columns header visible_columns ?s] =>
        pose proof (setup_columns_frame header visible_columns s) as Hframe;
        pose proof (setup_columns_returns header visible_columns s Hvis)
          as Hret;
        destruct (setup_columns header visible_columns s) as [s1 o1]
    end.
    simpl in Hframe, Hret. subst o1.
    destruct Hframe as (Hkept & Hchildren & _).
    assert (Hsame : page_size s1 = page_size self).
    { destruct Hkept as (_ & ? & _). simpl in *. auto. }
    destruct (skip_rows _ reader) as [reader'|];
      [|split; [right; reflexivity|discriminate]].
    pose proof (load_rows_bounded header visible_columns reader' Hvis 0 s1)
      as Hload.
    simpl in Hload. rewrite Hchildren, Hsame, Z.sub_0_r in Hload.
    rewrite len_page_rows. unfold len in Hload at 2 4. simpl in Hload.
    destruct Hload as [Hout Hbound]. split; [exact Hout|].
    intros Hret. specialize (Hbound Hret). split; [lia|].
    intros Hfew. apply Hbound. lia.
  - apply reader_stops_iff_empty in Hreader. contradiction.
  - split; [right; reflexivity|discriminate].
Qed.

Lemma load_page_rows_bounded_witness :
  let page := _load_page example_files (example_viewer 1) in
  snd page = Returned
  /\ len (page_rows (fst page)) <= page_size (example_viewer 1)
  /\ (len (page_rows (fst page)) < page_size (example_viewer 1) ->
      has_next_page (fst page) = false).
Proof.
  intros page.
  destruct (load_page_rows_bounded example_files (example_viewer 1)
              "data.csv" example_text)
    as (_ & Hreturns & Hbound).
  - reflexivity.
  - discriminate.
  - reflexivity.
  - discriminate.
  - reflexivity.
  - discriminate.
  - assert (Hret : snd page = Returned).
    { apply (Hreturns ["a"; "b"; "c"]
               [["1"; "2"; "3"]; ["4"; "5"]; ["6"; "7"; "8"; "9"]]).
      vm_compute. reflexivity. }
    split; [exact Hret|]. apply Hbound, Hret.
Defined.

(** C2. The file with header [a,b,c] and the rows [1,2,3], [4,5] and
    [6,7,8,9], read with the comma and two rows to the page: page 0 shows
    [1,2,3] and [4,5,] (padded with one empty string) and has a next page;
    page 1 shows the single row [6,7,8], the fourth field dropped, and has
    no next page.  The Next Page button leads from the first to the
    second. *)
Theorem example_pages :
  let page0 := _load_page example_files (example_viewer 0) in
  let page1 := _load_page example_files (example_viewer 1) in
  snd page0 = Returned
  /\ page_rows (fst page0) = [["1"; "2"; "3"]; ["4"; "5"; ""]]
  /\ has_next_page (fst page0) = true
  /\ snd page1 = Returned
  /\ page_rows (fst page1) = [["6"; "7"; "8"]]
  /\ has_next_page (fst page1) = false
  /\ page_rows (handle example_files NextPage (fst page0))
     = [["6"; "7"; "8"]].
Proof. vm_compute. repeat split. Qed.

(** C3 as stated fails on the empty file: it has no data rows, so every
    page index is beyond its data, and the load raises [StopIteration]
    instead of returning an empty page. *)
Lemma page_beyond_data_empty_file :
  let files := one_file "data.csv" "" in
  let self := example_viewer 0 in
  Csv.reader (delimiter self) "" = Csv.of_rows []
  /\ len (@nil (list string)) <= current_page self * page_size self
  /\ _load_page files self = (self, Raised StopIteration).
Proof. vm_compute. repeat split. discriminate. Qed.

(** C3, amended.  For a file whose reader yields a header and then the
    data rows, and a page whose first row [current_page * page_size] is at
    or past the number of data rows, the load returns (it raises nothing),
    the tree holds no row and [has_next_page] is false. *)
Theorem page_beyond_data_is_empty files self path text header rows :
  file_path self = Some path -> path <> "" ->
  files path = Some text ->
  Csv.reader (delimiter self) text = Csv.of_rows (header :: rows) ->
  len rows <= current_page self * page_size self ->
  exists self',
    _load_page files self = (self', Returned)
    /\ page_rows self' = []
    /\ has_next_page self' = false.
Proof.
  intros Hpath Hne Hfile Hreader Hbeyond.
  destruct (_load_page_of_rows files self path text header rows
              Hpath Hne Hfile Hreader)
    as (self' & Hrun & _ & _ & _ & Hrows & Hnext).
  exists self'. split; [exact Hrun|].
  rewrite drop_ge in Hrows, Hnext by (unfold len in Hbeyond; lia).
  rewrite take_nil in Hrows. apply Forall2_nil_inv_l in Hrows.
  unfold page_rows. rewrite Hrows. split; [reflexivity|].
  rewrite Hnext. apply bool_decide_eq_false. unfold len. simpl. lia.
Qed.

Lemma page_beyond_data_is_empty_witness :
  exists self',
    _load_page example_files (example_viewer 2) = (self', Returned)
    /\ page_rows self' = []
    /\ has_next_page self' = false.
Proof.
  apply (page_beyond_data_is_empty example_files (example_viewer 2)
           "data.csv" example_text ["a"; "b"; "c"]
           [["1"; "2"; "3"]; ["4"; "5"]; ["6"; "7"; "8"; "9"]]).
  - reflexivity.
  - discriminate.
  - reflexivity.
  - vm_compute. reflexivity.
  - vm_compute. discriminate.
Defined.

(** C4. On an empty file the reader has no header record to give:
    [next(reader)] raises [StopIteration], which nothing catches, so the
    page load fails, and it fails before it has written any field of the
    viewer.  ([StopIteration] is the exception the spec files under
    FormatError.) *)
Theorem empty_file_fails files self path :
  file_path self = Some path -> path <> "" ->
  files path = Some "" ->
  _load_page files self = (self, Raised StopIteration).
Proof.
  intros Hpath Hne Hfile. unfold _load_page. rewrite Hpath.
  destruct path as [|c p]; [congruence|].
  rewrite Hfile. reflexivity.
Qed.

Lemma empty_file_fails_witness :
  _load_page (one_file "data.csv" "") (example_viewer 0)
  = (example_viewer 0, Raised StopIteration).
Proof.
  apply (empty_file_fails (one_file "data.csv" "") (example_viewer 0)
           "data.csv").
  - reflexivity.
  - discriminate.
  - reflexivity.
Defined.

(** The values a page shows are the cells of its records at the visible
    columns. *)

Lemma getitem_padded_row header row i :
  0 <= i < len header ->
  getitem (padded_row_of header row) i = Some (cell row i).
Proof.
  intros Hi. pose proof (len_padded_row header row) as Hlen.
  unfold getitem.
  replace ((0 <=? i) && (i <? len (padded_row_of header row))) with true
    by (symmetry; apply andb_true_iff; split;
        [apply Z.leb_le|apply Z.ltb_lt]; lia).
  unfold cell, padded_row_of, Py.list_repeat.
  destruct (decide (Z.to_nat i < length row)%nat) as [Hin|Hout].
  - rewrite lookup_app_l by exact Hin.
    destruct (lookup_lt_is_Some_2 row (Z.to_nat i) Hin) as [x ->].
    reflexivity.
  - rewrite lookup_app_r by lia.
    rewrite (lookup_ge_None_2 row (Z.to_nat i)) by lia.
    apply lookup_replicate_2. unfold len in *. lia.
Qed.

Lemma visible_row_of_padded header row visible_columns :
  Forall (fun i => 0 <= i < len header) visible_columns ->
  visible_row_of (padded_row_of header row) visible_columns
  = Some (cell row <$> visible_columns).
Proof.
  intros Hvis. unfold visible_row_of. apply mapM_Some_2, Forall2_fmap_r.
  apply Forall_Forall2_diag.
  eapply Forall_impl; [exact Hvis|].
  intros i Hi. apply getitem_padded_row, Hi.
Qed.

Lemma shown_rows header hidden rows items :
  Forall2 (shows header (visible_columns_of header hidden)) rows items ->
  fst <$> items
  = (fun row => cell row <$> visible_columns_of header hidden) <$> rows.
Proof.
  induction 1 as [|row item rows items Hrow _ IH]; [reflexivity|].
  unfold shows in Hrow.
  rewrite visible_row_of_padded in Hrow by apply visible_columns_in_range.
  injection Hrow as Hrow. rewrite !fmap_cons. f_equal.
  - symmetry. exact Hrow.
  - exact IH.
Qed.



(** ** Changing the page size *)

(** Case analysis on a page load, with what it leaves alone at hand. *)
Ltac frame_load :=
  match goal with
  | |- context [_load_page ?files ?s] =>
      let Hframe := fresh "Hframe" in
      pose proof (_load_page_frame files s) as Hframe;
      destruct (_load_page files s) as [? [|?]];
      unfold settings_kept in Hframe; simpl in Hframe
  end.

(** What [int] makes of some texts: blanks and digits outside ASCII
    count, an underscore stands between two digits only, and a number of
    more than 4300 digits is refused. *)
Example int_examples :
  Py.int (Py.str_of " 3 ") = Some 3
  /\ Py.int [0x33; 0xA0] = Some 3
  /\ Py.int [0x85; 0x35] = Some 5
  /\ Py.int [0xFF12; 0xFF10; 0xFF10] = Some 200
  /\ Py.int (Py.str_of "-1_000") = Some (-1000)
  /\ Py.int (Py.str_of "1__0") = None
  /\ Py.int (Py.str_of "+ 3") = None
  /\ Py.int [0x1C; 0x33] = None
  /\ Py.int (Py.str_of "") = None
  /\ Py.int (replicate 4300 0x30 ++ [0x20])%list = Some 0
  /\ Py.int (replicate 4301 0x30) = None.
Proof. vm_compute. repeat split; reflexivity. Qed.

(** C6. When the text of the page-size entry is no number, or a number
    that is zero or negative, the callback only shows an error dialog: the
    viewer it leaves is the viewer it found with that dialog added, so the
    page size keeps its value and the page on display is untouched; and no
    file is read, the result being the same whatever the disk holds. *)
Theorem bad_page_size_rejected files page_size_var self :
  Py.int page_size_var = None
  \/ (exists n, Py.int page_size_var = Some n /\ n <= 0) ->
  exists message,
    _on_page_size_changed files page_size_var self
    = (show (showerror "Error" message) self, Returned)
    /\ page_size (fst (_on_page_size_changed files page_size_var self))
       = page_size self
    /\ forall files',
         _on_page_size_changed files' page_size_var self
         = _on_page_size_changed files page_size_var self.
Proof.
  intros [Hbad|(n & Hn & Hle)]; unfold _on_page_size_changed.
  - rewrite Hbad. eexists. repeat split.
  - rewrite Hn. replace (0 <? n) with false by (symmetry; apply Z.ltb_ge; lia).
    eexists. repeat split.
Qed.

Lemma bad_page_size_rejected_witness :
  let viewer := example_viewer 1 in
  let no_number := Py.str_of "abc" in
  let negative := Py.str_of "-3" in
  (exists message,
     _on_page_size_changed example_files no_number viewer
     = (show (showerror "Error" message) viewer, Returned)
     /\ page_size (fst (_on_page_size_changed example_files no_number viewer))
        = page_size viewer
     /\ forall files',
          _on_page_size_changed files' no_number viewer
          = _on_page_size_changed example_files no_number viewer)
  /\ (exists message,
        _on_page_size_changed example_files negative viewer
        = (show (showerror "Error" message) viewer, Returned)
        /\ page_size (fst (_on_page_size_changed example_files negative viewer))
           = page_size viewer
        /\ forall files',
             _on_page_size_changed files' negative viewer
             = _on_page_size_changed example_files negative viewer).
Proof.
  split.
  - apply (bad_page_size_rejected example_files (Py.str_of "abc")
             (example_viewer 1)).
    left. reflexivity.
  - apply (bad_page_size_rejected example_files (Py.str_of "-3")
             (example_viewer 1)).
    right. exists (-3). split; [reflexivity|discriminate].
Defined.

(** C10. When the text of the page-size entry is a number [n] above zero,
    the callback stores [n] as the page size and sets the current page to
    0; the delimiter and the set of hidden columns stay as they were
    (whether or not the reload that follows succeeds). *)
Theorem page_size_change_resets_page files page_size_var n self :
  Py.int page_size_var = Some n -> 0 < n ->
  let self' := fst (_on_page_size_changed files page_size_var self) in
  page_size self' = n
  /\ current_page self' = 0
  /\ delimiter self' = delimiter self
  /\ hidden_columns self' = hidden_columns self.
Proof.
  intros Hn Hpos. unfold _on_page_size_changed.
  rewrite Hn. replace (0 <? n) with true by (symmetry; apply Z.ltb_lt; lia).
  unfold seq_stmt, assign, when_file_loaded.
  match goal with
  | |- context [truthy ?p] => destruct (truthy p)
  end; [|repeat split].
  frame_load; simpl; intuition congruence.
Qed.

Lemma page_size_change_resets_page_witness :
  let self' :=
    fst (_on_page_size_changed example_files (Py.str_of " 3 ")
           (example_viewer 1)) in
  page_size self' = 3
  /\ current_page self' = 0
  /\ delimiter self' = delimiter (example_viewer 1)
  /\ hidden_columns self' = hidden_columns (example_viewer 1).
Proof.
  apply (page_size_change_resets_page example_files (Py.str_of " 3 ") 3
           (example_viewer 1)).
  - reflexivity.
  - reflexivity.
Defined.

(** ** Navigation *)

Lemma handle_current_page_nonneg files ev self :
  0 <= current_page self -> 0 <= current_page (handle files ev self).
Proof.
  intros Hpage. unfold handle, callback.
  destruct ev as [path|d|text| |vars| |].
  - unfold open_file. destruct path; [exact Hpage|].
    unfold seq_stmt, assign. frame_load; simpl; lia.
  - unfold _on_delimiter_changed.
    destruct (find_delimiter d delimiter_options);
      unfold seq_stmt, assign, when_file_loaded;
      (match goal with
       | |- context [truthy ?p] => destruct (truthy p)
       end; [frame_load; simpl; lia|exact Hpage]).
  - unfold _on_page_size_changed.
    destruct (Py.int text) as [n|]; [|exact Hpage].
    destruct (0 <? n); [|exact Hpage].
    unfold seq_stmt, assign, when_file_loaded.
    match goal with
    | |- context [truthy ?p] => destruct (truthy p)
    end; [|simpl; lia].
    frame_load; simpl; lia.
  - unfold _toggle_expand_columns, seq_stmt, assign.
    destruct (expand_columns self); [|exact Hpage].
    frame_load; simpl; lia.
  - unfold _apply_column_visibility, seq_stmt, assign.
    frame_load; simpl; lia.
  - unfold next_page.
    destruct (has_next_page self); [|exact Hpage].
    unfold seq_stmt, assign. frame_load; simpl; lia.
  - unfold prev_page.
    destruct (0 <? current_page self) eqn:Hpos; [|exact Hpage].
    apply Z.ltb_lt in Hpos.
    unfold seq_stmt, assign. frame_load; simpl; lia.
Qed.

(** C9. In every viewer reachable from the initial one, by Next Page and
    Previous Page and by any other callback, against any files, the
    current page is at least 0; Previous Page on page 0 leaves the current
    page as it is, and so does Next Page when [has_next_page] is false
    (each only shows an information dialog). *)
Theorem current_page_never_negative self :
  reachable self ->
  0 <= current_page self
  /\ (forall files,
        current_page self = 0 ->
        current_page (handle files PrevPage self) = current_page self
        /\ prev_page files self
           = (show (showinfo "Start" "You are at the start of the file.")
                self, Returned))
  /\ (forall files,
        has_next_page self = false ->
        current_page (handle files NextPage self) = current_page self
        /\ next_page files self
           = (show (showinfo "End" "You are at the end of the file.")
                self, Returned)).
Proof.
  intros Hreach. split; [|split].
  - induction Hreach as [|files ev self _ IH].
    + discriminate.
    + apply handle_current_page_nonneg, IH.
  - intros files Hzero. unfold handle, callback, prev_page.
    rewrite Hzero. change (0 <? 0) with false. cbv iota.
    split; [exact Hzero|reflexivity].
  - intros files Hnext. unfold handle, callback, next_page.
    rewrite Hnext. split; reflexivity.
Qed.

Lemma current_page_never_negative_witness :
  0 <= current_page
         (handle example_files PrevPage
            (handle example_files NextPage
               (handle example_files (PageSizeChanged (Py.str_of "2"))
                  (handle example_files (DelimiterChanged "Comma (,)")
                     (handle example_files (OpenFile "data.csv")
                        __init__))))).
Proof.
  refine (proj1 (current_page_never_negative _ _)).
  repeat apply reachable_handle. apply reachable_init.
Defined.

(** ** Hidden columns *)

Lemma filter_hidden_in_range header (hidden : gset Z) (l : list Z) :
  Forall (fun i => 0 <= i < len header) l ->
  filter (fun i => i ∉ hidden) l
  = filter (fun i => i ∉ in_range_only header hidden) l.
Proof.
  induction 1 as [|i l Hi _ IH]; [reflexivity|].
  rewrite !filter_cons, IH.
  destruct (decide (i ∉ hidden)) as [Hout|Hin];
    destruct (decide (i ∉ in_range_only header hidden)) as [Hout'|Hin'];
    try reflexivity; exfalso.
  - apply Hin'. unfold in_range_only. rewrite elem_of_filter. tauto.
  - apply Hin. intros Hmem. apply Hout'.
    unfold in_range_only. rewrite elem_of_filter. tauto.
Qed.

Lemma visible_columns_in_range_only header hidden :
  visible_columns_of header hidden
  = visible_columns_of header (in_range_only header hidden).
Proof.
  unfold visible_columns_of. apply filter_hidden_in_range.
  apply Forall_forall. intros i Hi. apply elem_of_seqZ in Hi. lia.
Qed.

(** The page load reads the hidden set only through the visible columns
    it computes from it. *)
Lemma setup_columns_hidden header visible_columns hidden self :
  setup_columns header visible_columns (set_hidden_columns hidden self)
  = (set_hidden_columns hidden
       (fst (setup_columns header visible_columns self)),
     snd (setup_columns header visible_columns self)).
Proof.
  revert self. induction visible_columns as [|i rest IH]; intros self.
  - reflexivity.
  - simpl. destruct (getitem header i) as [text|]; [|reflexivity].
    apply (IH (set_tree (tree_heading i text (tree self)) self)).
Qed.

Lemma load_rows_hidden header visible_columns row_count reader hidden self :
  load_rows header visible_columns row_count reader
    (set_hidden_columns hidden self)
  = (set_hidden_columns hidden
       (fst (load_rows header visible_columns row_count reader self)),
     snd (load_rows header visible_columns row_count reader self)).
Proof.
  revert row_count self.
  induction reader as [row rest IH| |]; intros row_count self;
    [|reflexivity..].
  simpl. destruct (row_count <? page_size self); [|reflexivity].
  destruct (visible_row_of _ _) as [visible_row|]; [|reflexivity].
  apply (IH (row_count + 1)
           (set_tree (tree_insert visible_row
              (if Py.is_odd row_count then "odd" else "even") (tree self))
              self)).
Qed.

Lemma load_rows_no_IndexError header visible_columns row_count reader self :
  Forall (fun i => 0 <= i < len header) visible_columns ->
  snd (load_rows header visible_columns row_count reader self)
  <> Raised IndexError.
Proof.
  intros Hvis. revert row_count self.
  induction reader as [row rest IH| |]; intros row_count self; simpl;
    [|discriminate..].
  destruct (row_count <? page_size self); [|discriminate].
  destruct (visible_row_in_range header row visible_columns Hvis)
    as [visible_row ->].
  apply IH.
Qed.

Lemma _load_page_hidden files self path text header reader hidden :
  file_path self = Some path ->
  files path = Some text ->
  Csv.reader (delimiter self) text = Csv.RCons header reader ->
  visible_columns_of header hidden
  = visible_columns_of header (hidden_columns self) ->
  _load_page files (set_hidden_columns hidden self)
  = (set_hidden_columns hidden (fst (_load_page files self)),
     snd (_load_page files self))
  /\ snd (_load_page files self) <> Raised IndexError.
Proof.
  intros Hpath Hfile Hreader Hsame.
  pose proof (visible_columns_in_range header (hidden_columns self)) as Hvis.
  unfold _load_page.
  change (file_path (set_hidden_columns hidden self)) with (file_path self).
  change (delimiter (set_hidden_columns hidden self)) with (delimiter self).
  change (hidden_columns (set_hidden_columns hidden self)) with hidden.
  change (current_page (set_hidden_columns hidden self))
    with (current_page self).
  change (page_size (set_hidden_columns hidden self)) with (page_size self).
  rewrite Hpath. destruct path as [|c p]; [split; [reflexivity|discriminate]|].
  rewrite Hfile, Hreader. simpl Csv.next. cbv iota beta zeta.
  rewrite Hsame.
  set (visible_columns := visible_columns_of header (hidden_columns self))
    in *.
  unfold seq_stmt, assign.
  match goal with
  | |- context [setup_columns header visible_columns
                  (set_tree ?t (set_tree ?t0
                     (set_column_visibility_button true
                        (set_column_headers header self))))] =>
      set (s0 := set_tree t (set_tree t0
                   (set_column_visibility_button true
                      (set_column_headers header self))))
  end.
  match goal with
  | |- context [setup_columns header visible_columns ?s] =>
      change s with (set_hidden_columns hidden s0)
  end.
  rewrite setup_columns_hidden.
  pose proof (setup_columns_returns header visible_columns s0 Hvis) as Hret.
  destruct (setup_columns header visible_columns s0) as [s1 o1].
  simpl in Hret. subst o1. simpl fst. simpl snd. cbv iota beta.
  destruct (skip_rows _ reader) as [reader'|];
    [|split; [reflexivity|discriminate]].
  rewrite load_rows_hidden. split; [reflexivity|].
  apply load_rows_no_IndexError, Hvis.
Qed.

(** C7. An index of the hidden set that names no column of the header
    (negative, or at or past the header length) has no effect: the visible
    columns, the values shown for every row, and the whole page load are
    those of the hidden set restricted to the indices in range, and
    picking the visible values never raises [IndexError]. *)
Theorem stale_hidden_columns_ignored header (hidden : gset Z) :
  let live := in_range_only header hidden in
  visible_columns_of header hidden = visible_columns_of header live
  /\ (forall row,
        visible_row_of (padded_row_of header row)
          (visible_columns_of header hidden)
        = visible_row_of (padded_row_of header row)
            (visible_columns_of header live)
        /\ is_Some (visible_row_of (padded_row_of header row)
                      (visible_columns_of header hidden)))
  /\ (forall files self path text reader,
        hidden_columns self = hidden ->
        file_path self = Some path ->
        files path = Some text ->
        Csv.reader (delimiter self) text = Csv.RCons header reader ->
        _load_page files (set_hidden_columns live self)
        = (set_hidden_columns live (fst (_load_page files self)),
           snd (_load_page files self))
        /\ snd (_load_page files self) <> Raised IndexError).
Proof.
  intros live.
  pose proof (visible_columns_in_range_only header hidden) as Hsame.
  fold live in Hsame. split; [exact Hsame|]. split.
  - intros row. rewrite <- Hsame. split; [reflexivity|].
    apply visible_row_in_range, visible_columns_in_range.
  - intros files self path text reader Hhidden Hpath Hfile Hreader.
    apply (_load_page_hidden files self path text header reader live);
      try assumption.
    rewrite Hhidden. symmetry. exact Hsame.
Qed.

Lemma stale_hidden_columns_ignored_witness :
  let hidden : gset Z := {[ 1; 7; -2 ]} in
  let self := set_hidden_columns hidden (example_viewer 0) in
  let live := in_range_only ["a"; "b"; "c"] hidden in
  _load_page example_files (set_hidden_columns live self)
  = (set_hidden_columns live (fst (_load_page example_files self)),
     snd (_load_page example_files self))
  /\ snd (_load_page example_files self) <> Raised IndexError.
Proof.
  intros hidden self live.
  apply (proj2 (proj2 (stale_hidden_columns_ignored ["a"; "b"; "c"] hidden))
           example_files self "data.csv" example_text
           (Csv.of_rows [["1"; "2"; "3"]; ["4"; "5"]; ["6"; "7"; "8"; "9"]])).
  - reflexivity.
  - reflexivity.
  - reflexivity.
  - vm_compute. reflexivity.
Defined.

Example stale_hidden_columns_example :
  visible_columns_of ["a"; "b"; "c"] {[ 1; 7; -2 ]} = [0; 2]
  /\ page_rows (fst (_load_page example_files
                       (set_hidden_columns {[ 1; 7; -2 ]}
                          (example_viewer 0))))
     = [["1"; "3"]; ["4"; ""]].
Proof. vm_compute. split; reflexivity. Qed.

(** ** Quoted fields *)

Lemma app_String a s t : String a s +:+ t = String a (s +:+ t).
Proof. reflexivity. Qed.

Lemma app_empty_l t : "" +:+ t = t.
Proof. reflexivity. Qed.

Lemma snoc_app s c rest : snoc s c +:+ rest = s +:+ String c rest.
Proof.
  unfold snoc. induction s as [|a s IH].
  - reflexivity.
  - rewrite !app_String, IH. reflexivity.
Qed.

Lemma app_empty_r s : s +:+ "" = s.
Proof.
  induction s as [|a s IH]; [reflexivity|].
  rewrite app_String, IH. reflexivity.
Qed.

Lemma length_snoc s c : String.length (snoc s c) = S (String.length s).
Proof.
  unfold snoc. induction s as [|a s IH]; [reflexivity|].
  rewrite app_String. simpl. rewrite IH. reflexivity.
Qed.

(** Single steps of the reader around a quoted field. *)

Lemma step_open_quote delimiter st fs f :
  st = Csv.START_RECORD \/ st = Csv.START_FIELD ->
  Csv.parse_process_char delimiter (Csv.mkReader st fs f) (Csv.Char DQUOTE)
  = Some (Csv.mkReader Csv.IN_QUOTED_FIELD fs f).
Proof. intros [-> | ->]; reflexivity. Qed.

Lemma step_quoted_char delimiter fs f c :
  Ascii.eqb c DQUOTE = false ->
  Z.of_nat (String.length f) < Csv.field_limit ->
  Csv.parse_process_char delimiter
    (Csv.mkReader Csv.IN_QUOTED_FIELD fs f) (Csv.Char c)
  = Some (Csv.mkReader Csv.IN_QUOTED_FIELD fs (snoc f c)).
Proof.
  intros Hc Hroom. apply Z.leb_gt in Hroom.
  unfold Csv.parse_process_char, Csv.parse_add_char.
  cbn -[Z.leb Csv.field_limit snoc]. rewrite Hc, Hroom. reflexivity.
Qed.

Lemma step_quoted_quote delimiter fs f :
  Csv.parse_process_char delimiter
    (Csv.mkReader Csv.IN_QUOTED_FIELD fs f) (Csv.Char DQUOTE)
  = Some (Csv.mkReader Csv.QUOTE_IN_QUOTED_FIELD fs f).
Proof. reflexivity. Qed.

Lemma step_doubled_quote delimiter fs f :
  Z.of_nat (String.length f) < Csv.field_limit ->
  Csv.parse_process_char delimiter
    (Csv.mkReader Csv.QUOTE_IN_QUOTED_FIELD fs f) (Csv.Char DQUOTE)
  = Some (Csv.mkReader Csv.IN_QUOTED_FIELD fs (snoc f DQUOTE)).
Proof.
  intros Hroom. apply Z.leb_gt in Hroom.
  unfold Csv.parse_process_char, Csv.parse_add_char.
  cbn -[Z.leb Csv.field_limit snoc]. rewrite Hroom. reflexivity.
Qed.

Lemma step_close_delimiter delimiter fs f :
  Ascii.eqb delimiter DQUOTE = false ->
  Csv.parse_process_char delimiter
    (Csv.mkReader Csv.QUOTE_IN_QUOTED_FIELD fs f) (Csv.Char delimiter)
  = Some (Csv.mkReader Csv.START_FIELD (fs ++ [f]) "").
Proof.
  intros Hd. unfold Csv.parse_process_char.
  cbn -[Z.leb Csv.field_limit snoc]. rewrite Hd, Ascii.eqb_refl.
  reflexivity.
Qed.

Lemma delimiter_is_no_quote d :
  d ∈ (fst <$> delimiter_options) -> Ascii.eqb d DQUOTE = false.
Proof.
  intros Hd. simpl in Hd.
  repeat (apply elem_of_cons in Hd as [-> | Hd]; [reflexivity|]).
  inversion Hd.
Qed.

Lemma app_assoc_s a b c : (a +:+ b) +:+ c = a +:+ (b +:+ c).
Proof.
  induction a as [|x a IH]; [reflexivity|].
  rewrite !app_String, IH. reflexivity.
Qed.

Lemma delimiter_is_no_newline d :
  d ∈ (fst <$> delimiter_options) -> is_newline d = false.
Proof.
  intros Hd. simpl in Hd.
  repeat (apply elem_of_cons in Hd as [-> | Hd]; [reflexivity|]).
  inversion Hd.
Qed.

Lemma readlines_char line c rest :
  is_newline c = false ->
  Py.readlines line (String c rest) = Py.readlines (snoc line c) rest.
Proof.
  unfold is_newline. intros Hc. apply orb_false_iff in Hc as [Hlf Hcr].
  simpl. rewrite Hlf, Hcr. reflexivity.
Qed.

Lemma step_close_newline delimiter fs f c :
  is_newline c = true ->
  Ascii.eqb c delimiter = false ->
  Csv.parse_process_char delimiter
    (Csv.mkReader Csv.QUOTE_IN_QUOTED_FIELD fs f) (Csv.Char c)
  = Some (Csv.mkReader Csv.EAT_CRNL (fs ++ [f]) "").
Proof.
  intros Hn Hd. unfold Csv.parse_process_char.
  cbn -[Z.leb Csv.field_limit snoc is_newline].
  assert (Hq : Ascii.eqb c DQUOTE = false).
  { unfold is_newline in Hn. apply orb_true_iff in Hn as [Hn|Hn];
      apply Ascii.eqb_eq in Hn; subst c; reflexivity. }
  rewrite Hq, Hd, Hn. reflexivity.
Qed.

Lemma process_chars_app delimiter a : forall self b,
  Csv.process_chars delimiter self (a +:+ b)
  = match Csv.process_chars delimiter self a with
    | Some self' => Csv.process_chars delimiter self' b
    | None => None
    end.
Proof.
  induction a as [|c a IH]; intros self b.
  - reflexivity.
  - rewrite app_String. cbn [Csv.process_chars].
    destruct (Csv.parse_process_char delimiter self (Csv.Char c));
      [apply IH|reflexivity].
Qed.

Lemma process_chars_snoc delimiter self line c self' :
  Csv.process_chars delimiter self line = Some self' ->
  Csv.process_chars delimiter self (snoc line c)
  = Csv.parse_process_char delimiter self' (Csv.Char c).
Proof.
  intros Hline. unfold snoc. rewrite process_chars_app, Hline.
  cbn [Csv.process_chars].
  destruct (Csv.parse_process_char delimiter self' (Csv.Char c));
    reflexivity.
Qed.

Lemma readlines_no_line_break p : forall line rest,
  no_line_break p = true ->
  Py.readlines line (p +:+ rest) = Py.readlines (line +:+ p) rest.
Proof.
  induction p as [|c p IH]; intros line rest Hp.
  - rewrite app_empty_l, app_empty_r. reflexivity.
  - simpl in Hp. apply andb_true_iff in Hp as [Hc Hp].
    apply negb_true_iff in Hc.
    rewrite app_String, readlines_char by exact Hc.
    rewrite IH by exact Hp. rewrite snoc_app. reflexivity.
Qed.

Lemma readlines_last_line line c :
  Py.readlines (snoc line c) "" = [snoc line c].
Proof. unfold snoc. destruct line; reflexivity. Qed.

(** The first of the lines still to come starts with what has been read
    of it. *)
Lemma readlines_prepend p text : forall line,
  line <> "" \/ text <> "" ->
  Py.readlines (p +:+ line) text
  = match Py.readlines line text with
    | first :: others => (p +:+ first) :: others
    | [] => []
    end.
Proof.
  assert (Hsnoc : forall line c, p +:+ snoc line c = snoc (p +:+ line) c).
  { intros line c. unfold snoc. rewrite app_assoc_s. reflexivity. }
  induction text as [|c rest IH]; intros line Hsome.
  - destruct Hsome as [Hline|Hempty]; [|congruence].
    simpl. destruct line as [|x line]; [congruence|].
    destruct p; reflexivity.
  - simpl. destruct (Ascii.eqb c LF).
    { rewrite Hsnoc. reflexivity. }
    destruct (Ascii.eqb c CR).
    + destruct rest as [|c' rest']; [rewrite Hsnoc; reflexivity|].
      destruct (Ascii.eqb c' LF); rewrite !Hsnoc; reflexivity.
    + rewrite <- Hsnoc. apply IH. left.
      unfold snoc. destruct line; discriminate.
Qed.

(** What the reader has read of a line only matters through the state it
    has reached. *)
Lemma Reader_iter_within_line delimiter self line self' rest :
  rest <> "" ->
  Csv.process_chars delimiter self line = Some self' ->
  Csv.Reader_iter delimiter self (Py.readlines line rest)
  = Csv.Reader_iter delimiter self' (Py.readlines "" rest).
Proof.
  intros Hrest Hline.
  rewrite <- (app_empty_r line).
  rewrite readlines_prepend by (right; exact Hrest).
  destruct (Py.readlines "" rest) as [|first others] eqn:Hlines.
  { exfalso. revert Hlines. apply readlines_nonempty. right. exact Hrest. }
  cbn [Csv.Reader_iter]. unfold Csv.process_line.
  rewrite process_chars_app, Hline. reflexivity.
Qed.

(** A line that leaves the reader inside a quoted field does not end the
    record. *)
Lemma Reader_iter_line_in_quotes delimiter self line fs f others :
  Csv.process_chars delimiter self line
  = Some (Csv.mkReader Csv.IN_QUOTED_FIELD fs f) ->
  Csv.Reader_iter delimiter self (line :: others)
  = Csv.Reader_iter delimiter (Csv.mkReader Csv.IN_QUOTED_FIELD fs f) others.
Proof.
  intros Hline. cbn [Csv.Reader_iter]. unfold Csv.process_line.
  rewrite Hline. reflexivity.
Qed.

(** A line that leaves the reader at the start of a record ends the
    record. *)
Lemma Reader_iter_line_ends_record delimiter self line last fs others :
  Csv.process_chars delimiter self line = Some last ->
  Csv.parse_process_char delimiter last Csv.EOL
  = Some (Csv.mkReader Csv.START_RECORD fs "") ->
  Csv.Reader_iter delimiter self (line :: others)
  = Csv.RCons fs (Csv.Reader_iter delimiter Csv.parse_reset others).
Proof.
  intros Hline Hend. cbn [Csv.Reader_iter]. unfold Csv.process_line.
  rewrite Hline, Hend. reflexivity.
Qed.

Lemma doubled_starts_no_LF body tail :
  (forall body', body <> String LF body') ->
  exists c rest,
    doubled body +:+ String DQUOTE tail = String c rest
    /\ Ascii.eqb c LF = false.
Proof.
  intros Hno. destruct body as [|c body].
  - exists DQUOTE, tail. split; reflexivity.
  - simpl doubled. destruct (Ascii.eqb c DQUOTE) eqn:Hq.
    + apply Ascii.eqb_eq in Hq. subst c.
      eexists _, _. rewrite app_String. split; reflexivity.
    + eexists c, _. rewrite app_String. split; [reflexivity|].
      apply Ascii.eqb_neq. intros ->. apply (Hno body). reflexivity.
Qed.

(** The characters of a quoted value reach the field one by one, the
    line breaks among them too: a line that ends inside the quotes is
    followed by the next line of the same record. *)
Lemma Reader_iter_quoted_body delimiter (n : nat) :
  forall body line_start line fs f,
  (String.length body <= n)%nat ->
  Csv.process_chars delimiter line_start line
  = Some (Csv.mkReader Csv.IN_QUOTED_FIELD fs f) ->
  Z.of_nat (String.length f) + Z.of_nat (String.length body)
  <= Csv.field_limit ->
  exists line_start' line',
    Csv.process_chars delimiter line_start' line'
    = Some (Csv.mkReader Csv.IN_QUOTED_FIELD fs (f +:+ body))
    /\ forall tail,
         Csv.Reader_iter delimiter line_start
           (Py.readlines line (doubled body +:+ String DQUOTE tail))
         = Csv.Reader_iter delimiter line_start'
             (Py.readlines line' (String DQUOTE tail)).
Proof.
  induction n as [|n IH]; intros body line_start line fs f Hn Hline Hlen.
  { destruct body; [|simpl in Hn; lia].
    exists line_start, line. rewrite app_empty_r. split; [exact Hline|].
    intros tail. reflexivity. }
  destruct body as [|c body].
  { exists line_start, line. rewrite app_empty_r. split; [exact Hline|].
    intros tail. reflexivity. }
  simpl String.length in Hn, Hlen.
  assert (Hroom : Z.of_nat (String.length f) < Csv.field_limit) by lia.
  assert (Hnext : Z.of_nat (String.length (snoc f c))
                  + Z.of_nat (String.length body) <= Csv.field_limit).
  { rewrite length_snoc. lia. }
  assert (Hbody : f +:+ String c body = snoc f c +:+ body).
  { rewrite snoc_app. reflexivity. }
  rewrite Hbody.
  destruct (Ascii.eqb c DQUOTE) eqn:Hquote.
  - (* a quote, written twice *)
    apply Ascii.eqb_eq in Hquote. subst c.
    destruct (IH body line_start (snoc (snoc line DQUOTE) DQUOTE) fs
                (snoc f DQUOTE)) as (ls & l & Hl & Hread); [lia| |exact Hnext|].
    { rewrite (process_chars_snoc _ _ _ _
                 (Csv.mkReader Csv.QUOTE_IN_QUOTED_FIELD fs f)).
      - apply step_doubled_quote, Hroom.
      - rewrite (process_chars_snoc _ _ _ _ _ Hline).
        apply step_quoted_quote. }
    exists ls, l. split; [exact Hl|]. intros tail.
    rewrite <- Hread. simpl doubled. rewrite !app_String.
    rewrite !readlines_char by reflexivity. reflexivity.
  - destruct (is_newline c) eqn:Hnewline.
    + (* a line break: the line ends inside the quotes *)
      assert (Hadd : forall line1 st1,
                Csv.process_chars delimiter st1 line1
                = Some (Csv.mkReader Csv.IN_QUOTED_FIELD fs f) ->
                Csv.process_chars delimiter st1 (snoc line1 c)
                = Some (Csv.mkReader Csv.IN_QUOTED_FIELD fs (snoc f c))).
      { intros line1 st1 H1. rewrite (process_chars_snoc _ _ _ _ _ H1).
        apply step_quoted_char; assumption. }
      simpl doubled. rewrite Hquote.
      unfold is_newline in Hnewline.
      destruct (Ascii.eqb c LF) eqn:Hlf.
      * apply Ascii.eqb_eq in Hlf. subst c.
        destruct (IH body (Csv.mkReader Csv.IN_QUOTED_FIELD fs (snoc f LF))
                    "" fs (snoc f LF)) as (ls & l & Hl & Hread);
          [lia|reflexivity|exact Hnext|].
        exists ls, l. split; [exact Hl|]. intros tail.
        rewrite <- Hread. rewrite app_String. cbn [Py.readlines].
        rewrite Ascii.eqb_refl.
        apply Reader_iter_line_in_quotes, Hadd, Hline.
      * simpl in Hnewline. apply Ascii.eqb_eq in Hnewline. subst c.
        destruct body as [|c' body'].
        { (* the value ends with CR *)
          exists (Csv.mkReader Csv.IN_QUOTED_FIELD fs (snoc f CR)), "".
          rewrite app_empty_r. split; [reflexivity|]. intros tail.
          simpl doubled. rewrite app_String, app_empty_l.
          cbn [Py.readlines]. change (Ascii.eqb CR LF) with false.
          change (Ascii.eqb CR CR) with true.
          change (Ascii.eqb DQUOTE LF) with false. cbv iota.
          apply Reader_iter_line_in_quotes, Hadd, Hline. }
        destruct (Ascii.eqb c' LF) eqn:Hlf'.
        { (* CR LF *)
          apply Ascii.eqb_eq in Hlf'. subst c'.
          simpl String.length in Hn, Hlen, Hnext.
          destruct (IH body'
                      (Csv.mkReader Csv.IN_QUOTED_FIELD fs
                         (snoc (snoc f CR) LF))
                      "" fs (snoc (snoc f CR) LF))
            as (ls & l & Hl & Hread);
            [lia|reflexivity|rewrite !length_snoc in *; lia|].
          exists ls, l. split.
          { rewrite Hl. rewrite snoc_app. reflexivity. }
          intros tail. rewrite <- Hread.
          simpl doubled. rewrite !app_String. cbn [Py.readlines].
          change (Ascii.eqb CR LF) with false.
          change (Ascii.eqb CR CR) with true.
          change (Ascii.eqb LF LF) with true. cbv iota.
          apply Reader_iter_line_in_quotes.
          rewrite (process_chars_snoc _ _ _ _
                     (Csv.mkReader Csv.IN_QUOTED_FIELD fs (snoc f CR))).
          - apply step_quoted_char; [reflexivity|].
            rewrite length_snoc. lia.
          - apply Hadd, Hline. }
        { (* CR and then another character *)
          destruct (IH (String c' body')
                      (Csv.mkReader Csv.IN_QUOTED_FIELD fs (snoc f CR))
                      "" fs (snoc f CR)) as (ls & l & Hl & Hread);
            [simpl String.length in *; lia|reflexivity|exact Hnext|].
          exists ls, l. split; [exact Hl|]. intros tail.
          rewrite <- Hread.
          destruct (doubled_starts_no_LF (String c' body') tail)
            as (x & y & Hxy & Hx).
          { intros b [= -> _]. discriminate Hlf'. }
          rewrite app_String, Hxy. cbn [Py.readlines].
          change (Ascii.eqb CR LF) with false.
          change (Ascii.eqb CR CR) with true. rewrite Hx. cbv iota.
          apply Reader_iter_line_in_quotes, Hadd, Hline. }
    + (* any other character *)
      destruct (IH body line_start (snoc line c) fs (snoc f c))
        as (ls & l & Hl & Hread); [lia| |exact Hnext|].
      { rewrite (process_chars_snoc _ _ _ _ _ Hline).
        apply step_quoted_char; assumption. }
      exists ls, l. split; [exact Hl|]. intros tail.
      rewrite <- Hread. simpl doubled. rewrite Hquote, app_String.
      rewrite readlines_char by exact Hnewline. reflexivity.
Qed.

(** The fields of the record being read only grow. *)
Lemma parse_process_char_fields delimiter self c self' :
  Csv.parse_process_char delimiter self c = Some self' ->
  exists more, Csv.fields self' = (Csv.fields self ++ more)%list.
Proof.
  destruct self as [st fs f].
  unfold Csv.parse_process_char, Csv.start_field, Csv.parse_add_char.
  cbn -[Z.leb Csv.field_limit snoc is_newline].
  intros Hstep.
  repeat match type of Hstep with
         | context [match ?x with _ => _ end] => destruct x
         | context [if ?b then _ else _] => destruct b
         end;
    cbn -[Z.leb Csv.field_limit snoc is_newline] in Hstep;
    try discriminate Hstep;
    injection Hstep as <-; cbn [Csv.fields];
    first [ exists []; rewrite app_nil_r; reflexivity
          | eexists; reflexivity ].
Qed.

Lemma process_chars_fields delimiter line : forall self self',
  Csv.process_chars delimiter self line = Some self' ->
  exists more, Csv.fields self' = (Csv.fields self ++ more)%list.
Proof.
  induction line as [|c line IH]; intros self self' Hline.
  - injection Hline as <-. exists []. rewrite app_nil_r. reflexivity.
  - cbn [Csv.process_chars] in Hline.
    destruct (Csv.parse_process_char delimiter self (Csv.Char c))
      as [self1|] eqn:Hstep; [|discriminate].
    destruct (parse_process_char_fields _ _ _ _ Hstep) as (m1 & H1).
    destruct (IH _ _ Hline) as (m2 & H2).
    exists (m1 ++ m2)%list. rewrite H2, H1, app_assoc. reflexivity.
Qed.

(** The record the reader yields next starts with the fields it has
    read. *)
Lemma Reader_iter_fields delimiter lines : forall self row others,
  Csv.Reader_iter delimiter self lines = Csv.RCons row others ->
  exists more, row = (Csv.fields self ++ more)%list.
Proof.
  induction lines as [|line rest IH]; intros self row others Hread.
  - cbn [Csv.Reader_iter] in Hread.
    destruct (negb (String.eqb (Csv.field self) "")
              || Csv.state_eqb (Csv.state self) Csv.IN_QUOTED_FIELD);
      [|discriminate].
    injection Hread as <- _. eexists. reflexivity.
  - cbn [Csv.Reader_iter] in Hread. unfold Csv.process_line in Hread.
    destruct (Csv.process_chars delimiter self line) as [self1|] eqn:Hline;
      [|discriminate].
    destruct (Csv.parse_process_char delimiter self1 Csv.EOL)
      as [self2|] eqn:Hend; [|discriminate].
    destruct (process_chars_fields _ _ _ _ Hline) as (m1 & H1).
    destruct (parse_process_char_fields _ _ _ _ Hend) as (m2 & H2).
    destruct (Csv.state_eqb (Csv.state self2) Csv.START_RECORD).
    + injection Hread as <- _. exists (m1 ++ m2)%list.
      rewrite H2, H1, app_assoc. reflexivity.
    + destruct (IH _ _ _ Hread) as (m3 & H3).
      exists (m1 ++ m2 ++ m3)%list.
      rewrite H3, H2, H1, !app_assoc. reflexivity.
Qed.

(** C8 as stated fails where the quoted text does not start a field
    under the new delimiter.  The record [x,QaSbQ,y] (Q the quote, S the
    semicolon) holds the quoted field [aSb] when read with the comma;
    read with the semicolon, the quote comes in the middle of a field and
    is an ordinary character, and the record splits at the semicolon. *)
Lemma quoted_field_split_by_new_delimiter :
  let record := "x," +:+ quoted_field "a;b" +:+ ",y" in
  ";"%char ∈ (fst <$> delimiter_options)
  /\ Csv.reader ","%char record = Csv.of_rows [["x"; "a;b"; "y"]]
  /\ Csv.reader ";"%char record
     = Csv.of_rows [["x," +:+ String DQUOTE "a"; "b" +:+ String DQUOTE ",y"]]
  /\ ~ In "a;b" ["x," +:+ String DQUOTE "a"; "b" +:+ String DQUOTE ",y"].
Proof.
  vm_compute. split; [|split; [reflexivity|split; [reflexivity|]]].
  - set_solver.
  - intros [H|[H|[]]]; discriminate H.
Qed.

(** C8, amended.  Take a line of a record up to a point where the
    reader, with the delimiter [d] of the dropdown, starts a field: the
    start of the record, or right after a delimiter ([before] is what the
    line holds up to there, [line_start] the state of the reader at the
    start of the line; for the first line of a record [line_start] is
    [parse_reset] and the reader below is [Csv.reader d]).  A double-quoted
    field written there, whose value [body] has at most [field_limit]
    characters, is read as the one field value [body], whatever [body]
    holds: the delimiter, line breaks, which spread the field over several
    lines of the file, quotes, written twice.

    - When the delimiter follows the closing quote, the reader goes on
      with the next field, [body] being the last of the fields read, and
      the record it then yields starts with the fields read before and
      [body].
    - When the record ends after the closing quote, with LF, CR LF, CR or
      the end of the file, the reader yields the fields read before and
      [body], and goes on with the text after the line ending. *)
Theorem quoted_field_kept_whole d line_start before self body rest :
  d ∈ (fst <$> delimiter_options) ->
  no_line_break before = true ->
  Csv.process_chars d line_start before = Some self ->
  Csv.state self = Csv.START_RECORD \/ Csv.state self = Csv.START_FIELD ->
  Csv.field self = "" ->
  Z.of_nat (String.length body) <= Csv.field_limit ->
  let read after :=
    Csv.Reader_iter d line_start
      (Py.readlines "" (before +:+ quoted_field body +:+ after)) in
  let record := (Csv.fields self ++ [body])%list in
  (rest <> "" ->
   read (String d rest)
   = Csv.Reader_iter d (Csv.mkReader Csv.START_FIELD record "")
       (Py.readlines "" rest))
  /\ read (String d "") = Csv.RCons (record ++ [""])%list Csv.RStop
  /\ (forall row others,
        read (String d rest) = Csv.RCons row others ->
        exists more, row = (record ++ more)%list)
  /\ read (String LF rest) = Csv.RCons record (Csv.reader d rest)
  /\ read (String CR (String LF rest)) = Csv.RCons record (Csv.reader d rest)
  /\ ((forall rest', rest <> String LF rest') ->
      read (String CR rest) = Csv.RCons record (Csv.reader d rest))
  /\ read "" = Csv.RCons record Csv.RStop.
Proof.
  intros Hd Hbefore Hstart Hstate Hfield Hlen read record.
  pose proof (delimiter_is_no_quote d Hd) as Hdq.
  pose proof (delimiter_is_no_newline d Hd) as Hdn.
  destruct self as [st fs f]. simpl in Hstate, Hfield. subst f.
  cbn [Csv.fields] in record.
  (* up to the opening quote *)
  assert (Hopen : Csv.process_chars d line_start (snoc before DQUOTE)
                  = Some (Csv.mkReader Csv.IN_QUOTED_FIELD fs "")).
  { rewrite (process_chars_snoc _ _ _ _ _ Hstart).
    apply step_open_quote, Hstate. }
  (* through the value *)
  destruct (Reader_iter_quoted_body d (String.length body) body line_start
              (snoc before DQUOTE) fs "")
    as (ls & l & Hl & Hbody); [lia|exact Hopen|simpl String.length; lia|].
  rewrite app_empty_l in Hl.
  assert (Hread : forall after,
            read after
            = Csv.Reader_iter d ls (Py.readlines (snoc l DQUOTE) after)).
  { intros after. subst read. cbv beta.
    rewrite readlines_no_line_break by exact Hbefore.
    rewrite app_empty_l. unfold quoted_field.
    rewrite app_String, readlines_char by reflexivity.
    rewrite (app_assoc_s (doubled body)), app_String, app_empty_l.
    rewrite Hbody. rewrite readlines_char by reflexivity. reflexivity. }
  (* the closing quote *)
  assert (Hclose : Csv.process_chars d ls (snoc l DQUOTE)
                   = Some (Csv.mkReader Csv.QUOTE_IN_QUOTED_FIELD fs body)).
  { rewrite (process_chars_snoc _ _ _ _ _ Hl). apply step_quoted_quote. }
  assert (Hdelim : Csv.process_chars d ls (snoc (snoc l DQUOTE) d)
                   = Some (Csv.mkReader Csv.START_FIELD record "")).
  { rewrite (process_chars_snoc _ _ _ _ _ Hclose).
    apply step_close_delimiter, Hdq. }
  assert (Hnewline : forall c,
            is_newline c = true ->
            Csv.process_chars d ls (snoc (snoc l DQUOTE) c)
            = Some (Csv.mkReader Csv.EAT_CRNL record "")).
  { intros c Hc. rewrite (process_chars_snoc _ _ _ _ _ Hclose).
    apply step_close_newline; [exact Hc|].
    destruct (Ascii.eqb c d) eqn:Hcd; [|reflexivity].
    apply Ascii.eqb_eq in Hcd. subst c. congruence. }
  assert (Hafter_delim : forall after,
            read (String d after)
            = Csv.Reader_iter d ls
                (Py.readlines (snoc (snoc l DQUOTE) d) after)).
  { intros after. rewrite Hread, readlines_char by exact Hdn. reflexivity. }
  split; [|split; [|split; [|split; [|split; [|split]]]]].
  - intros Hrest. rewrite Hafter_delim.
    apply Reader_iter_within_line; assumption.
  - rewrite Hafter_delim, readlines_last_line.
    apply (Reader_iter_line_ends_record d ls _ _ (record ++ [""])%list []
             Hdelim).
    reflexivity.
  - intros row others Hrow. rewrite Hafter_delim in Hrow.
    destruct rest as [|x y] eqn:Hrest.
    + rewrite readlines_last_line in Hrow.
      rewrite (Reader_iter_line_ends_record d ls _ _ (record ++ [""])%list []
                 Hdelim) in Hrow by reflexivity.
      injection Hrow as <- _. eexists. reflexivity.
    + assert (Hne : String x y <> "") by discriminate.
      rewrite (Reader_iter_within_line d ls _ _ _ Hne Hdelim) in Hrow.
      apply Reader_iter_fields in Hrow. exact Hrow.
  - rewrite Hread. cbn [Py.readlines]. rewrite Ascii.eqb_refl.
    apply (Reader_iter_line_ends_record d ls _ _ record _
             (Hnewline LF eq_refl)).
    reflexivity.
  - rewrite Hread. cbn [Py.readlines].
    change (Ascii.eqb CR LF) with false. change (Ascii.eqb CR CR) with true.
    rewrite Ascii.eqb_refl. cbv iota.
    apply (Reader_iter_line_ends_record d ls _
             (Csv.mkReader Csv.EAT_CRNL record "") record).
    + rewrite (process_chars_snoc _ _ _ _ _ (Hnewline CR eq_refl)).
      reflexivity.
    + reflexivity.
  - intros Hno. rewrite Hread. cbn [Py.readlines].
    change (Ascii.eqb CR LF) with false. change (Ascii.eqb CR CR) with true.
    cbv iota.
    assert (Hlines : match rest with
                     | String c' rest' =>
                         if Ascii.eqb c' LF
                         then snoc (snoc (snoc l DQUOTE) CR) c'
                              :: Py.readlines "" rest'
                         else snoc (snoc l DQUOTE) CR :: Py.readlines "" rest
                     | EmptyString =>
                         snoc (snoc l DQUOTE) CR :: Py.readlines "" rest
                     end
                     = snoc (snoc l DQUOTE) CR :: Py.readlines "" rest).
    { destruct rest as [|c' rest']; [reflexivity|].
      destruct (Ascii.eqb c' LF) eqn:Hc'; [|reflexivity].
      apply Ascii.eqb_eq in Hc'. subst c'. destruct (Hno rest' eq_refl). }
    rewrite Hlines.
    apply (Reader_iter_line_ends_record d ls _ _ record _
             (Hnewline CR eq_refl)).
    reflexivity.
  - rewrite Hread, readlines_last_line.
    apply (Reader_iter_line_ends_record d ls _ _ record [] Hclose).
    reflexivity.
Qed.

Lemma quoted_field_kept_whole_witness :
  let d := ";"%char in
  let body := "a;b" +:+ String LF "c" in
  let read after := Csv.reader d ("x;" +:+ quoted_field body +:+ after) in
  let record := ["x"; body] in
  read (String d "y")
  = Csv.Reader_iter d (Csv.mkReader Csv.START_FIELD record "")
      (Py.readlines "" "y")
  /\ read (String d "") = Csv.RCons (record ++ [""])%list Csv.RStop
  /\ (forall row others,
        read (String d "y") = Csv.RCons row others ->
        exists more, row = (record ++ more)%list)
  /\ read (String LF "y") = Csv.RCons record (Csv.reader d "y")
  /\ read (String CR (String LF "y")) = Csv.RCons record (Csv.reader d "y")
  /\ read (String CR "y") = Csv.RCons record (Csv.reader d "y")
  /\ read "" = Csv.RCons record Csv.RStop.
Proof.
  intros d body read record.
  destruct (quoted_field_kept_whole d Csv.parse_reset "x;"
              (Csv.mkReader Csv.START_FIELD ["x"] "") body "y")
    as (Hdelim & Hlast & Hrow & Hlf & Hcrlf & Hcr & Hend).
  - vm_compute. set_solver.
  - reflexivity.
  - reflexivity.
  - right. reflexivity.
  - reflexivity.
  - vm_compute. discriminate.
  - split; [apply Hdelim; discriminate|].
    split; [exact Hlast|]. split; [exact Hrow|].
    split; [exact Hlf|]. split; [exact Hcrlf|].
    split; [apply Hcr; discriminate|exact Hend].
Defined.

(** The same record written for the semicolon keeps its quoted field,
    also when the field holds a line break or ends the line. *)
Example quoted_field_example :
  Csv.reader ";"%char ("x;" +:+ quoted_field "a;b" +:+ ";y")
  = Csv.of_rows [["x"; "a;b"; "y"]]
  /\ Csv.reader ";"%char (quoted_field ("a;" +:+ String DQUOTE "b") +:+ ";y")
     = Csv.of_rows [["a;" +:+ String DQUOTE "b"; "y"]]
  /\ Csv.reader ";"%char
       ("x;" +:+ quoted_field ("a;b" +:+ String CR (String LF "c"))
        +:+ String CR (String LF "y;z"))
     = Csv.of_rows [["x"; "a;b" +:+ String CR (String LF "c")]; ["y"; "z"]].
Proof. vm_compute. repeat split; reflexivity. Qed.

(** * Further properties of the viewer *)

(** ** The shape of a displayed row *)

(** X3. The values shown for a record are, for each visible column in
    order, the record's field at that column, or the empty string where
    the record is too short; fields past the header are never shown. *)
Theorem visible_row_cells header row hidden :
  visible_row_of (padded_row_of header row) (visible_columns_of header hidden)
  = Some (cell row <$> visible_columns_of header hidden).
Proof.
  unfold visible_row_of. apply mapM_Some_2, Forall2_fmap_r.
  apply Forall_Forall2_diag.
  eapply Forall_impl; [apply visible_columns_in_range|].
  intros i Hi. apply getitem_padded_row, Hi.
Qed.

(** ** The page as a slice of the file *)

(** X2. When the reader yields a header and then the data rows, the page
    load shows the data rows from position [current_page * page_size] on,
    [page_size] of them at most, in the order of the file, each read at
    the visible columns. *)
Theorem page_is_slice_of_rows files self path text header rows :
  file_path self = Some path -> path <> "" ->
  files path = Some text ->
  Csv.reader (delimiter self) text = Csv.of_rows (header :: rows) ->
  page_rows (fst (_load_page files self))
  = (fun row => cell row <$> visible_columns_of header (hidden_columns self))
      <$> take (Z.to_nat (page_size self))
            (drop (Z.to_nat (current_page self * page_size self)) rows).
Proof.
  intros Hpath Hne Hfile Hreader.
  destruct (_load_page_of_rows files self path text header rows
              Hpath Hne Hfile Hreader)
    as (self' & Hrun & _ & _ & _ & Hrows & _).
  rewrite Hrun. simpl fst. unfold page_rows.
  apply shown_rows, Hrows.
Qed.

Lemma page_is_slice_of_rows_witness :
  page_rows (fst (_load_page example_files (example_viewer 1)))
  = (fun row => cell row <$> visible_columns_of ["a"; "b"; "c"]
                              (hidden_columns (example_viewer 1)))
      <$> take (Z.to_nat (page_size (example_viewer 1)))
            (drop (Z.to_nat (current_page (example_viewer 1)
                             * page_size (example_viewer 1)))
               [["1"; "2"; "3"]; ["4"; "5"]; ["6"; "7"; "8"; "9"]]).
Proof.
  apply (page_is_slice_of_rows example_files (example_viewer 1)
           "data.csv" example_text).
  - reflexivity.
  - discriminate.
  - reflexivity.
  - vm_compute. reflexivity.
Defined.

(** X1. When the reader yields a header and then the data rows, the page
    size is above zero and the page index at least zero, the page load
    leaves [has_next_page] true exactly when the file has a data row past
    the page, that is when [(current_page + 1) * page_size] is below the
    number of data rows. *)
Theorem has_next_iff_rows_beyond files self path text header rows :
  file_path self = Some path -> path <> "" ->
  files path = Some text ->
  Csv.reader (delimiter self) text = Csv.of_rows (header :: rows) ->
  0 < page_size self -> 0 <= current_page self ->
  has_next_page (fst (_load_page files self)) = true
  <-> (current_page self + 1) * page_size self < len rows.
Proof.
  intros Hpath Hne Hfile Hreader Hsize Hpage.
  destruct (_load_page_of_rows files self path text header rows
              Hpath Hne Hfile Hreader)
    as (self' & Hrun & _ & _ & _ & _ & Hnext).
  rewrite Hrun. simpl fst. rewrite Hnext, bool_decide_eq_true.
  unfold len. rewrite length_drop.
  assert (0 <= current_page self * page_size self) by lia.
  rewrite Z.mul_add_distr_r, Z.mul_1_l. lia.
Qed.

Lemma has_next_iff_rows_beyond_witness :
  has_next_page (fst (_load_page example_files (example_viewer 0))) = true
  <-> (current_page (example_viewer 0) + 1) * page_size (example_viewer 0)
      < len [["1"; "2"; "3"]; ["4"; "5"]; ["6"; "7"; "8"; "9"]].
Proof.
  apply (has_next_iff_rows_beyond example_files (example_viewer 0)
           "data.csv" example_text ["a"; "b"; "c"]).
  - reflexivity.
  - discriminate.
  - reflexivity.
  - vm_compute. reflexivity.
  - reflexivity.
  - discriminate.
Defined.

(** ** How a page load can end *)

Lemma _load_page_show_page files self c p text header reader :
  file_path self = Some (String c p) ->
  files (String c p) = Some text ->
  Csv.reader (delimiter self) text = Csv.RCons header reader ->
  _load_page files self = show_page header reader self.
Proof.
  intros Hpath Hfile Hreader. unfold _load_page.
  rewrite Hpath, Hfile, Hreader. reflexivity.
Qed.

(** A page load leaves the viewer as it found it (no file chosen, or an
    exception before the header is read), or it runs [show_page]. *)
Lemma _load_page_cases files self :
  fst (_load_page files self) = self
  \/ (exists header reader,
        truthy (file_path self) = true
        /\ _load_page files self = show_page header reader self).
Proof.
  unfold _load_page at 1.
  destruct (file_path self) as [[|c p]|] eqn:Hpath; try (left; reflexivity).
  destruct (files (String c p)) as [text|] eqn:Hfile; [|left; reflexivity].
  destruct (Csv.reader (delimiter self) text) as [header reader| |] eqn:Hreader;
    try (left; reflexivity).
  right. exists header, reader. split; [reflexivity|].
  apply (_load_page_show_page files self c p text); assumption.
Qed.

(** The tree of the viewer after a callback is the tree it had, or the
    tree a page load made of it. *)
Lemma handle_tree files ev self :
  tree (handle files ev self) = tree self
  \/ (exists s, tree s = tree self
                /\ tree (handle files ev self)
                   = tree (fst (_load_page files s))).
Proof.
  unfold handle, callback.
  destruct ev as [path|d|text| |vars| |].
  - unfold open_file. destruct path; [left; reflexivity|].
    unfold seq_stmt, assign. right.
    match goal with
    | |- context [_load_page files ?s] =>
        exists s; split; [reflexivity|];
        destruct (_load_page files s) as [? [|?]]; reflexivity
    end.
  - unfold _on_delimiter_changed, seq_stmt, assign, when_file_loaded.
    match goal with
    | |- context [truthy ?x] => destruct (truthy x)
    end.
    + right.
      match goal with
      | |- context [_load_page files ?s] => exists s
      end.
      split; [|reflexivity].
      destruct (find_delimiter d delimiter_options); reflexivity.
    + left. destruct (find_delimiter d delimiter_options); reflexivity.
  - unfold _on_page_size_changed.
    destruct (Py.int text) as [n|]; [|left; reflexivity].
    destruct (0 <? n); [|left; reflexivity].
    unfold seq_stmt, assign, when_file_loaded.
    match goal with
    | |- context [truthy ?x] => destruct (truthy x)
    end; [|left; reflexivity].
    right.
    match goal with
    | |- context [_load_page files ?s] => exists s; split; reflexivity
    end.
  - unfold _toggle_expand_columns, seq_stmt, assign.
    destruct (expand_columns self); [|left; reflexivity].
    right. exists self. split; [reflexivity|].
    destruct (_load_page files self) as [? [|?]]; reflexivity.
  - unfold _apply_column_visibility, seq_stmt, assign. right.
    match goal with
    | |- context [_load_page files ?s] => exists s; split; reflexivity
    end.
  - unfold next_page. destruct (has_next_page self); [|left; reflexivity].
    unfold seq_stmt, assign. right.
    match goal with
    | |- context [_load_page files ?s] =>
        exists s; split; [reflexivity|];
        destruct (_load_page files s) as [? [|?]]; reflexivity
    end.
  - unfold prev_page.
    destruct (0 <? current_page self); [|left; reflexivity].
    unfold seq_stmt, assign. right.
    match goal with
    | |- context [_load_page files ?s] =>
        exists s; split; [reflexivity|];
        destruct (_load_page files s) as [? [|?]]; reflexivity
    end.
Qed.

(** A property of trees that the initial tree has, and that every tree
    [show_page] makes has, holds of the tree of every reachable viewer. *)
Lemma reachable_tree (P : Treeview -> Prop) :
  P (tree __init__) ->
  (forall header reader s, P (tree (fst (show_page header reader s)))) ->
  forall self, reachable self -> P (tree self).
Proof.
  intros Hinit Hshow self Hreach.
  induction Hreach as [|files ev self _ IH]; [exact Hinit|].
  destruct (handle_tree files ev self) as [-> | (s & Hs & ->)]; [exact IH|].
  destruct (_load_page_cases files s) as [-> | (header & reader & _ & ->)].
  - rewrite Hs. exact IH.
  - apply Hshow.
Qed.

(** ** What the tree always looks like *)

Lemma is_odd_of_nat n : Py.is_odd (Z.of_nat n) = negb (Nat.even n).
Proof.
  unfold Py.is_odd. rewrite <- Zeven_mod. f_equal.
  induction n as [|n IH]; [reflexivity|].
  rewrite Nat2Z.inj_succ, Z.even_succ, Nat.even_succ.
  rewrite <- Z.negb_even, <- Nat.negb_even, IH. reflexivity.
Qed.

Lemma load_rows_fit header visible_columns reader :
  forall row_count self,
    length (columns (tree self)) = length visible_columns ->
    rows_fit (tree self) ->
    rows_fit (tree (fst (load_rows header visible_columns row_count reader
                           self))).
Proof.
  induction reader as [row rest IH| |]; intros row_count self Hcols Hfit;
    simpl; try exact Hfit.
  destruct (row_count <? page_size self); [|exact Hfit].
  destruct (visible_row_of _ _) as [visible_row|] eqn:Hrow; [|exact Hfit].
  apply IH; [exact Hcols|].
  unfold rows_fit in *. simpl. apply Forall_app. split; [exact Hfit|].
  constructor; [|constructor]. simpl.
  apply length_mapM in Hrow. congruence.
Qed.

Lemma load_rows_striped header visible_columns reader :
  forall row_count self,
    row_count = len (children (tree self)) ->
    striped (tree self) ->
    striped (tree (fst (load_rows header visible_columns row_count reader
                          self))).
Proof.
  induction reader as [row rest IH| |]; intros row_count self Hcount Hstripes;
    simpl; try exact Hstripes.
  destruct (row_count <? page_size self); [|exact Hstripes].
  destruct (visible_row_of _ _) as [visible_row|]; [|exact Hstripes].
  apply IH.
  - simpl. unfold len in *. rewrite length_app. simpl. lia.
  - unfold striped in *. simpl. intros k item Hitem.
    apply lookup_snoc_Some in Hitem as [[_ Hold]|[-> <-]].
    + apply Hstripes, Hold.
    + simpl. subst row_count. unfold len. rewrite is_odd_of_nat.
      unfold stripe. destruct (Nat.even _); reflexivity.
Qed.

Lemma show_page_tree header reader self :
  rows_fit (tree (fst (show_page header reader self)))
  /\ striped (tree (fst (show_page header reader self))).
Proof.
  unfold show_page, seq_stmt, assign.
  set (visible_columns := visible_columns_of header (hidden_columns self)).
  match goal with
  | |- context [setup_columns header visible_columns ?s] =>
      pose proof (setup_columns_frame header visible_columns s) as Hframe;
      destruct (setup_columns header visible_columns s) as [s1 o1]
  end.
  simpl in Hframe. destruct Hframe as (_ & Hchildren & Hcolumns & _).
  assert (Hfit : rows_fit (tree s1)).
  { unfold rows_fit. rewrite Hchildren. constructor. }
  assert (Hstripes : striped (tree s1)).
  { unfold striped. rewrite Hchildren. intros k item Hitem.
    rewrite lookup_nil in Hitem. discriminate. }
  destruct o1 as [|e]; [|split; assumption].
  destruct (skip_rows _ reader) as [reader'|]; [|split; assumption].
  split.
  - apply load_rows_fit; [rewrite Hcolumns; reflexivity|exact Hfit].
  - apply load_rows_striped; [rewrite Hchildren; reflexivity|exact Hstripes].
Qed.

(** X4. In every viewer the user can reach, whatever the files held and
    however the page loads ended, each row of the tree has exactly one
    value per column of the tree: short records are padded and long ones
    cut to the visible columns. *)
Theorem tree_rows_fit_columns self :
  reachable self -> rows_fit (tree self).
Proof.
  apply (reachable_tree rows_fit).
  - constructor.
  - intros header reader s. apply show_page_tree.
Qed.

Lemma tree_rows_fit_columns_witness :
  rows_fit (tree (handle example_files NextPage
                    (handle example_files (PageSizeChanged (Py.str_of "2"))
                       (handle example_files (DelimiterChanged "Comma (,)")
                          (handle example_files (OpenFile "data.csv")
                             __init__))))).
Proof.
  apply tree_rows_fit_columns.
  repeat apply reachable_handle. apply reachable_init.
Defined.

(** X5. In every viewer the user can reach the rows of the tree carry the
    stripe tags [even], [odd], [even], ... from the first row of the page
    on: the tag follows the position within the page, not within the
    file. *)
Theorem tree_rows_striped self :
  reachable self -> striped (tree self).
Proof.
  apply (reachable_tree striped).
  - intros k item Hitem. simpl in Hitem. rewrite lookup_nil in Hitem.
    discriminate.
  - intros header reader s. apply show_page_tree.
Qed.

Lemma tree_rows_striped_witness :
  striped (tree (handle example_files NextPage
                   (handle example_files (PageSizeChanged (Py.str_of "2"))
                      (handle example_files (DelimiterChanged "Comma (,)")
                         (handle example_files (OpenFile "data.csv")
                            __init__))))).
Proof.
  apply tree_rows_striped.
  repeat apply reachable_handle. apply reachable_init.
Defined.

(** ** The settings of a reachable viewer *)

Lemma find_delimiter_Some text options d :
  find_delimiter text options = Some d ->
  exists display, (d, display) ∈ options /\ display = text.
Proof.
  induction options as [|[delim display] rest IH]; simpl; [discriminate|].
  destruct (String.eqb display text) eqn:Hhit.
  - intros [= ->]. apply String.eqb_eq in Hhit. exists display.
    split; [left|exact Hhit].
  - intros Hrest. destruct (IH Hrest) as (display' & Hin & Heq).
    exists display'. split; [right; exact Hin|exact Heq].
Qed.

Lemma on_delimiter_changed_delimiter files text self :
  delimiter (fst (_on_delimiter_changed files text self))
  = default (delimiter self) (find_delimiter text delimiter_options).
Proof.
  unfold _on_delimiter_changed.
  destruct (find_delimiter text delimiter_options) as [d|];
    unfold seq_stmt, assign, when_file_loaded;
    (match goal with
     | |- context [truthy ?p] => destruct (truthy p)
     end; [frame_load; simpl; intuition congruence|reflexivity]).
Qed.

Lemma handle_settings files ev self :
  0 < page_size self /\ delimiter self ∈ (fst <$> delimiter_options) ->
  0 < page_size (handle files ev self)
  /\ delimiter (handle files ev self) ∈ (fst <$> delimiter_options).
Proof.
  intros [Hsize Hdelim]. unfold handle, callback.
  destruct ev as [path|d|text| |vars| |].
  - unfold open_file. destruct path; [split; assumption|].
    unfold seq_stmt, assign.
    frame_load; simpl; destruct Hframe as (_ & -> & _ & -> & _);
      split; assumption.
  - split.
    + unfold _on_delimiter_changed.
      destruct (find_delimiter d delimiter_options);
        unfold seq_stmt, assign, when_file_loaded;
        (match goal with
         | |- context [truthy ?p] => destruct (truthy p)
         end; [frame_load; simpl; intuition congruence|exact Hsize]).
    + rewrite on_delimiter_changed_delimiter.
      destruct (find_delimiter d delimiter_options) as [c|] eqn:Hfind;
        [|exact Hdelim].
      apply find_delimiter_Some in Hfind as (display & Hin & _).
      apply list_elem_of_fmap. exists (c, display). split; [reflexivity|exact Hin].
  - unfold _on_page_size_changed.
    destruct (Py.int text) as [n|]; [|split; assumption].
    destruct (0 <? n) eqn:Hpos; [|split; assumption].
    apply Z.ltb_lt in Hpos.
    unfold seq_stmt, assign, when_file_loaded.
    match goal with
    | |- context [truthy ?p] => destruct (truthy p)
    end; [|split; assumption].
    frame_load; simpl; destruct Hframe as (_ & -> & _ & -> & _);
      split; assumption.
  - unfold _toggle_expand_columns, seq_stmt, assign.
    destruct (expand_columns self); [|split; assumption].
    frame_load; simpl; destruct Hframe as (_ & -> & _ & -> & _);
      split; assumption.
  - unfold _apply_column_visibility, seq_stmt, assign.
    frame_load; simpl; destruct Hframe as (_ & -> & _ & -> & _);
      split; assumption.
  - unfold next_page. destruct (has_next_page self); [|split; assumption].
    unfold seq_stmt, assign.
    frame_load; simpl; destruct Hframe as (_ & -> & _ & -> & _);
      split; assumption.
  - unfold prev_page.
    destruct (0 <? current_page self); [|split; assumption].
    unfold seq_stmt, assign.
    frame_load; simpl; destruct Hframe as (_ & -> & _ & -> & _);
      split; assumption.
Qed.

(** X6. In every viewer the user can reach the page size is above zero:
    it starts at 200 and the only assignment to it is guarded by
    [new_page_size > 0]. *)
Theorem page_size_always_positive self :
  reachable self -> 0 < page_size self.
Proof.
  intros Hreach.
  enough (Hboth : 0 < page_size self
                  /\ delimiter self ∈ (fst <$> delimiter_options))
    by apply Hboth.
  induction Hreach as [|files ev self _ IH].
  - split; [reflexivity|]. right. left.
  - apply handle_settings, IH.
Qed.

Lemma page_size_always_positive_witness :
  0 < page_size (handle example_files (PageSizeChanged (Py.str_of "-7"))
                   (handle example_files (PageSizeChanged (Py.str_of "3"))
                      (handle example_files (OpenFile "data.csv") __init__))).
Proof.
  apply page_size_always_positive.
  repeat apply reachable_handle. apply reachable_init.
Defined.

(** X7. In every viewer the user can reach the delimiter is one of the
    five of [delimiter_options] (comma, tab, semicolon, pipe, space). *)
Theorem delimiter_always_an_option self :
  reachable self -> delimiter self ∈ (fst <$> delimiter_options).
Proof.
  intros Hreach.
  enough (Hboth : 0 < page_size self
                  /\ delimiter self ∈ (fst <$> delimiter_options))
    by apply Hboth.
  induction Hreach as [|files ev self _ IH].
  - split; [reflexivity|]. right. left.
  - apply handle_settings, IH.
Qed.

Lemma delimiter_always_an_option_witness :
  delimiter (handle example_files (DelimiterChanged "no such entry")
               (handle example_files (DelimiterChanged "Pipe (|)")
                  (handle example_files (OpenFile "data.csv") __init__)))
  ∈ (fst <$> delimiter_options).
Proof.
  apply delimiter_always_an_option.
  repeat apply reachable_handle. apply reachable_init.
Defined.

(** X8. Choosing an entry of the delimiter dropdown sets the delimiter to
    the character of that entry, for each of the five entries; a text
    that is no entry leaves the delimiter alone.  Either way the page
    index, the page size and the hidden columns stay as they were (the
    page is reloaded at the same index). *)
Theorem delimiter_choice files text self :
  let self' := handle files (DelimiterChanged text) self in
  (forall d, (d, text) ∈ delimiter_options -> delimiter self' = d)
  /\ (text ∉ (snd <$> delimiter_options) -> delimiter self' = delimiter self)
  /\ current_page self' = current_page self
  /\ page_size self' = page_size self
  /\ hidden_columns self' = hidden_columns self.
Proof.
  intros self'. subst self'. unfold handle, callback.
  split; [|split].
  - intros d Hin. rewrite on_delimiter_changed_delimiter.
    repeat (apply elem_of_cons in Hin as [[= -> ->] | Hin]; [reflexivity|]).
    inversion Hin.
  - intros Hout. rewrite on_delimiter_changed_delimiter.
    destruct (find_delimiter text delimiter_options) as [d|] eqn:Hfind;
      [|reflexivity].
    exfalso. apply Hout.
    apply find_delimiter_Some in Hfind as (display & Hin & <-).
    apply list_elem_of_fmap. exists (d, display). split; [reflexivity|exact Hin].
  - unfold _on_delimiter_changed.
    destruct (find_delimiter text delimiter_options);
      unfold seq_stmt, assign, when_file_loaded;
      (match goal with
       | |- context [truthy ?p] => destruct (truthy p)
       end; [frame_load; simpl; intuition congruence|repeat split]).
Qed.

Lemma delimiter_choice_witness :
  delimiter (handle example_files (DelimiterChanged "Semicolon (;)")
               (example_viewer 1)) = ";"%char.
Proof.
  apply (proj1 (delimiter_choice example_files "Semicolon (;)"
                  (example_viewer 1))).
  right. right. left.
Defined.

(** ** Reloading *)

Lemma viewer_ext (a b : LazyCSVViewerGUI) :
  file_path a = file_path b -> page_size a = page_size b ->
  current_page a = current_page b -> has_next_page a = has_next_page b ->
  delimiter a = delimiter b -> expand_columns a = expand_columns b ->
  hidden_columns a = hidden_columns b ->
  column_headers a = column_headers b -> tree a = tree b ->
  page_label a = page_label b ->
  column_visibility_button a = column_visibility_button b ->
  messagebox a = messagebox b ->
  a = b.
Proof. destruct a, b. simpl. intros. subst. reflexivity. Qed.

(** The heading loop and the row loop read the viewer only through its
    tree and its page size. *)
Lemma setup_columns_depends header visible_columns : forall a b,
  tree a = tree b ->
  snd (setup_columns header visible_columns b)
  = snd (setup_columns header visible_columns a)
  /\ tree (fst (setup_columns header visible_columns b))
     = tree (fst (setup_columns header visible_columns a)).
Proof.
  induction visible_columns as [|i rest IH]; intros a b Htree; simpl.
  - split; [reflexivity|symmetry; exact Htree].
  - destruct (getitem header i) as [text|];
      [|split; [reflexivity|symmetry; exact Htree]].
    apply IH. simpl. rewrite Htree. reflexivity.
Qed.

Lemma load_rows_depends header visible_columns reader :
  forall row_count a b,
    tree a = tree b -> page_size a = page_size b ->
    let ra := load_rows header visible_columns row_count reader a in
    let rb := load_rows header visible_columns row_count reader b in
    snd rb = snd ra
    /\ tree (fst rb) = tree (fst ra)
    /\ (snd ra = Returned -> has_next_page (fst rb) = has_next_page (fst ra))
    /\ (snd ra <> Returned ->
        has_next_page (fst ra) = has_next_page a
        /\ has_next_page (fst rb) = has_next_page b).
Proof.
  induction reader as [row rest IH| |]; intros row_count a b Htree Hsize;
    simpl.
  - rewrite <- Hsize. destruct (row_count <? page_size a).
    + destruct (visible_row_of _ _) as [visible_row|].
      * set (tag := if Py.is_odd row_count then "odd" else "even").
        specialize (IH (row_count + 1)
          (set_tree (tree_insert visible_row tag (tree a)) a)
          (set_tree (tree_insert visible_row tag (tree b)) b)).
        simpl in IH. apply IH; [rewrite Htree; reflexivity|exact Hsize].
      * simpl. repeat split; intros; try congruence; auto.
    + simpl. repeat split; intros; try congruence; auto.
  - simpl. repeat split; intros; try congruence; auto.
  - simpl. repeat split; intros; try congruence; auto.
Qed.

Lemma show_page_depends header reader a b :
  page_size a = page_size b -> current_page a = current_page b ->
  hidden_columns a = hidden_columns b ->
  let ra := show_page header reader a in
  let rb := show_page header reader b in
  snd rb = snd ra
  /\ tree (fst rb) = tree (fst ra)
  /\ column_headers (fst rb) = column_headers (fst ra)
  /\ column_visibility_button (fst rb) = column_visibility_button (fst ra)
  /\ (snd ra = Returned -> has_next_page (fst rb) = has_next_page (fst ra))
  /\ (snd ra <> Returned ->
      has_next_page (fst ra) = has_next_page a
      /\ has_next_page (fst rb) = has_next_page b).
Proof.
  intros Hsize Hpage Hhidden. unfold show_page, seq_stmt, assign.
  rewrite <- Hsize, <- Hpage, <- Hhidden.
  set (visible_columns := visible_columns_of header (hidden_columns a)).
  set (start := current_page a * page_size a).
  match goal with
  | |- context [setup_columns header visible_columns
                  (set_tree ?t (set_tree ?t0
                     (set_column_visibility_button true
                        (set_column_headers header a))))] =>
      set (a0 := set_tree t (set_tree t0
                   (set_column_visibility_button true
                      (set_column_headers header a))))
  end.
  match goal with
  | |- context [setup_columns header visible_columns
                  (set_tree ?t (set_tree ?t0
                     (set_column_visibility_button true
                        (set_column_headers header b))))] =>
      set (b0 := set_tree t (set_tree t0
                   (set_column_visibility_button true
                      (set_column_headers header b))))
  end.
  assert (Htree0 : tree a0 = tree b0) by reflexivity.
  destruct (setup_columns_depends header visible_columns a0 b0 Htree0)
    as [Hout Htree].
  pose proof (setup_columns_frame header visible_columns a0) as Ha.
  pose proof (setup_columns_frame header visible_columns b0) as Hb.
  destruct (setup_columns header visible_columns a0) as [a1 oa].
  destruct (setup_columns header visible_columns b0) as [b1 ob].
  simpl in Hout, Htree, Ha, Hb. subst ob.
  destruct Ha as (Hka & _ & _ & Hna & Hha & Hba).
  destruct Hb as (Hkb & _ & _ & Hnb & Hhb & Hbb).
  assert (Hsize1 : page_size a1 = page_size b1).
  { destruct Hka as (_ & -> & _). destruct Hkb as (_ & -> & _).
    simpl. exact Hsize. }
  destruct oa as [|e].
  - destruct (skip_rows start reader) as [reader'|].
    + pose proof (load_rows_depends header visible_columns reader' 0 a1 b1
                    (eq_sym Htree) Hsize1) as Hrows.
      pose proof (load_rows_frame header visible_columns 0 reader' a1) as Hfa.
      pose proof (load_rows_frame header visible_columns 0 reader' b1) as Hfb.
      destruct (load_rows header visible_columns 0 reader' a1) as [a2 o2].
      destruct (load_rows header visible_columns 0 reader' b1) as [b2 o2'].
      simpl in *.
      destruct Hrows as (-> & Ht & Hret & Hraise).
      destruct Hfa as (_ & _ & -> & ->). destruct Hfb as (_ & _ & -> & ->).
      split; [reflexivity|]. split; [exact Ht|].
      split; [congruence|]. split; [congruence|].
      split; [exact Hret|].
      intros Hne. destruct (Hraise Hne) as [-> ->]. split; assumption.
    + simpl. split; [reflexivity|]. split; [congruence|].
      split; [congruence|]. split; [congruence|].
      split; [discriminate|]. intros _. split; assumption.
  - simpl. split; [reflexivity|]. split; [congruence|].
    split; [congruence|]. split; [congruence|].
    split; [discriminate|]. intros _. split; assumption.
Qed.

(** Like [_load_page_cases], with the file and its header at hand. *)
Lemma _load_page_reads files self :
  fst (_load_page files self) = self
  \/ (exists c p text header reader,
        file_path self = Some (String c p)
        /\ files (String c p) = Some text
        /\ Csv.reader (delimiter self) text = Csv.RCons header reader
        /\ _load_page files self = show_page header reader self).
Proof.
  unfold _load_page at 1.
  destruct (file_path self) as [[|c p]|] eqn:Hpath; try (left; reflexivity).
  destruct (files (String c p)) as [text|] eqn:Hfile; [|left; reflexivity].
  destruct (Csv.reader (delimiter self) text) as [header reader| |] eqn:Hreader;
    try (left; reflexivity).
  right. exists c, p, text, header, reader. repeat split; try assumption.
  apply (_load_page_show_page files self c p text); assumption.
Qed.

(** X9. Loading the page again, with the files unchanged, changes
    nothing: the second load ends like the first and leaves the viewer
    the first one left (the rows are replaced, never added to). *)
Theorem reload_changes_nothing files self :
  _load_page files (fst (_load_page files self)) = _load_page files self.
Proof.
  destruct (_load_page_reads files self)
    as [Hsame | (c & p & text & header & reader & Hpath & Hfile & Hreader & Hrun)].
  - rewrite Hsame. reflexivity.
  - pose proof (_load_page_frame files self) as Hkept.
    rewrite Hrun in *.
    set (ra := show_page header reader self) in *.
    destruct Hkept as (Hfp & Hps & Hcp & Hd & Hex & Hh & Hl & Hm).
    assert (Hagain : _load_page files (fst ra)
                     = show_page header reader (fst ra)).
    { apply (_load_page_show_page files (fst ra) c p text);
        [rewrite Hfp; exact Hpath|exact Hfile|rewrite Hd; exact Hreader]. }
    pose proof (_load_page_frame files (fst ra)) as Hkept'.
    rewrite Hagain in *.
    destruct Hkept' as (Hfp' & Hps' & Hcp' & Hd' & Hex' & Hh' & Hl' & Hm').
    destruct (show_page_depends header reader self (fst ra)
                (eq_sym Hps) (eq_sym Hcp) (eq_sym Hh))
      as (Hout & Htree & Hheaders & Hbutton & Hret & Hraise).
    fold ra in Hout, Htree, Hheaders, Hbutton, Hret, Hraise.
    set (rb := show_page header reader (fst ra)) in *.
    apply injective_projections; [|exact Hout].
    apply viewer_ext; try assumption.
    destruct (snd ra) as [|e] eqn:Hsnd.
    + apply Hret. reflexivity.
    + apply Hraise. discriminate.
Qed.

Lemma reload_changes_nothing_witness :
  _load_page example_files (fst (_load_page example_files (example_viewer 1)))
  = _load_page example_files (example_viewer 1).
Proof. apply reload_changes_nothing. Defined.

(** ** Next Page, then Previous Page *)

(** Two viewers with the same file, delimiter, page size, page index and
    hidden columns: both loads stop before the header is read, or both
    run [show_page] on the same header and records. *)
Lemma _load_page_depends files a b :
  file_path a = file_path b -> delimiter a = delimiter b ->
  (exists o, _load_page files a = (a, o) /\ _load_page files b = (b, o)
             /\ (o = Returned -> truthy (file_path a) = false))
  \/ (exists header reader,
        _load_page files a = show_page header reader a
        /\ _load_page files b = show_page header reader b).
Proof.
  intros Hpath Hdelim.
  destruct (file_path a) as [[|c p]|] eqn:Hpa.
  - left. exists Returned. unfold _load_page. rewrite <- Hpath, Hpa.
    repeat split.
  - destruct (files (String c p)) as [text|] eqn:Hfile.
    + destruct (Csv.reader (delimiter a) text) as [header reader| |]
        eqn:Hreader.
      * right. exists header, reader. split.
        -- apply (_load_page_show_page files a c p text); assumption.
        -- apply (_load_page_show_page files b c p text);
             [symmetry; exact Hpath|exact Hfile|rewrite <- Hdelim; exact Hreader].
      * left. exists (Raised StopIteration). unfold _load_page.
        rewrite <- Hpath, Hpa, Hfile, <- Hdelim, Hreader.
        repeat split. discriminate.
      * left. exists (Raised CsvError). unfold _load_page.
        rewrite <- Hpath, Hpa, Hfile, <- Hdelim, Hreader.
        repeat split. discriminate.
    + left. exists (Raised OSError). unfold _load_page.
      rewrite <- Hpath, Hpa, Hfile. repeat split. discriminate.
  - left. exists Returned. unfold _load_page. rewrite <- Hpath, Hpa.
    repeat split.
Qed.

Lemma next_page_settings files self :
  has_next_page self = true ->
  let next := handle files NextPage self in
  file_path next = file_path self /\ delimiter next = delimiter self
  /\ page_size next = page_size self
  /\ hidden_columns next = hidden_columns self
  /\ current_page next = current_page self + 1.
Proof.
  intros Hnext. unfold handle, callback, next_page. rewrite Hnext.
  unfold seq_stmt, assign. frame_load; simpl; intuition congruence.
Qed.

(** X10. From a viewer that has a next page, Next Page followed by
    Previous Page, the files unchanged, leads back to the page index it
    started from; and where a load of the starting page succeeds, the
    tree, the headers and [has_next_page] are then those of that load,
    and the label shows the page number [current_page + 1]. *)
Theorem next_then_prev_returns files self :
  has_next_page self = true -> 0 <= current_page self ->
  let back := handle files PrevPage (handle files NextPage self) in
  current_page back = current_page self
  /\ (truthy (file_path self) = true ->
      snd (_load_page files self) = Returned ->
      tree back = tree (fst (_load_page files self))
      /\ column_headers back = column_headers (fst (_load_page files self))
      /\ has_next_page back = has_next_page (fst (_load_page files self))
      /\ page_label back = current_page self + 1).
Proof.
  intros Hnext Hpage back. subst back.
  destruct (next_page_settings files self Hnext)
    as (Hfp & Hd & Hps & Hh & Hcp).
  set (next := handle files NextPage self) in *.
  unfold handle, callback, prev_page.
  replace (0 <? current_page next) with true
    by (symmetry; apply Z.ltb_lt; lia).
  unfold seq_stmt, assign.
  set (s := set_current_page (current_page next - 1) next).
  assert (Hs : file_path self = file_path s /\ delimiter self = delimiter s
               /\ page_size self = page_size s
               /\ current_page self = current_page s
               /\ hidden_columns self = hidden_columns s).
  { subst s. simpl. repeat split; try congruence. lia. }
  destruct Hs as (Hsfp & Hsd & Hsps & Hscp & Hsh).
  pose proof (_load_page_frame files s) as Hkept.
  destruct (_load_page_depends files self s Hsfp Hsd)
    as [(o & Hla & Hlb & Hfalsy) | (header & reader & Hla & Hlb)].
  - rewrite Hlb in *. split.
    + destruct o; simpl; lia.
    + intros Htruthy Hret. rewrite Hla in Hret. simpl in Hret. subst o.
      rewrite Hfalsy in Htruthy by reflexivity. discriminate.
  - rewrite Hlb in *. rewrite Hla.
    destruct (show_page_depends header reader self s Hsps Hscp Hsh)
      as (Hout & Htree & Hheaders & _ & Hret & _).
    destruct Hkept as (_ & _ & Hkcp & _).
    destruct (show_page header reader s) as [s' o'].
    simpl in Hout, Htree, Hheaders, Hret, Hkcp. split.
    + destruct o'; simpl; lia.
    + intros _ Hreturned. rewrite Hreturned in Hout. subst o'. simpl.
      repeat split; try assumption; [apply Hret, Hreturned|lia].
Qed.

Lemma next_then_prev_returns_witness :
  let start := fst (_load_page example_files (example_viewer 0)) in
  current_page (handle example_files PrevPage
                  (handle example_files NextPage start))
  = current_page start.
Proof.
  intros start.
  apply (next_then_prev_returns example_files start).
  - reflexivity.
  - discriminate.
Defined.

(** ** Showing and hiding columns *)

Lemma foldl_unchecked (column_vars : list (Z * bool)) :
  forall (hidden : gset Z) i,
    i ∈ foldl (fun hidden '(col_idx, var) =>
                 if negb var then hidden ∪ {[col_idx]} else hidden)
              hidden column_vars
    <-> i ∈ hidden \/ (i, false) ∈ column_vars.
Proof.
  induction column_vars as [|[col_idx var] rest IH]; intros hidden i; simpl.
  - rewrite elem_of_nil. tauto.
  - rewrite IH, elem_of_cons. destruct var; simpl.
    + split; [tauto|]. intros [? | [[=] | ?]]; tauto.
    + rewrite elem_of_union, elem_of_singleton.
      split; [intros [[? | ->] | ?]; tauto|].
      intros [? | [[= ->] | ?]]; tauto.
Qed.

Lemma apply_column_visibility_hidden files column_vars self :
  hidden_columns (fst (_apply_column_visibility files column_vars self))
  = foldl (fun hidden '(col_idx, var) =>
             if negb var then hidden ∪ {[col_idx]} else hidden)
          ∅ column_vars.
Proof.
  unfold _apply_column_visibility, seq_stmt, assign.
  frame_load; simpl; intuition congruence.
Qed.

Lemma apply_hides_the_unchecked_aux files column_vars self i :
  i ∈ hidden_columns (fst (_apply_column_visibility files column_vars self))
  <-> (i, false) ∈ column_vars.
Proof.
  rewrite apply_column_visibility_hidden, foldl_unchecked.
  rewrite elem_of_empty. tauto.
Qed.

(** X11. After Apply in the column selector the hidden columns are
    exactly the indices whose box is unchecked, whatever was hidden
    before and however the reload ends. *)
Theorem apply_hides_the_unchecked files column_vars self i :
  i ∈ hidden_columns (fst (_apply_column_visibility files column_vars self))
  <-> (i, false) ∈ column_vars.
Proof.
  rewrite apply_column_visibility_hidden, foldl_unchecked.
  rewrite elem_of_empty. tauto.
Qed.

Lemma elem_of_column_vars self i var :
  (i, var) ∈ column_vars_of self
  <-> 0 <= i < len (column_headers self)
      /\ var = bool_decide (i ∉ hidden_columns self).
Proof.
  unfold column_vars_of. rewrite list_elem_of_fmap. split.
  - intros (j & [= -> ->] & Hj). apply elem_of_seqZ in Hj.
    split; [lia|reflexivity].
  - intros [Hi ->]. exists i. split; [reflexivity|].
    apply elem_of_seqZ. lia.
Qed.

Lemma visible_columns_nil header (hidden : gset Z) :
  (forall i, 0 <= i < len header -> i ∈ hidden) ->
  visible_columns_of header hidden = [].
Proof.
  intros Hall. apply elem_of_nil_inv. intros i Hi.
  apply list_elem_of_filter in Hi as [Hout Hi].
  apply elem_of_seqZ in Hi. apply Hout, Hall. lia.
Qed.

(** X12. The column selector, opened on a viewer that has headers, and
    its Apply button: with no box touched, the hidden set keeps exactly
    its indices that name a column, and the visible columns stay the
    same; after Select All nothing is hidden; after Deselect All no
    column of the headers is visible. *)
Theorem column_selector_round_trip files self column_vars :
  snd (_show_column_selector self) = Some column_vars ->
  let untouched :=
    fst (_apply_column_visibility files column_vars self) in
  let all_shown :=
    fst (_apply_column_visibility files (select_all column_vars) self) in
  let none_shown :=
    fst (_apply_column_visibility files (deselect_all column_vars) self) in
  hidden_columns untouched
  = in_range_only (column_headers self) (hidden_columns self)
  /\ visible_columns_of (column_headers self) (hidden_columns untouched)
     = visible_columns_of (column_headers self) (hidden_columns self)
  /\ hidden_columns all_shown = ∅
  /\ visible_columns_of (column_headers self) (hidden_columns none_shown)
     = [].
Proof.
  intros Hshown untouched all_shown none_shown.
  assert (Hvars : column_vars = column_vars_of self).
  { unfold _show_column_selector in Hshown.
    destruct (column_headers self); simpl in Hshown; congruence. }
  subst column_vars.
  assert (Huntouched : hidden_columns untouched
                       = in_range_only (column_headers self)
                           (hidden_columns self)).
  { apply set_eq. intros i. subst untouched.
    rewrite apply_hides_the_unchecked_aux, elem_of_column_vars.
    unfold in_range_only. rewrite elem_of_filter.
    split.
    - intros [Hi Hdec]. symmetry in Hdec.
      apply bool_decide_eq_false in Hdec.
      split; [exact Hi|]. destruct (decide (i ∈ hidden_columns self)); tauto.
    - intros [Hi Hin]. split; [exact Hi|]. symmetry.
      apply bool_decide_eq_false. tauto. }
  split; [exact Huntouched|]. split; [|split].
  - rewrite Huntouched. symmetry. apply visible_columns_in_range_only.
  - apply set_eq. intros i. subst all_shown.
    rewrite apply_hides_the_unchecked_aux, elem_of_empty.
    unfold select_all. rewrite list_elem_of_fmap.
    split; [|tauto]. intros ([j var] & Heq & _). discriminate Heq.
  - apply visible_columns_nil. intros i Hi. subst none_shown.
    apply apply_hides_the_unchecked_aux.
    unfold deselect_all. apply list_elem_of_fmap.
    exists (i, bool_decide (i ∉ hidden_columns self)).
    split; [reflexivity|]. apply elem_of_column_vars. tauto.
Qed.

Lemma column_selector_round_trip_witness :
  let self :=
    fst (_load_page example_files
           (set_hidden_columns {[ 1; 7 ]} (example_viewer 0))) in
  hidden_columns
    (fst (_apply_column_visibility example_files (column_vars_of self) self))
  = in_range_only (column_headers self) (hidden_columns self).
Proof.
  intros self.
  apply (column_selector_round_trip example_files self (column_vars_of self)).
  reflexivity.
Defined.

Lemma show_page_columns header reader self :
  columns (tree (fst (show_page header reader self)))
  = visible_columns_of header (hidden_columns self).
Proof.
  unfold show_page, seq_stmt, assign.
  set (visible_columns := visible_columns_of header (hidden_columns self)).
  match goal with
  | |- context [setup_columns header visible_columns ?s] =>
      pose proof (setup_columns_frame header visible_columns s) as Hframe;
      destruct (setup_columns header visible_columns s) as [s1 o1]
  end.
  simpl in Hframe. destruct Hframe as (_ & _ & Hcolumns & _).
  destruct o1 as [|e]; [|exact Hcolumns].
  destruct (skip_rows _ reader) as [reader'|]; [|exact Hcolumns].
  pose proof (load_rows_frame header visible_columns 0 reader' s1) as Hrows.
  simpl in Hrows. destruct Hrows as (_ & -> & _). exact Hcolumns.
Qed.

(** X13. With every column of the header hidden the page load still
    runs: the tree gets no column and every row it shows is the empty
    list of values. *)
Theorem all_columns_hidden files self path text header reader :
  file_path self = Some path -> path <> "" ->
  files path = Some text ->
  Csv.reader (delimiter self) text = Csv.RCons header reader ->
  (forall i, 0 <= i < len header -> i ∈ hidden_columns self) ->
  let page := _load_page files self in
  columns (tree (fst page)) = []
  /\ Forall (fun row => row = []) (page_rows (fst page))
  /\ (forall rows, reader = Csv.of_rows rows -> snd page = Returned).
Proof.
  intros Hpath Hne Hfile Hreader Hall page.
  destruct path as [|c p]; [congruence|].
  assert (Hrun : page = show_page header reader self).
  { apply (_load_page_show_page files self c p text); assumption. }
  assert (Hcolumns : columns (tree (fst page)) = []).
  { rewrite Hrun, show_page_columns. apply visible_columns_nil, Hall. }
  split; [exact Hcolumns|]. split.
  - destruct (show_page_tree header reader self) as [Hfit _].
    rewrite <- Hrun in Hfit. unfold rows_fit in Hfit.
    rewrite Hcolumns in Hfit. unfold page_rows.
    apply Forall_fmap. eapply Forall_impl; [exact Hfit|].
    intros [values tag] Hlen. simpl in *.
    destruct values; [reflexivity|discriminate].
  - intros rows ->.
    destruct (_load_page_of_rows files self (String c p) text header rows
                Hpath Hne Hfile Hreader) as (self' & Hload & _).
    subst page. rewrite Hload. reflexivity.
Qed.

Lemma all_columns_hidden_witness :
  let self := set_hidden_columns {[ 0; 1; 2 ]} (example_viewer 0) in
  let page := _load_page example_files self in
  columns (tree (fst page)) = []
  /\ Forall (fun row => row = []) (page_rows (fst page))
  /\ (forall rows,
        Csv.of_rows [["1"; "2"; "3"]; ["4"; "5"]; ["6"; "7"; "8"; "9"]]
        = Csv.of_rows rows -> snd page = Returned).
Proof.
  intros self.
  apply (all_columns_hidden example_files self "data.csv" example_text
           ["a"; "b"; "c"]).
  - reflexivity.
  - discriminate.
  - reflexivity.
  - vm_compute. reflexivity.
  - intros i Hi. unfold len in Hi. simpl in Hi.
    assert (i = 0 \/ i = 1 \/ i = 2) as [-> | [-> | ->]] by lia;
      simpl; set_solver.
Defined.

(** ** Opening a file *)

(** X14. Cancelling the file dialog (an empty path) changes nothing.  A
    chosen path is stored, the page index is set to 0 and the hidden
    columns are cleared before the file is read, so they stay so even if
    the load fails; the page size and the delimiter are kept; and when
    the file cannot be opened the callback ends with [OSError] and the
    tree and the headers still show what they showed before. *)
Theorem open_file_resets files path self :
  (path = "" -> open_file files path self = (self, Returned))
  /\ (path <> "" ->
      let r := open_file files path self in
      file_path (fst r) = Some path
      /\ current_page (fst r) = 0
      /\ hidden_columns (fst r) = ∅
      /\ page_size (fst r) = page_size self
      /\ delimiter (fst r) = delimiter self
      /\ (snd r = Returned -> column_visibility_button (fst r) = true)
      /\ (files path = None ->
          snd r = Raised OSError
          /\ tree (fst r) = tree self
          /\ column_headers (fst r) = column_headers self
          /\ has_next_page (fst r) = has_next_page self)).
Proof.
  split.
  - intros ->. reflexivity.
  - intros Hne r. subst r. destruct path as [|c p]; [congruence|].
    unfold open_file, seq_stmt, assign.
    set (s := set_hidden_columns ∅
                (set_current_page 0 (set_file_path (Some (String c p)) self))).
    pose proof (_load_page_frame files s) as Hframe.
    assert (Hfail : files (String c p) = None ->
                    _load_page files s = (s, Raised OSError)).
    { intros Hfile. unfold _load_page. simpl. rewrite Hfile. reflexivity. }
    destruct (_load_page files s) as [s' o].
    unfold settings_kept in Hframe. simpl in Hframe.
    destruct Hframe as (Hfp & Hps & Hcp & Hd & _ & Hh & _).
    destruct o as [|e]; simpl.
    + split; [exact Hfp|]. split; [exact Hcp|]. split; [exact Hh|].
      split; [exact Hps|]. split; [exact Hd|]. split; [reflexivity|].
      intros Hfile. specialize (Hfail Hfile). discriminate.
    + split; [exact Hfp|]. split; [exact Hcp|]. split; [exact Hh|].
      split; [exact Hps|]. split; [exact Hd|]. split; [discriminate|].
      intros Hfile. specialize (Hfail Hfile).
      injection Hfail as -> ->. repeat split.
Qed.

Lemma open_file_resets_witness :
  let r := open_file (fun _ => None) "gone.csv"
             (fst (_load_page example_files (example_viewer 1))) in
  file_path (fst r) = Some "gone.csv"
  /\ current_page (fst r) = 0
  /\ snd r = Raised OSError
  /\ page_rows (fst r) = [["6"; "7"; "8"]].
Proof.
  intros r.
  assert (Hne : "gone.csv" <> "") by discriminate.
  destruct (proj2 (open_file_resets (fun _ => None) "gone.csv"
                     (fst (_load_page example_files (example_viewer 1))))
              Hne)
    as (Hfp & Hcp & _ & _ & _ & _ & Hfail).
  destruct (Hfail eq_refl) as (Hout & Htree & _).
  split; [exact Hfp|]. split; [exact Hcp|]. split; [exact Hout|].
  subst r. unfold page_rows. rewrite Htree. reflexivity.
Defined.

(** ** With no file chosen *)

Lemma _load_page_no_file files self :
  truthy (file_path self) = false -> _load_page files self = (self, Returned).
Proof.
  intros Hnone. unfold _load_page.
  destruct (file_path self) as [[|c p]|]; [reflexivity|discriminate|reflexivity].
Qed.

(** X15. As long as no file has been chosen, no callback other than
    opening a file reads the disk: its result is the same whatever the
    files are, the tree is left alone and there is still no file
    chosen. *)
Theorem no_file_no_read files files' ev self :
  file_path self = None ->
  (forall path, path <> "" -> ev <> OpenFile path) ->
  callback files ev self = callback files' ev self
  /\ tree (handle files ev self) = tree self
  /\ file_path (handle files ev self) = None.
Proof.
  intros Hnone Hev.
  assert (Hload : forall f s, file_path s = None ->
                              _load_page f s = (s, Returned)).
  { intros f s Hs. apply _load_page_no_file. rewrite Hs. reflexivity. }
  unfold handle, callback.
  destruct ev as [path|d|text| |vars| |].
  - destruct path as [|c p]; [repeat split; assumption|].
    exfalso. apply (Hev (String c p)); [discriminate|reflexivity].
  - unfold _on_delimiter_changed, seq_stmt, assign, when_file_loaded.
    destruct (find_delimiter d delimiter_options); simpl;
      rewrite Hnone; repeat split; assumption.
  - unfold _on_page_size_changed.
    destruct (Py.int text) as [n|]; [|repeat split; assumption].
    destruct (0 <? n); [|repeat split; assumption].
    unfold seq_stmt, assign, when_file_loaded. simpl.
    rewrite Hnone. repeat split; assumption.
  - unfold _toggle_expand_columns, seq_stmt, assign.
    destruct (expand_columns self); [|repeat split; assumption].
    rewrite !Hload by exact Hnone. repeat split; assumption.
  - unfold _apply_column_visibility, seq_stmt, assign.
    rewrite !Hload by exact Hnone. repeat split; assumption.
  - unfold next_page. destruct (has_next_page self);
      [|repeat split; assumption].
    unfold seq_stmt, assign.
    rewrite !Hload by exact Hnone. repeat split; assumption.
  - unfold prev_page. destruct (0 <? current_page self);
      [|repeat split; assumption].
    unfold seq_stmt, assign.
    rewrite !Hload by exact Hnone. repeat split; assumption.
Qed.

Lemma no_file_no_read_witness :
  callback example_files (PageSizeChanged (Py.str_of "50")) __init__
  = callback (fun _ => None) (PageSizeChanged (Py.str_of "50")) __init__
  /\ tree (handle example_files (PageSizeChanged (Py.str_of "50")) __init__)
     = tree __init__
  /\ file_path (handle example_files (PageSizeChanged (Py.str_of "50"))
                  __init__)
     = None.
Proof.
  apply (no_file_no_read example_files (fun _ => None)
           (PageSizeChanged (Py.str_of "50")) __init__).
  - reflexivity.
  - discriminate.
Defined.

(** ** The page label and failed loads *)

(** X16. Only Next Page and Previous Page write the page label: every
    other callback leaves it as it was, also those that set the page
    index to 0 (a new page size, a new file).  So the label can name a
    page that is not the current one: a reachable viewer is on page index
    0 while its label shows page 2. *)
Theorem page_label_only_by_navigation :
  (forall files ev self,
     ev <> NextPage -> ev <> PrevPage ->
     page_label (handle files ev self) = page_label self)
  /\ (exists self,
        reachable self /\ current_page self = 0 /\ page_label self = 2).
Proof.
  split.
  - intros files ev self Hnext Hprev. unfold handle, callback.
    destruct ev as [path|d|text| |vars| |]; try congruence.
    + unfold open_file. destruct path; [reflexivity|].
      unfold seq_stmt, assign. frame_load; simpl; intuition congruence.
    + unfold _on_delimiter_changed.
      destruct (find_delimiter d delimiter_options);
        unfold seq_stmt, assign, when_file_loaded;
        (match goal with
         | |- context [truthy ?p] => destruct (truthy p)
         end; [frame_load; simpl; intuition congruence|reflexivity]).
    + unfold _on_page_size_changed.
      destruct (Py.int text) as [n|]; [|reflexivity].
      destruct (0 <? n); [|reflexivity].
      unfold seq_stmt, assign, when_file_loaded.
      match goal with
      | |- context [truthy ?p] => destruct (truthy p)
      end; [|reflexivity].
      frame_load; simpl; intuition congruence.
    + unfold _toggle_expand_columns, seq_stmt, assign.
      destruct (expand_columns self); [|reflexivity].
      frame_load; simpl; intuition congruence.
    + unfold _apply_column_visibility, seq_stmt, assign.
      frame_load; simpl; intuition congruence.
  - exists (handle example_files (PageSizeChanged (Py.str_of "3"))
              (handle example_files NextPage
                 (handle example_files (PageSizeChanged (Py.str_of "2"))
                    (handle example_files (DelimiterChanged "Comma (,)")
                       (handle example_files (OpenFile "data.csv")
                          __init__))))).
    split; [|vm_compute; split; reflexivity].
    repeat apply reachable_handle. apply reachable_init.
Qed.

Lemma page_label_only_by_navigation_witness :
  page_label (handle example_files (PageSizeChanged (Py.str_of "3"))
                (example_viewer 1))
  = page_label (example_viewer 1).
Proof.
  apply (proj1 page_label_only_by_navigation example_files
           (PageSizeChanged (Py.str_of "3")) (example_viewer 1)); discriminate.
Defined.

(** X17. Next Page and Previous Page change the page index before they
    load: when the load then raises, the index has moved all the same and
    the label has not; and when the file can no longer be opened nothing
    else has changed, so the tree still shows the page before. *)
Theorem failed_navigation_keeps_new_index files self :
  (has_next_page self = true ->
   snd (next_page files self) <> Returned ->
   current_page (fst (next_page files self)) = current_page self + 1
   /\ page_label (fst (next_page files self)) = page_label self)
  /\ (0 < current_page self ->
      snd (prev_page files self) <> Returned ->
      current_page (fst (prev_page files self)) = current_page self - 1
      /\ page_label (fst (prev_page files self)) = page_label self)
  /\ (forall path,
        has_next_page self = true ->
        file_path self = Some path -> path <> "" -> files path = None ->
        next_page files self
        = (set_current_page (current_page self + 1) self, Raised OSError)).
Proof.
  split; [|split].
  - intros Hnext. unfold next_page. rewrite Hnext.
    unfold seq_stmt, assign.
    frame_load; simpl; [congruence|]. intros _. intuition congruence.
  - intros Hpos. unfold prev_page.
    replace (0 <? current_page self) with true
      by (symmetry; apply Z.ltb_lt; exact Hpos).
    unfold seq_stmt, assign.
    frame_load; simpl; [congruence|]. intros _. intuition congruence.
  - intros path Hnext Hpath Hne Hfile. unfold next_page. rewrite Hnext.
    unfold seq_stmt, assign, _load_page. simpl. rewrite Hpath.
    destruct path as [|c p]; [congruence|]. rewrite Hfile. reflexivity.
Qed.

Lemma failed_navigation_keeps_new_index_witness :
  let self := fst (_load_page example_files (example_viewer 0)) in
  next_page (fun _ => None) self
  = (set_current_page (current_page self + 1) self, Raised OSError).
Proof.
  intros self.
  apply (proj2 (proj2 (failed_navigation_keeps_new_index (fun _ => None) self))
           "data.csv").
  - reflexivity.
  - reflexivity.
  - discriminate.
  - reflexivity.
Defined.

(** * Further properties of the reader *)

(** ** Plain records read back as written *)

Lemma plain_char_inv d c :
  plain_char d c = true ->
  Ascii.eqb c d = false /\ Ascii.eqb c DQUOTE = false /\ is_newline c = false.
Proof.
  unfold plain_char. intros H.
  apply andb_true_iff in H as [H Hn]. apply andb_true_iff in H as [Hd Hq].
  apply negb_true_iff in Hd, Hq, Hn. auto.
Qed.

Lemma step_plain_start d st fs c :
  st = Csv.START_RECORD \/ st = Csv.START_FIELD ->
  plain_char d c = true ->
  Csv.parse_process_char d (Csv.mkReader st fs "") (Csv.Char c)
  = Some (Csv.mkReader Csv.IN_FIELD fs (String c "")).
Proof.
  intros Hst Hc. apply plain_char_inv in Hc as (Hd & Hq & Hn).
  unfold Csv.parse_process_char, Csv.start_field, Csv.parse_add_char.
  destruct Hst as [-> | ->]; cbn -[Z.leb Csv.field_limit snoc is_newline];
    rewrite Hn, ?Hq, ?Hd; reflexivity.
Qed.

Lemma step_plain_field d fs f c :
  plain_char d c = true ->
  Z.of_nat (String.length f) < Csv.field_limit ->
  Csv.parse_process_char d (Csv.mkReader Csv.IN_FIELD fs f) (Csv.Char c)
  = Some (Csv.mkReader Csv.IN_FIELD fs (snoc f c)).
Proof.
  intros Hc Hroom. apply plain_char_inv in Hc as (Hd & Hq & Hn).
  apply Z.leb_gt in Hroom.
  unfold Csv.parse_process_char, Csv.parse_add_char.
  cbn -[Z.leb Csv.field_limit snoc is_newline].
  rewrite Hn, Hd, Hroom. reflexivity.
Qed.

Lemma process_plain_in_field d f : forall fs f0 rest,
  plain d f = true ->
  Z.of_nat (String.length f0) + Z.of_nat (String.length f)
  <= Csv.field_limit ->
  Csv.process_chars d (Csv.mkReader Csv.IN_FIELD fs f0) (f +:+ rest)
  = Csv.process_chars d (Csv.mkReader Csv.IN_FIELD fs (f0 +:+ f)) rest.
Proof.
  induction f as [|c f IH]; intros fs f0 rest Hplain Hlen.
  - rewrite app_empty_l, app_empty_r. reflexivity.
  - simpl in Hplain. apply andb_true_iff in Hplain as [Hc Hplain].
    simpl String.length in Hlen.
    rewrite app_String. cbn [Csv.process_chars].
    rewrite step_plain_field by (try assumption; lia).
    rewrite IH by (try assumption; rewrite length_snoc; lia).
    rewrite snoc_app. reflexivity.
Qed.

(** A field at the start of a field, followed by anything: the reader is
    then in the field (or, for the empty field, still where it was). *)
Lemma process_plain_field d st fs f rest :
  st = Csv.START_RECORD \/ st = Csv.START_FIELD ->
  plain d f = true ->
  Z.of_nat (String.length f) <= Csv.field_limit ->
  f <> "" ->
  Csv.process_chars d (Csv.mkReader st fs "") (f +:+ rest)
  = Csv.process_chars d (Csv.mkReader Csv.IN_FIELD fs f) rest.
Proof.
  intros Hst Hplain Hlen Hne. destruct f as [|c f]; [congruence|].
  simpl in Hplain. apply andb_true_iff in Hplain as [Hc Hplain].
  simpl String.length in Hlen.
  rewrite app_String. cbn [Csv.process_chars].
  rewrite (step_plain_start d st fs c Hst Hc).
  rewrite process_plain_in_field by (try assumption; simpl; lia).
  reflexivity.
Qed.

(** A field and the delimiter after it. *)
Lemma process_field_delimiter d st fs f rest :
  d ∈ (fst <$> delimiter_options) ->
  st = Csv.START_RECORD \/ st = Csv.START_FIELD ->
  plain d f = true ->
  Z.of_nat (String.length f) <= Csv.field_limit ->
  Csv.process_chars d (Csv.mkReader st fs "") (f +:+ String d rest)
  = Csv.process_chars d (Csv.mkReader Csv.START_FIELD (fs ++ [f]) "") rest.
Proof.
  intros Hd Hst Hplain Hlen.
  pose proof (delimiter_is_no_quote d Hd) as Hq.
  pose proof (delimiter_is_no_newline d Hd) as Hn.
  destruct (String.eqb_spec f "") as [-> | Hne].
  - rewrite app_empty_l. cbn [Csv.process_chars].
    unfold Csv.parse_process_char, Csv.start_field.
    destruct Hst as [-> | ->]; cbn -[is_newline];
      rewrite Hn, Hq, Ascii.eqb_refl; reflexivity.
  - rewrite process_plain_field by assumption.
    cbn [Csv.process_chars]. unfold Csv.parse_process_char.
    cbn -[is_newline]. rewrite Hn, Ascii.eqb_refl. reflexivity.
Qed.

(** The last field of a record and the end of its line; [stop] is the
    line ending, or nothing at the end of the file. *)
Lemma process_field_end d st fs f stop :
  st = Csv.START_FIELD \/ (st = Csv.START_RECORD /\ f <> "") ->
  plain d f = true ->
  Z.of_nat (String.length f) <= Csv.field_limit ->
  stop = "" \/ stop = String LF "" \/ stop = String CR (String LF "") ->
  Csv.process_line d (Csv.mkReader st fs "") (f +:+ stop)
  = Some (Csv.mkReader Csv.START_RECORD (fs ++ [f]) "").
Proof.
  intros Hst Hplain Hlen Hstop. unfold Csv.process_line.
  destruct (String.eqb_spec f "") as [-> | Hne].
  - destruct Hst as [-> | [_ Hne]]; [|congruence].
    rewrite app_empty_l.
    destruct Hstop as [-> | [-> | ->]]; reflexivity.
  - rewrite process_plain_field; try assumption;
      [|destruct Hst as [-> | [-> _]]; auto].
    destruct Hstop as [-> | [-> | ->]]; reflexivity.
Qed.

Lemma process_record d stop row : forall st fs,
  d ∈ (fst <$> delimiter_options) ->
  row <> [] ->
  st = Csv.START_FIELD \/ (st = Csv.START_RECORD /\ row <> [""]) ->
  Forall (fun f => plain d f = true
                   /\ Z.of_nat (String.length f) <= Csv.field_limit) row ->
  stop = "" \/ stop = String LF "" \/ stop = String CR (String LF "") ->
  Csv.process_line d (Csv.mkReader st fs "") (join d row +:+ stop)
  = Some (Csv.mkReader Csv.START_RECORD (fs ++ row) "").
Proof.
  induction row as [|f row IH]; intros st fs Hd Hne Hst Hall Hstop;
    [congruence|].
  inversion Hall as [|? ? [Hplain Hlen] Hrest]; subst.
  destruct row as [|f2 row].
  - simpl join. apply process_field_end; try assumption.
    destruct Hst as [-> | [-> Hrow]]; [left; reflexivity|].
    right. split; [reflexivity|]. intros ->. apply Hrow. reflexivity.
  - change (join d (f :: f2 :: row))
      with (f +:+ String d (join d (f2 :: row))).
    rewrite app_assoc_s, app_String. unfold Csv.process_line.
    rewrite process_field_delimiter; try assumption;
      [|destruct Hst as [-> | [-> _]]; auto].
    fold (Csv.process_line d (Csv.mkReader Csv.START_FIELD (fs ++ [f]) "")
            (join d (f2 :: row) +:+ stop)).
    rewrite IH; try assumption; [|discriminate|left; reflexivity].
    rewrite <- app_assoc. reflexivity.
Qed.

Lemma readlines_plain d f : forall line rest,
  plain d f = true ->
  Py.readlines line (f +:+ rest) = Py.readlines (line +:+ f) rest.
Proof.
  induction f as [|c f IH]; intros line rest Hplain.
  - rewrite app_empty_l, app_empty_r. reflexivity.
  - simpl in Hplain. apply andb_true_iff in Hplain as [Hc Hplain].
    apply plain_char_inv in Hc as (_ & _ & Hn).
    rewrite app_String, readlines_char by exact Hn.
    rewrite IH by exact Hplain. rewrite snoc_app. reflexivity.
Qed.

Lemma readlines_join d row : forall line rest,
  is_newline d = false ->
  Forall (fun f => plain d f = true
                   /\ Z.of_nat (String.length f) <= Csv.field_limit) row ->
  Py.readlines line (join d row +:+ rest)
  = Py.readlines (line +:+ join d row) rest.
Proof.
  induction row as [|f row IH]; intros line rest Hd Hall.
  - simpl join. rewrite app_empty_l, app_empty_r. reflexivity.
  - inversion Hall as [|? ? [Hplain _] Hrest]; subst.
    destruct row as [|f2 row].
    + simpl join. apply (readlines_plain d), Hplain.
    + change (join d (f :: f2 :: row))
        with (f +:+ String d (join d (f2 :: row))).
      rewrite app_assoc_s, app_String.
      rewrite (readlines_plain d) by exact Hplain.
      rewrite readlines_char by exact Hd.
      rewrite IH by assumption.
      rewrite snoc_app, app_assoc_s. reflexivity.
Qed.

Lemma readlines_eol line eol rest :
  eol = String LF "" \/ eol = String CR (String LF "") ->
  Py.readlines line (eol +:+ rest) = (line +:+ eol) :: Py.readlines "" rest.
Proof.
  intros [-> | ->].
  - reflexivity.
  - rewrite !app_String, app_empty_l. simpl.
    unfold snoc. rewrite app_assoc_s. reflexivity.
Qed.

Lemma join_nonempty d row :
  row <> [] -> row <> [""] -> join d row <> "".
Proof.
  destruct row as [|f [|f2 row]]; [congruence| |].
  - simpl. intros _ Hne ->. apply Hne. reflexivity.
  - intros _ _. change (join d (f :: f2 :: row))
      with (f +:+ String d (join d (f2 :: row))).
    destruct f; discriminate.
Qed.

(** The records of a plain file, line by line. *)
Lemma Reader_iter_write_lines d eol rows last :
  d ∈ (fst <$> delimiter_options) ->
  eol = String LF "" \/ eol = String CR (String LF "") ->
  Forall (plain_row d) rows ->
  (Csv.Reader_iter d Csv.parse_reset
     (Py.readlines "" (write_lines d eol rows))
   = Csv.of_rows rows)
  /\ (writable d last ->
      Csv.Reader_iter d Csv.parse_reset
        (Py.readlines "" (write_lines d eol rows +:+ join d last))
      = Csv.of_rows (rows ++ [last])).
Proof.
  intros Hd Heol Hrows.
  pose proof (delimiter_is_no_newline d Hd) as Hn.
  induction Hrows as [|row rows (Hblank & Hfields) _ IH].
  - split; [reflexivity|]. intros (Hne & Hblank & Hfields).
    simpl write_lines. rewrite app_empty_l.
    assert (Hlines : Py.readlines "" (join d last) = [join d last]).
    { rewrite <- (app_empty_r (join d last)) at 1.
      rewrite readlines_join by assumption.
      rewrite app_empty_l. simpl.
      pose proof (join_nonempty d last Hne Hblank) as Hsome.
      destruct (join d last); [congruence|reflexivity]. }
    rewrite Hlines.
    pose proof (process_record d "" last Csv.START_RECORD [] Hd Hne
                  (or_intror (conj eq_refl Hblank)) Hfields
                  (or_introl eq_refl)) as Hrecord.
    rewrite app_empty_r in Hrecord.
    change (Csv.mkReader Csv.START_RECORD [] "") with Csv.parse_reset
      in Hrecord.
    cbn [Csv.Reader_iter]. rewrite Hrecord. reflexivity.
  - assert (Hline : forall rest,
      Csv.Reader_iter d Csv.parse_reset
        (Py.readlines "" (write_lines d eol (row :: rows) +:+ rest))
      = Csv.RCons row
          (Csv.Reader_iter d Csv.parse_reset
             (Py.readlines "" (write_lines d eol rows +:+ rest)))).
    { intros rest. simpl write_lines. rewrite !app_assoc_s.
      rewrite readlines_join by assumption.
      rewrite readlines_eol by exact Heol. rewrite app_empty_l.
      assert (Hrecord : Csv.process_line d Csv.parse_reset
                          (join d row +:+ eol)
                        = Some (Csv.mkReader Csv.START_RECORD row "")).
      { destruct row as [|f row'].
        - simpl join. rewrite app_empty_l.
          destruct Heol as [-> | ->]; reflexivity.
        - apply (process_record d eol (f :: row') Csv.START_RECORD []);
            auto; discriminate. }
      cbn [Csv.Reader_iter]. rewrite Hrecord. reflexivity. }
    destruct IH as [IHall IHlast]. split.
    + specialize (Hline ""). rewrite !app_empty_r in Hline.
      rewrite Hline, IHall. reflexivity.
    + intros Hlast. rewrite Hline, IHlast by exact Hlast. reflexivity.
Qed.

(** X18. A file of plain records reads back as it was written: with
    every record written as its fields joined by the delimiter (one of
    the five of the dropdown) and each line ended by LF or by CR LF, the
    reader yields exactly those records, in order, and then stops.  A
    blank line reads as the record without fields, and the last line,
    when it has something on it, may lack its line ending.  (No record
    may be the single empty field: that one writes as a blank line
    too.) *)
Theorem reader_reads_plain_text d eol rows last :
  d ∈ (fst <$> delimiter_options) ->
  eol = String LF "" \/ eol = String CR (String LF "") ->
  Forall (plain_row d) rows ->
  Csv.reader d (write_lines d eol rows) = Csv.of_rows rows
  /\ (writable d last ->
      Csv.reader d (write_lines d eol rows +:+ join d last)
      = Csv.of_rows (rows ++ [last])).
Proof.
  intros Hd Heol Hrows. unfold Csv.reader.
  apply Reader_iter_write_lines; assumption.
Qed.

(** Closing the side conditions on concrete plain records. *)
Ltac plain_field_ok := split; [reflexivity|vm_compute; discriminate].
Ltac plain_row_ok :=
  split; [discriminate|repeat (constructor; [plain_field_ok|]); constructor].
Ltac plain_rows_ok := repeat (constructor; [plain_row_ok|]); constructor.

Lemma reader_reads_plain_text_witness :
  Csv.reader ","%char
    (write_lines ","%char (String CR (String LF ""))
       [["a"; "b"; "c"]; []; ["1"; ""; "3"]]
     +:+ join ","%char ["4"; "5"])
  = Csv.of_rows ([["a"; "b"; "c"]; []; ["1"; ""; "3"]] ++ [["4"; "5"]]).
Proof.
  refine (proj2 (reader_reads_plain_text ","%char (String CR (String LF ""))
                   [["a"; "b"; "c"]; []; ["1"; ""; "3"]] ["4"; "5"] _ _ _) _).
  - left.
  - right. reflexivity.
  - plain_rows_ok.
  - split; [discriminate|plain_row_ok].
Defined.

(** X19. The viewer on a plain file, from the text to the tree: for a
    file written as a header and data rows of plain fields, lines ended
    by LF or CR LF, read with the delimiter it was written with, the page
    load returns, stores the header, shows the data rows of the page
    (from [current_page * page_size] on, [page_size] at most, each read at
    the visible columns) and sets [has_next_page] exactly when rows
    remain past the page. *)
Theorem plain_file_page files self path eol header rows :
  file_path self = Some path -> path <> "" ->
  delimiter self ∈ (fst <$> delimiter_options) ->
  eol = String LF "" \/ eol = String CR (String LF "") ->
  Forall (plain_row (delimiter self)) (header :: rows) ->
  files path = Some (write_lines (delimiter self) eol (header :: rows)) ->
  0 < page_size self -> 0 <= current_page self ->
  let page := _load_page files self in
  snd page = Returned
  /\ column_headers (fst page) = header
  /\ page_rows (fst page)
     = (fun row =>
          cell row <$> visible_columns_of header (hidden_columns self))
         <$> take (Z.to_nat (page_size self))
               (drop (Z.to_nat (current_page self * page_size self)) rows)
  /\ (has_next_page (fst page) = true
      <-> (current_page self + 1) * page_size self < len rows).
Proof.
  intros Hpath Hne Hd Heol Hrows Hfile Hsize Hpage page.
  assert (Hreader : Csv.reader (delimiter self)
                      (write_lines (delimiter self) eol (header :: rows))
                    = Csv.of_rows (header :: rows)).
  { unfold Csv.reader.
    apply (Reader_iter_write_lines (delimiter self) eol (header :: rows) []);
      assumption. }
  destruct (_load_page_of_rows files self path _ header rows
              Hpath Hne Hfile Hreader)
    as (self' & Hrun & _ & Hheaders & _ & Hshown & Hnext).
  subst page. rewrite Hrun. simpl fst. simpl snd.
  split; [reflexivity|]. split; [exact Hheaders|]. split.
  - unfold page_rows. apply shown_rows, Hshown.
  - rewrite Hnext, bool_decide_eq_true. unfold len. rewrite length_drop.
    assert (0 <= current_page self * page_size self) by lia.
    rewrite Z.mul_add_distr_r, Z.mul_1_l. lia.
Qed.

Lemma plain_file_page_witness :
  let text :=
    write_lines ","%char (String LF "")
      [["a"; "b"; "c"]; ["1"; "2"; "3"]; ["4"; "5"]; ["6"; "7"; "8"; "9"]] in
  let page := _load_page (one_file "data.csv" text) (example_viewer 1) in
  snd page = Returned
  /\ column_headers (fst page) = ["a"; "b"; "c"]
  /\ page_rows (fst page)
     = (fun row =>
          cell row <$> visible_columns_of ["a"; "b"; "c"]
                         (hidden_columns (example_viewer 1)))
         <$> take (Z.to_nat (page_size (example_viewer 1)))
               (drop (Z.to_nat (current_page (example_viewer 1)
                                * page_size (example_viewer 1)))
                  [["1"; "2"; "3"]; ["4"; "5"]; ["6"; "7"; "8"; "9"]])
  /\ (has_next_page (fst page) = true
      <-> (current_page (example_viewer 1) + 1)
          * page_size (example_viewer 1)
          < len [["1"; "2"; "3"]; ["4"; "5"]; ["6"; "7"; "8"; "9"]]).
Proof.
  intros text.
  apply (plain_file_page (one_file "data.csv" text) (example_viewer 1)
           "data.csv" (String LF "") ["a"; "b"; "c"]
           [["1"; "2"; "3"]; ["4"; "5"]; ["6"; "7"; "8"; "9"]]).
  - reflexivity.
  - discriminate.
  - left.
  - left. reflexivity.
  - plain_rows_ok.
  - reflexivity.
  - reflexivity.
  - discriminate.
Defined.

(** * Callbacks and the page they show *)

(** X20. Applying a page size [n] above zero to a viewer whose file
    reads as a header and data rows shows the first [n] data rows (all of
    them when there are fewer), each read at the visible columns, and
    leaves [has_next_page] true exactly when the file has more than [n]
    data rows. *)
Theorem page_size_change_shows_first_rows
    files page_size_var n self path text header rows :
  Py.int page_size_var = Some n -> 0 < n ->
  file_path self = Some path -> path <> "" ->
  files path = Some text ->
  Csv.reader (delimiter self) text = Csv.of_rows (header :: rows) ->
  let r := _on_page_size_changed files page_size_var self in
  snd r = Returned
  /\ page_rows (fst r)
     = (fun row =>
          cell row <$> visible_columns_of header (hidden_columns self))
         <$> take (Z.to_nat n) rows
  /\ (has_next_page (fst r) = true <-> n < len rows).
Proof.
  intros Hint Hpos Hpath Hne Hfile Hreader r. subst r.
  unfold _on_page_size_changed. rewrite Hint.
  replace (0 <? n) with true by (symmetry; apply Z.ltb_lt; lia).
  unfold seq_stmt, assign, when_file_loaded.
  set (s := set_current_page 0 (set_page_size n self)).
  assert (Htruthy : truthy (file_path s) = true).
  { subst s. simpl. rewrite Hpath.
    destruct path; [contradiction|reflexivity]. }
  rewrite Htruthy.
  destruct (_load_page_of_rows files s path text header rows
              Hpath Hne Hfile Hreader)
    as (s' & Hrun & _ & _ & _ & Hshown & Hnext).
  rewrite Hrun. simpl fst. simpl snd.
  simpl in Hshown, Hnext. rewrite drop_0 in Hshown, Hnext.
  split; [reflexivity|]. split.
  - unfold page_rows. apply (shown_rows header (hidden_columns self)), Hshown.
  - rewrite Hnext, bool_decide_eq_true. lia.
Qed.

Lemma page_size_change_shows_first_rows_witness :
  let r :=
    _on_page_size_changed example_files (Py.str_of "3") (example_viewer 1) in
  snd r = Returned
  /\ page_rows (fst r)
     = (fun row =>
          cell row <$> visible_columns_of ["a"; "b"; "c"]
                         (hidden_columns (example_viewer 1)))
         <$> take (Z.to_nat 3)
               [["1"; "2"; "3"]; ["4"; "5"]; ["6"; "7"; "8"; "9"]]
  /\ (has_next_page (fst r) = true
      <-> 3 < len [["1"; "2"; "3"]; ["4"; "5"]; ["6"; "7"; "8"; "9"]]).
Proof.
  apply (page_size_change_shows_first_rows example_files (Py.str_of "3") 3
           (example_viewer 1) "data.csv" example_text ["a"; "b"; "c"]).
  - reflexivity.
  - reflexivity.
  - reflexivity.
  - discriminate.
  - reflexivity.
  - vm_compute. reflexivity.
Defined.

(** X21. Next Page never lands on an empty page while the file stays the
    same: from a viewer that has just loaded a page of a file reading as
    a header and data rows, and found a next page, Next Page returns,
    moves to the next page index, shows at least one row (the rows that
    follow the page before) and sets the label to the new page number. *)
Theorem next_page_shows_following_rows files before path text header rows :
  file_path before = Some path -> path <> "" ->
  files path = Some text ->
  Csv.reader (delimiter before) text = Csv.of_rows (header :: rows) ->
  0 < page_size before -> 0 <= current_page before ->
  let self := fst (_load_page files before) in
  has_next_page self = true ->
  let r := next_page files self in
  snd r = Returned
  /\ current_page (fst r) = current_page before + 1
  /\ page_label (fst r) = current_page before + 2
  /\ page_rows (fst r)
     = (fun row =>
          cell row <$> visible_columns_of header (hidden_columns before))
         <$> take (Z.to_nat (page_size before))
               (drop (Z.to_nat ((current_page before + 1)
                                * page_size before)) rows)
  /\ page_rows (fst r) <> [].
Proof.
  intros Hpath Hne Hfile Hreader Hsize Hpage self Hnext r.
  destruct (_load_page_of_rows files before path text header rows
              Hpath Hne Hfile Hreader)
    as (self0 & Hrun & Hkept & _ & _ & _ & Hnext0).
  assert (Hself : self = self0) by (subst self; rewrite Hrun; reflexivity).
  clearbody self. subst self0.
  destruct Hkept as (Hfp & Hps & Hcp & Hd & _ & Hh & _).
  rewrite Hnext0 in Hnext. apply bool_decide_eq_true in Hnext.
  unfold len in Hnext. rewrite length_drop in Hnext.
  subst r. unfold next_page. rewrite Hnext0.
  replace (bool_decide _) with true
    by (symmetry; apply bool_decide_eq_true; unfold len;
        rewrite length_drop; exact Hnext).
  unfold seq_stmt, assign.
  set (s := set_current_page (current_page self + 1) self).
  assert (Hspath : file_path s = Some path) by (subst s; simpl; congruence).
  assert (Hsreader : Csv.reader (delimiter s) text
                     = Csv.of_rows (header :: rows))
    by (subst s; simpl; rewrite Hd; exact Hreader).
  destruct (_load_page_of_rows files s path text header rows
              Hspath Hne Hfile Hsreader)
    as (s' & Hrun' & Hkept' & _ & _ & Hshown & _).
  rewrite Hrun'. simpl fst. simpl snd.
  destruct Hkept' as (_ & _ & Hcp' & _).
  simpl in Hshown, Hcp'. rewrite Hh, Hps, Hcp in Hshown.
  assert (Hrows : page_rows s'
                  = (fun row =>
                       cell row <$> visible_columns_of header
                                      (hidden_columns before))
                      <$> take (Z.to_nat (page_size before))
                            (drop (Z.to_nat ((current_page before + 1)
                                             * page_size before)) rows)).
  { unfold page_rows. apply shown_rows, Hshown. }
  split; [reflexivity|]. split; [simpl; lia|]. split; [simpl; lia|].
  split; [exact Hrows|].
  change (page_rows (set_page_label (current_page s' + 1) s'))
    with (page_rows s').
  rewrite Hrows. intros Hnil. apply fmap_nil_inv in Hnil.
  apply (f_equal length) in Hnil. rewrite length_take, length_drop in Hnil.
  simpl in Hnil.
  assert (0 <= current_page before * page_size before) by lia.
  rewrite Z.mul_add_distr_r, Z.mul_1_l in Hnil. lia.
Qed.

Lemma next_page_shows_following_rows_witness :
  let self := fst (_load_page example_files (example_viewer 0)) in
  let r := next_page example_files self in
  snd r = Returned
  /\ current_page (fst r) = current_page (example_viewer 0) + 1
  /\ page_label (fst r) = current_page (example_viewer 0) + 2
  /\ page_rows (fst r)
     = (fun row =>
          cell row <$> visible_columns_of ["a"; "b"; "c"]
                         (hidden_columns (example_viewer 0)))
         <$> take (Z.to_nat (page_size (example_viewer 0)))
               (drop (Z.to_nat ((current_page (example_viewer 0) + 1)
                                * page_size (example_viewer 0)))
                  [["1"; "2"; "3"]; ["4"; "5"]; ["6"; "7"; "8"; "9"]])
  /\ page_rows (fst r) <> [].
Proof.
  apply (next_page_shows_following_rows example_files (example_viewer 0)
           "data.csv" example_text ["a"; "b"; "c"]).
  - reflexivity.
  - discriminate.
  - reflexivity.
  - vm_compute. reflexivity.
  - reflexivity.
  - discriminate.
  - reflexivity.
Defined.

(** * Reading no further than needed *)

Lemma skip_rows_then rows tail : forall todo,
  todo <= len rows ->
  skip_rows todo (rows_then rows tail)
  = Some (rows_then (drop (Z.to_nat todo) rows) tail).
Proof.
  induction rows as [|row rest IH]; intros todo Htodo.
  - unfold len in Htodo. simpl in Htodo.
    replace (Z.to_nat todo) with 0%nat by lia.
    simpl. destruct tail; simpl;
      replace (todo <=? 0) with true
        by (symmetry; apply Z.leb_le; lia); reflexivity.
  - simpl. destruct (todo <=? 0) eqn:Hdone.
    + apply Z.leb_le in Hdone.
      replace (Z.to_nat todo) with 0%nat by lia. reflexivity.
    + apply Z.leb_gt in Hdone. rewrite IH.
      * replace (Z.to_nat todo) with (S (Z.to_nat (todo - 1))) by lia.
        reflexivity.
      * unfold len in *. simpl length in Htodo. lia.
Qed.

Lemma skip_rows_then_error rows : forall todo,
  len rows < todo ->
  skip_rows todo (rows_then rows Csv.RError) = None.
Proof.
  induction rows as [|row rest IH]; intros todo Htodo; simpl.
  - unfold len in Htodo. simpl in Htodo.
    replace (todo <=? 0) with false by (symmetry; apply Z.leb_gt; lia).
    reflexivity.
  - unfold len in Htodo. simpl length in Htodo.
    replace (todo <=? 0) with false by (symmetry; apply Z.leb_gt; lia).
    apply IH. unfold len. lia.
Qed.

Lemma load_rows_then header visible_columns tail rows :
  Forall (fun i => 0 <= i < len header) visible_columns ->
  forall row_count self,
    Z.max 0 (page_size self - row_count) < len rows ->
    exists self' items,
      load_rows header visible_columns row_count (rows_then rows tail) self
      = (self', Returned)
      /\ children (tree self') = (children (tree self) ++ items)%list
      /\ Forall2 (shows header visible_columns)
           (take (Z.to_nat (page_size self - row_count)) rows) items
      /\ has_next_page self' = true.
Proof.
  intros Hvis.
  induction rows as [|row rest IH]; intros row_count self Hmore.
  - unfold len in Hmore. simpl in Hmore. lia.
  - simpl. destruct (row_count <? page_size self) eqn:Hroom.
    + apply Z.ltb_lt in Hroom.
      destruct (visible_row_in_range header row visible_columns Hvis)
        as [visible_row Hrow].
      rewrite Hrow.
      set (tag := if Py.is_odd row_count then "odd" else "even").
      destruct (IH (row_count + 1)
                  (set_tree (tree_insert visible_row tag (tree self)) self))
        as (self' & items & Hrun & Hchildren & Hitems & Hnext).
      { simpl. unfold len in *. simpl length in Hmore. lia. }
      simpl in Hchildren, Hitems.
      exists self', ((visible_row, tag) :: items).
      split; [exact Hrun|]. split; [|split; [|exact Hnext]].
      * rewrite Hchildren, <- app_assoc. reflexivity.
      * replace (Z.to_nat (page_size self - row_count))
          with (S (Z.to_nat (page_size self - (row_count + 1)))) by lia.
        simpl. constructor; [exact Hrow|exact Hitems].
    + apply Z.ltb_ge in Hroom.
      exists (set_has_next_page true self), []. simpl.
      rewrite app_nil_r.
      replace (Z.to_nat (page_size self - row_count)) with 0%nat by lia.
      repeat split. constructor.
Qed.

Lemma load_rows_then_error header visible_columns rows :
  Forall (fun i => 0 <= i < len header) visible_columns ->
  forall row_count self,
    len rows <= page_size self - row_count ->
    exists self' items,
      load_rows header visible_columns row_count
        (rows_then rows Csv.RError) self
      = (self', Raised CsvError)
      /\ children (tree self') = (children (tree self) ++ items)%list
      /\ Forall2 (shows header visible_columns) rows items
      /\ has_next_page self' = has_next_page self.
Proof.
  intros Hvis.
  induction rows as [|row rest IH]; intros row_count self Hfew.
  - exists self, []. simpl. rewrite app_nil_r. repeat split. constructor.
  - simpl. unfold len in Hfew. simpl length in Hfew.
    replace (row_count <? page_size self) with true
      by (symmetry; apply Z.ltb_lt; lia).
    destruct (visible_row_in_range header row visible_columns Hvis)
      as [visible_row Hrow].
    rewrite Hrow.
    set (tag := if Py.is_odd row_count then "odd" else "even").
    destruct (IH (row_count + 1)
                (set_tree (tree_insert visible_row tag (tree self)) self))
      as (self' & items & Hrun & Hchildren & Hitems & Hnext).
    { simpl. unfold len. lia. }
    simpl in Hchildren, Hnext.
    exists self', ((visible_row, tag) :: items).
    split; [exact Hrun|]. split; [|split; [|exact Hnext]].
    + rewrite Hchildren, <- app_assoc. reflexivity.
    + constructor; [exact Hrow|exact Hitems].
Qed.

(** The viewer [show_page] hands to its row loop, and what it has kept. *)
Lemma show_page_prepared header reader self :
  exists s1,
    setup_columns header (visible_columns_of header (hidden_columns self))
      (set_tree
         (tree_set_columns (visible_columns_of header (hidden_columns self))
            (tree_delete_children (tree self)))
         (set_column_visibility_button true
            (set_column_headers header self)))
    = (s1, Returned)
    /\ show_page header reader self
       = match skip_rows (current_page self * page_size self) reader with
         | None => (s1, Raised CsvError)
         | Some reader' =>
             load_rows header
               (visible_columns_of header (hidden_columns self)) 0 reader' s1
         end
    /\ children (tree s1) = []
    /\ page_size s1 = page_size self
    /\ has_next_page s1 = has_next_page self.
Proof.
  pose proof (visible_columns_in_range header (hidden_columns self)) as Hvis.
  set (visible_columns := visible_columns_of header (hidden_columns self))
    in *.
  match goal with
  | |- context [setup_columns header visible_columns ?s] =>
      pose proof (setup_columns_frame header visible_columns s) as Hframe;
      pose proof (setup_columns_returns header visible_columns s Hvis)
        as Hret;
      set (s0 := s) in *
  end.
  assert (Hrun : show_page header reader self
                 = match setup_columns header visible_columns s0 with
                   | (s1, Returned) =>
                       match skip_rows (current_page self * page_size self)
                               reader with
                       | None => (s1, Raised CsvError)
                       | Some reader' =>
                           load_rows header visible_columns 0 reader' s1
                       end
                   | (s1, Raised e) => (s1, Raised e)
                   end) by reflexivity.
  destruct (setup_columns header visible_columns s0) as [s1 o1].
  simpl in Hframe, Hret. subst o1. exists s1.
  destruct Hframe as (Hkept & Hchildren & _ & Hnext & _).
  split; [reflexivity|]. split; [exact Hrun|].
  split; [exact Hchildren|].
  destruct Hkept as (_ & Hsize & _). split; [exact Hsize|exact Hnext].
Qed.

(** X22. The page load reads no further than the row after the page:
    when the reader yields the header and enough records to fill the page
    and one more, the load returns with that page and [has_next_page]
    true, whatever the rest of the file holds, even text on which the
    reader would raise [csv.Error]. *)
Theorem load_reads_no_further_than_lookahead
    files self path text header rows tail :
  file_path self = Some path -> path <> "" ->
  files path = Some text ->
  Csv.reader (delimiter self) text = rows_then (header :: rows) tail ->
  0 < page_size self -> 0 <= current_page self ->
  (current_page self + 1) * page_size self < len rows ->
  let page := _load_page files self in
  snd page = Returned
  /\ page_rows (fst page)
     = (fun row =>
          cell row <$> visible_columns_of header (hidden_columns self))
         <$> take (Z.to_nat (page_size self))
               (drop (Z.to_nat (current_page self * page_size self)) rows)
  /\ has_next_page (fst page) = true.
Proof.
  intros Hpath Hne Hfile Hreader Hsize Hpage Hmore page.
  pose proof (visible_columns_in_range header (hidden_columns self)) as Hvis.
  destruct path as [|c p]; [congruence|].
  assert (Hrun : page = show_page header (rows_then rows tail) self).
  { apply (_load_page_show_page files self c p text); assumption. }
  destruct (show_page_prepared header (rows_then rows tail) self)
    as (s1 & _ & Hshow & Hchildren & Hsize1 & _).
  rewrite Hrun, Hshow.
  assert (Hstart : current_page self * page_size self <= len rows) by nia.
  rewrite skip_rows_then by exact Hstart.
  destruct (load_rows_then header
              (visible_columns_of header (hidden_columns self)) tail
              (drop (Z.to_nat (current_page self * page_size self)) rows)
              Hvis 0 s1)
    as (self' & items & Hload & Hitems_eq & Hitems & Hnext).
  { rewrite Hsize1. unfold len in *. rewrite length_drop. nia. }
  rewrite Hload. simpl fst. simpl snd.
  split; [reflexivity|]. split; [|exact Hnext].
  rewrite Hchildren in Hitems_eq. simpl in Hitems_eq.
  rewrite Hsize1, Z.sub_0_r in Hitems.
  unfold page_rows. rewrite Hitems_eq. apply shown_rows, Hitems.
Qed.

Lemma load_reads_no_further_than_lookahead_witness :
  let self := set_page_size 1 (example_viewer 0) in
  let page := _load_page example_files self in
  snd page = Returned
  /\ page_rows (fst page)
     = (fun row =>
          cell row <$> visible_columns_of ["a"; "b"; "c"]
                         (hidden_columns self))
         <$> take (Z.to_nat (page_size self))
               (drop (Z.to_nat (current_page self * page_size self))
                  [["1"; "2"; "3"]; ["4"; "5"]])
  /\ has_next_page (fst page) = true.
Proof.
  intros self.
  apply (load_reads_no_further_than_lookahead example_files self
           "data.csv" example_text ["a"; "b"; "c"]
           [["1"; "2"; "3"]; ["4"; "5"]]
           (Csv.RCons ["6"; "7"; "8"; "9"] Csv.RStop)).
  - reflexivity.
  - discriminate.
  - reflexivity.
  - vm_compute. reflexivity.
  - reflexivity.
  - discriminate.
  - reflexivity.
Defined.

(** * A page cut short by [csv.Error] *)

Lemma length_repeat_char n c : String.length (repeat_char n c) = n.
Proof. induction n as [|n IH]; simpl; [reflexivity|]. rewrite IH. reflexivity. Qed.

Lemma plain_repeat_char d n c :
  plain_char d c = true -> plain d (repeat_char n c) = true.
Proof.
  intros Hc. induction n as [|n IH]; simpl; [reflexivity|].
  rewrite Hc, IH. reflexivity.
Qed.

Lemma repeat_char_snoc n c :
  repeat_char (S n) c = repeat_char n c +:+ String c "".
Proof.
  induction n as [|n IH]; [reflexivity|].
  change (repeat_char (S (S n)) c) with (String c (repeat_char (S n) c)).
  rewrite IH at 1. reflexivity.
Qed.

(** A field of one character more than the limit, at the start of a
    line: the reader raises [csv.Error] in that line. *)
Lemma process_line_oversized d :
  plain_char d "a" = true ->
  Csv.process_line d Csv.parse_reset
    (repeat_char (S (Z.to_nat Csv.field_limit)) "a") = None.
Proof.
  intros Hc. set (n := Z.to_nat Csv.field_limit).
  assert (Hn : Z.of_nat n = Csv.field_limit) by (subst n; apply Z2Nat.id; discriminate).
  unfold Csv.process_line. rewrite repeat_char_snoc.
  unfold Csv.parse_reset.
  rewrite process_plain_field.
  - cbn [Csv.process_chars].
    unfold Csv.parse_process_char, Csv.parse_add_char.
    cbn -[Z.leb Csv.field_limit snoc is_newline repeat_char Ascii.eqb].
    apply plain_char_inv in Hc as (Hd & _ & Hnl).
    rewrite Hnl, Hd, length_repeat_char, Hn, Z.leb_refl. reflexivity.
  - left. reflexivity.
  - apply plain_repeat_char, Hc.
  - rewrite length_repeat_char. lia.
  - intros Hempty. apply (f_equal String.length) in Hempty.
    rewrite length_repeat_char in Hempty. simpl in Hempty.
    apply (f_equal Z.of_nat) in Hempty. rewrite Hn in Hempty.
    discriminate.
Qed.

(** A header line [h] followed by a line the reader fails on. *)
Lemma reader_header_then_error d (bad : string) :
  d ∈ (fst <$> delimiter_options) ->
  plain d bad = true -> bad <> "" ->
  Csv.process_line d Csv.parse_reset bad = None ->
  Csv.reader d (String "h" (String LF bad)) = rows_then [["h"]] Csv.RError.
Proof.
  intros Hd Hplain Hsome Hbad.
  assert (Hh : plain d "h" = true).
  { simpl in Hd.
    repeat (apply elem_of_cons in Hd as [-> | Hd]; [reflexivity|]).
    inversion Hd. }
  unfold Csv.reader.
  assert (Hlines : Py.readlines "" (String "h" (String LF bad))
                   = [String "h" (String LF ""); bad]).
  { rewrite readlines_char by reflexivity.
    change (String LF bad) with (String LF "" +:+ bad).
    rewrite readlines_eol by (left; reflexivity).
    unfold snoc. rewrite app_empty_l, app_String, app_empty_l.
    f_equal.
    rewrite <- (app_empty_r bad) at 1.
    rewrite (readlines_plain d) by exact Hplain.
    rewrite app_empty_l. simpl.
    destruct bad; [congruence|reflexivity]. }
  rewrite Hlines.
  assert (Hfirst : Csv.process_line d Csv.parse_reset
                     (String "h" (String LF ""))
                   = Some (Csv.mkReader Csv.START_RECORD ["h"] "")).
  { apply (process_record d (String LF "") ["h"] Csv.START_RECORD [] Hd).
    - discriminate.
    - right. split; [reflexivity|discriminate].
    - constructor; [|constructor].
      split; [exact Hh|vm_compute; discriminate].
    - right. left. reflexivity. }
  cbn [Csv.Reader_iter]. rewrite Hfirst.
  cbn [Csv.state Csv.state_eqb Csv.fields].
  rewrite Hbad. reflexivity.
Qed.

Lemma reader_oversized_text d :
  d ∈ (fst <$> delimiter_options) ->
  Csv.reader d oversized_text = rows_then [["h"]] Csv.RError.
Proof.
  intros Hd.
  assert (Ha : plain_char d "a" = true).
  { simpl in Hd.
    repeat (apply elem_of_cons in Hd as [-> | Hd]; [reflexivity|]).
    inversion Hd. }
  apply reader_header_then_error.
  - exact Hd.
  - apply plain_repeat_char, Ha.
  - intros Hempty. apply (f_equal String.length) in Hempty.
    rewrite length_repeat_char in Hempty. discriminate Hempty.
  - apply process_line_oversized, Ha.
Qed.

(** X23. When the reader raises [csv.Error] before the page and its
    lookahead row are read, the page load raises it, and leaves the
    headers of the file in place, the rows read so far in the tree (none
    when the error lies before the page) and [has_next_page] as it was. *)
Theorem csv_error_leaves_partial_page files self path text header rows :
  file_path self = Some path -> path <> "" ->
  files path = Some text ->
  Csv.reader (delimiter self) text = rows_then (header :: rows) Csv.RError ->
  0 < page_size self -> 0 <= current_page self ->
  len rows <= (current_page self + 1) * page_size self ->
  let page := _load_page files self in
  snd page = Raised CsvError
  /\ column_headers (fst page) = header
  /\ page_rows (fst page)
     = (fun row =>
          cell row <$> visible_columns_of header (hidden_columns self))
         <$> drop (Z.to_nat (current_page self * page_size self)) rows
  /\ has_next_page (fst page) = has_next_page self.
Proof.
  intros Hpath Hne Hfile Hreader Hsize Hpage Hfew page.
  pose proof (visible_columns_in_range header (hidden_columns self)) as Hvis.
  destruct path as [|c p]; [congruence|].
  assert (Hrun : page = show_page header (rows_then rows Csv.RError) self).
  { apply (_load_page_show_page files self c p text); assumption. }
  destruct (show_page_prepared header (rows_then rows Csv.RError) self)
    as (s1 & Hsetup & Hshow & Hchildren & Hsize1 & Hnext1).
  pose proof (setup_columns_frame header
                (visible_columns_of header (hidden_columns self))
                (set_tree
                   (tree_set_columns
                      (visible_columns_of header (hidden_columns self))
                      (tree_delete_children (tree self)))
                   (set_column_visibility_button true
                      (set_column_headers header self)))) as Hframe.
  rewrite Hsetup in Hframe. simpl in Hframe.
  destruct Hframe as (_ & _ & _ & _ & Hheaders & _).
  rewrite Hrun, Hshow.
  destruct (Z_le_gt_dec (current_page self * page_size self) (len rows))
    as [Hstart | Hstart].
  - rewrite skip_rows_then by exact Hstart.
    destruct (load_rows_then_error header
                (visible_columns_of header (hidden_columns self))
                (drop (Z.to_nat (current_page self * page_size self)) rows)
                Hvis 0 s1)
      as (self' & items & Hload & Hitems_eq & Hitems & Hnext).
    { rewrite Hsize1. unfold len in *. rewrite length_drop. nia. }
    pose proof (load_rows_frame header
                  (visible_columns_of header (hidden_columns self)) 0
                  (rows_then
                     (drop (Z.to_nat (current_page self * page_size self))
                        rows) Csv.RError) s1) as Hrows.
    rewrite Hload in *. simpl in Hrows. simpl fst. simpl snd.
    destruct Hrows as (_ & _ & Hheaders' & _).
    split; [reflexivity|]. split; [congruence|]. split; [|congruence].
    rewrite Hchildren in Hitems_eq. simpl in Hitems_eq.
    unfold page_rows. rewrite Hitems_eq. apply shown_rows, Hitems.
  - rewrite skip_rows_then_error by lia. simpl fst. simpl snd.
    split; [reflexivity|]. split; [exact Hheaders|]. split; [|exact Hnext1].
    unfold page_rows. rewrite Hchildren.
    rewrite drop_ge by (unfold len in Hstart; lia). reflexivity.
Qed.

Lemma csv_error_leaves_partial_page_witness :
  let files := one_file "data.csv" oversized_text in
  let self := example_viewer 0 in
  let page := _load_page files self in
  snd page = Raised CsvError
  /\ column_headers (fst page) = ["h"]
  /\ page_rows (fst page)
     = (fun row =>
          cell row <$> visible_columns_of ["h"] (hidden_columns self))
         <$> drop (Z.to_nat (current_page self * page_size self)) []
  /\ has_next_page (fst page) = has_next_page self.
Proof.
  intros files self.
  apply (csv_error_leaves_partial_page files self "data.csv" oversized_text
           ["h"] []).
  - reflexivity.
  - discriminate.
  - reflexivity.
  - apply reader_oversized_text. left.
  - reflexivity.
  - discriminate.
  - discriminate.
Defined.

(** * Expanding and collapsing the columns *)

(** X24. The expand toggle flips its flag whenever the callback returns.
    With the flag unset it reads no file at all.  With the flag set it
    first reloads the page: when the reload returns, the callback leaves
    the viewer the reload left, with the flag cleared, and when the reload
    raises, the callback ends with that exception and leaves the viewer
    the reload left, the flag still set.  The page index, the page size,
    the delimiter and the hidden columns are never touched. *)
Theorem toggle_expand_columns_flips files self :
  let r := _toggle_expand_columns files self in
  (snd r = Returned -> expand_columns (fst r) = negb (expand_columns self))
  /\ (snd r <> Returned ->
      expand_columns self = true /\ expand_columns (fst r) = true)
  /\ (expand_columns self = false ->
      r = (set_expand_columns true self, Returned))
  /\ (expand_columns self = true ->
      r = match _load_page files self with
          | (loaded, Returned) => (set_expand_columns false loaded, Returned)
          | (loaded, Raised e) => (loaded, Raised e)
          end)
  /\ current_page (fst r) = current_page self
  /\ page_size (fst r) = page_size self
  /\ delimiter (fst r) = delimiter self
  /\ hidden_columns (fst r) = hidden_columns self.
Proof.
  intros r. subst r. unfold _toggle_expand_columns, seq_stmt, assign.
  destruct (expand_columns self) eqn:Hflag.
  - frame_load; simpl.
    + destruct Hframe as (_ & Hps & Hcp & Hd & Hex & Hh & _).
      rewrite Hex, Hflag.
      split; [reflexivity|]. split; [congruence|]. split; [discriminate|].
      split; [reflexivity|]. repeat split; assumption.
    + destruct Hframe as (_ & Hps & Hcp & Hd & Hex & Hh & _).
      rewrite Hex, Hflag.
      split; [discriminate|]. split; [split; reflexivity|].
      split; [discriminate|]. split; [reflexivity|].
      repeat split; assumption.
  - simpl. rewrite Hflag.
    split; [reflexivity|]. split; [congruence|].
    split; [reflexivity|]. split; [discriminate|]. repeat split.
Qed.
